(** * sync.py: the static-site build script, embedded in Rocq

    The script converts Markdown posts to HTML pages, renders project cards
    and a blog list, and injects both fragments between marker comments of
    the index page.  This file embeds [src/sync.py] function by function:

    - Python [str] values are lists of characters ([text]); one list element
      is one Python character (code points below 256);
    - the file system, the clock and the record of [open] calls form the
      [world] that every effectful function threads through the monad [M];
      an uncaught Python exception is the outcome [Raised];
    - the file system is the one of POSIX: a file opened for reading in text
      mode gives its characters with every line ending turned into a line
      feed, a file opened for writing takes the characters as they are; a
      regular file that is not UTF-8 has no text to give;
    - a path names what the world holds under that very spelling;
    - the regular expressions of the script are embedded as the scanning
      functions a backtracking matcher performs for them (module [Re]), the
      replacement template of [re.sub] as CPython from 3.7 on parses it;
    - the libraries the script calls but does not contain ([json],
      [markdown2], local-time conversion, [str()] of non-string values, the
      regular-expression engine on patterns other than those embedded here)
      are the fields of the record [external]. *)

From Stdlib Require Import ZArith List Ascii String Lia Bool.
From Stdlib Require Import Floats.SpecFloat.
From stdpp Require Import base option list sorting gmap strings.

Local Open Scope Z_scope.
Local Open Scope nat_scope.
Local Open Scope stdpp_scope.

(** ** Text *)

Definition text := list ascii.

Definition txt (s : string) : text := list_ascii_of_string s.

Definition dquote : ascii := "034"%char.
Definition newline : ascii := "010"%char.
Definition backslash : ascii := "092"%char.
Definition carriage_return : ascii := "013"%char.

(** HTML literals are written with [~] where the Python source has a double
    quote; the source contains no [~]. *)
Definition html (s : string) : text :=
  map (fun c => if Ascii.eqb c "~"%char then dquote else c) (txt s).

Module Text.

(** [str.isspace] on one character, which is also what [str.strip()] removes
    and what [\s] matches in a [str] pattern. *)
Definition is_space (c : ascii) : bool :=
  let n := nat_of_ascii c in
  ((9 <=? n) && (n <=? 13)) || ((28 <=? n) && (n <=? 32))
  || (n =? 133) || (n =? 160).

Fixpoint lstrip (s : text) : text :=
  match s with
  | c :: s' => if is_space c then lstrip s' else s
  | [] => []
  end.

Definition rstrip (s : text) : text := rev (lstrip (rev s)).

(** [s.strip()] *)
Definition strip (s : text) : text := rstrip (lstrip s).

(** [s.startswith(needle)] *)
Fixpoint starts_with (needle s : text) : bool :=
  match needle, s with
  | [], _ => true
  | _ :: _, [] => false
  | a :: needle', b :: s' => Ascii.eqb a b && starts_with needle' s'
  end.

(** [s.endswith(suffix)] *)
Definition ends_with (suffix s : text) : bool :=
  starts_with (rev suffix) (rev s).

(** [s.find(needle)]: the index of the first occurrence. *)
Fixpoint find_sub (needle s : text) : option nat :=
  if starts_with needle s then Some 0
  else match s with
       | [] => None
       | _ :: s' => S <$> find_sub needle s'
       end.

(** The number of positions of [s] at which [needle] occurs. *)
Fixpoint count_sub (needle s : text) : nat :=
  (if starts_with needle s then 1 else 0) +
  match s with
  | [] => 0
  | _ :: s' => count_sub needle s'
  end.

(** Left-to-right scan of [str.replace] for a non-empty [old]; [skip] is
    the number of characters of the last occurrence still to pass. *)
Fixpoint replace_from (old new s : text) (skip : nat) : text :=
  match s with
  | [] => []
  | c :: s' =>
      match skip with
      | S k => replace_from old new s' k
      | O => if starts_with old s
             then new ++ replace_from old new s' (length old - 1)
             else c :: replace_from old new s' 0
      end
  end.

(** [s.replace(old, new)]; an empty [old] matches between all characters. *)
Definition replace (old new s : text) : text :=
  match old with
  | [] => new ++ flat_map (fun c => c :: new) s
  | _ :: _ => replace_from old new s 0
  end.

Definition contains_char (c : ascii) (s : text) : bool :=
  existsb (Ascii.eqb c) s.

Fixpoint take_while (p : ascii -> bool) (s : text) : text :=
  match s with
  | c :: s' => if p c then c :: take_while p s' else []
  | [] => []
  end.

(** What reading in text mode makes of the characters of a file: a carriage
    return together with the line feed after it, and a carriage return
    alone, become one line feed.  [after_cr] tells that the character before
    was a carriage return. *)
Fixpoint translate_newlines (s : text) (after_cr : bool) : text :=
  match s with
  | [] => []
  | c :: s' =>
      if Ascii.eqb c carriage_return then newline :: translate_newlines s' true
      else if Ascii.eqb c newline && after_cr then translate_newlines s' false
      else c :: translate_newlines s' false
  end.

Definition universal_newlines (s : text) : text := translate_newlines s false.

End Text.

(** ** Regular expressions of the script *)

Module Re.
Import Text.

Definition is_newline (c : ascii) : bool := Ascii.eqb c newline.

(** *** The heading pattern of create_blog_post: line start, [#], [\s+],
    then a greedy group of non-newline characters; flag [re.MULTILINE] *)

(** The match attempt at a line start: [#], at least one whitespace
    character, then greedily all whitespace (newlines included), and group 1
    is the rest of the line reached. *)
Definition md_title_at (s : text) : option text :=
  match s with
  | h :: c :: r =>
      if Ascii.eqb h "#"%char && is_space c
      then Some (take_while (fun x => negb (is_newline x)) (lstrip r))
      else None
  | _ => None
  end.

(** [re.search]: [bol] tells whether the current position is the start of
    the text or follows a newline. *)
Fixpoint md_title_search (s : text) (bol : bool) : option text :=
  match (if bol then md_title_at s else None) with
  | Some t => Some t
  | None =>
      match s with
      | [] => None
      | c :: s' => md_title_search s' (is_newline c)
      end
  end.

(** *** The title pattern of extract_post_details: [<title>], a lazy group
    of non-newline characters, then [ | hxr3tic</title>] *)

Definition title_open : text := txt "<title>".
Definition title_close : text := txt " | hxr3tic</title>".

(** The lazy group followed by the literal [stop]; [.] excludes the newline. *)
Fixpoint lazy_line_until (stop s : text) : option text :=
  if starts_with stop s then Some []
  else match s with
       | [] => None
       | c :: s' =>
           if is_newline c then None
           else cons c <$> lazy_line_until stop s'
       end.

Fixpoint title_search (s : text) : option text :=
  match (if starts_with title_open s
         then lazy_line_until title_close (drop (length title_open) s)
         else None) with
  | Some t => Some t
  | None =>
      match s with
      | [] => None
      | _ :: s' => title_search s'
      end
  end.

(** *** The description pattern of extract_post_details: the container tag,
    a lazy run, [<p>], a lazy group, [</p>]; flag [re.DOTALL] *)

Definition desc_div : text := html "<div class=~blog-content~>".
Definition desc_p : text := txt "<p>".
Definition desc_p_close : text := txt "</p>".

(** With [DOTALL] both lazy runs accept every character, so the leftmost
    match starts at the first container tag, runs to the first [<p>] after
    it and captures up to the first [</p>] after that.  When no [</p>]
    follows the first [<p>], none follows a later [<p>] or a later container
    tag either, and the search fails. *)
Definition desc_search (s : text) : option text :=
  i ← find_sub desc_div s;
  let r1 := drop (i + length desc_div) s in
  j ← find_sub desc_p r1;
  let r2 := drop (j + length desc_p) r1 in
  k ← find_sub desc_p_close r2;
  Some (take k r2).

(** *** [re.sub('<[^<]+?>', '', description)] *)

(** After the first character of the lazy class [[^<]+?]: the distance to
    the closing [>]. *)
Fixpoint tag_close (r : text) : option nat :=
  match r with
  | [] => None
  | c :: r' =>
      if Ascii.eqb c ">"%char then Some 1
      else if Ascii.eqb c "<"%char then None
      else S <$> tag_close r'
  end.

(** [r] follows a [<]: the number of characters the match takes from [r]. *)
Definition tag_len (r : text) : option nat :=
  match r with
  | [] => None
  | c :: r' => if Ascii.eqb c "<"%char then None else S <$> tag_close r'
  end.

Fixpoint strip_tags_from (s : text) (skip : nat) : text :=
  match s with
  | [] => []
  | c :: s' =>
      match skip with
      | S k => strip_tags_from s' k
      | O =>
          if Ascii.eqb c "<"%char then
            match tag_len s' with
            | Some n => strip_tags_from s' n
            | None => c :: strip_tags_from s' 0
            end
          else c :: strip_tags_from s' 0
      end
  end.

Definition strip_tags (s : text) : text := strip_tags_from s 0.

End Re.

(** *** The replacement template of [re.sub] *)

Module Template.
Import Text.

(** A compiled template: literal characters and group references. *)
Inductive piece :=
| Lit (c : ascii)
| Group (n : nat).

(** The scanner is either between tokens or inside the name of [\g<name>]
    (the characters of the name read so far, last first). *)
Inductive tstate :=
| TNormal
| TName (acc : text).

Definition digit_val (c : ascii) : option nat :=
  let n := nat_of_ascii c in
  if (48 <=? n) && (n <=? 57) then Some (n - 48) else None.

Definition is_octdigit (c : ascii) : bool :=
  let n := nat_of_ascii c in (48 <=? n) && (n <=? 55).

Definition is_ascii_letter (c : ascii) : bool :=
  let n := nat_of_ascii c in
  ((65 <=? n) && (n <=? 90)) || ((97 <=? n) && (n <=? 122)).

(** The table [ESCAPES] of the template parser. *)
Definition escape (c : ascii) : option ascii :=
  match nat_of_ascii c with
  | 97 => Some "007"%char
  | 98 => Some "008"%char
  | 102 => Some "012"%char
  | 110 => Some "010"%char
  | 114 => Some "013"%char
  | 116 => Some "009"%char
  | 118 => Some "011"%char
  | 92 => Some backslash
  | _ => None
  end.

Definition oct (c : ascii) : nat := nat_of_ascii c - 48.

(** The value of a decimal group name; [None] when a character is not an
    ASCII digit or the name is empty (the parser raises for both). *)
Fixpoint decimal (acc : nat) (name : text) : option nat :=
  match name with
  | [] => Some acc
  | c :: r => d ← digit_val c; decimal (10 * acc + d) r
  end.

(** The pattern of the script has one group: a reference beyond it raises
    "invalid group reference". *)
Definition groups : nat := 1.

Definition addgroup (n : nat) : option piece :=
  if n <=? groups then Some (Group n) else None.

(** Decimal digits with single underscores between them, as [int] reads
    them; [prev_digit] tells that the character before was a digit. *)
Fixpoint int_digits (acc : nat) (s : text) (prev_digit : bool) : option nat :=
  match s with
  | [] => if prev_digit then Some acc else None
  | c :: r =>
      match digit_val c with
      | Some d => int_digits (10 * acc + d) r true
      | None =>
          if Ascii.eqb c "_"%char && prev_digit then int_digits acc r false
          else None
      end
  end.

(** The whitespace [int] skips around a number. *)
Definition int_space (c : ascii) : bool :=
  let n := nat_of_ascii c in
  ((9 <=? n) && (n <=? 13)) || (n =? 32) || (n =? 133) || (n =? 160).

Definition int_strip (s : text) : text :=
  let drop_space := fix go (s : text) : text :=
    match s with
    | c :: s' => if int_space c then go s' else s
    | [] => []
    end in
  rev (drop_space (rev (drop_space s))).

(** [int(name)] where the result is not negative: whitespace around, a
    sign, then the digits ([-0] is zero and passes). *)
Definition int_name (name : text) : option nat :=
  match int_strip name with
  | [] => None
  | c :: r =>
      if Ascii.eqb c "+"%char then int_digits 0 r false
      else if Ascii.eqb c "-"%char
           then n ← int_digits 0 r false; if n =? 0 then Some 0 else None
           else int_digits 0 (c :: r) false
  end.

(** The group a name between [\g<] and [>] refers to.  The pattern has no
    named group, so only a number can refer to one.  From CPython 3.12 on
    the number is a run of ASCII digits; from 3.7 to 3.11 ([legacy]) it is
    whatever [int] accepts and is not an identifier. *)
Definition group_of_name (legacy : bool) (name : text) : option piece :=
  match name with
  | [] => None
  | _ :: _ =>
      n ← (if legacy then int_name name else decimal 0 name); addgroup n
  end.

(** [parse_template]: [None] stands for the exception the parser raises
    ([re.error], or [IndexError] for a group name that is an identifier). *)
Fixpoint parse (legacy : bool) (s : text) (st : tstate) : option (list piece) :=
  match st with
  | TName acc =>
      match s with
      | [] => None
      | c :: r =>
          if Ascii.eqb c ">"%char
          then g ← group_of_name legacy (rev acc); cons g <$> parse legacy r TNormal
          else parse legacy r (TName (c :: acc))
      end
  | TNormal =>
      match s with
      | [] => Some []
      | c :: r =>
          if negb (Ascii.eqb c backslash) then cons (Lit c) <$> parse legacy r TNormal
          else
            match r with
            | [] => None
            | e :: r1 =>
                if Ascii.eqb e "g"%char then
                  match r1 with
                  | lt :: r2 =>
                      if Ascii.eqb lt "<"%char then parse legacy r2 (TName []) else None
                  | [] => None
                  end
                else if Ascii.eqb e "0"%char then
                  match r1 with
                  | d1 :: r2 =>
                      if is_octdigit d1 then
                        match r2 with
                        | d2 :: r3 =>
                            if is_octdigit d2
                            then cons (Lit (ascii_of_nat (8 * oct d1 + oct d2)))
                                   <$> parse legacy r3 TNormal
                            else cons (Lit (ascii_of_nat (oct d1)))
                                   <$> parse legacy r2 TNormal
                        | [] => cons (Lit (ascii_of_nat (oct d1)))
                                  <$> parse legacy r2 TNormal
                        end
                      else cons (Lit (ascii_of_nat 0)) <$> parse legacy r1 TNormal
                  | [] => cons (Lit (ascii_of_nat 0)) <$> parse legacy r1 TNormal
                  end
                else
                  match digit_val e with
                  | Some n1 =>
                      match r1 with
                      | d2 :: r2 =>
                          match digit_val d2 with
                          | Some n2 =>
                              match r2 with
                              | d3 :: r3 =>
                                  if is_octdigit e && is_octdigit d2
                                     && is_octdigit d3
                                  then
                                    let v := 64 * oct e + 8 * oct d2 + oct d3 in
                                    if 255 <? v then None
                                    else cons (Lit (ascii_of_nat v))
                                           <$> parse legacy r3 TNormal
                                  else g ← addgroup (10 * n1 + n2);
                                       cons g <$> parse legacy r2 TNormal
                              | [] => g ← addgroup (10 * n1 + n2);
                                      cons g <$> parse legacy r2 TNormal
                              end
                          | None => g ← addgroup n1; cons g <$> parse legacy r1 TNormal
                          end
                      | [] => g ← addgroup n1; cons g <$> parse legacy r1 TNormal
                      end
                  | None =>
                      match escape e with
                      | Some x => cons (Lit x) <$> parse legacy r1 TNormal
                      | None =>
                          if is_ascii_letter e then None
                          else (fun t => Lit c :: Lit e :: t) <$> parse legacy r1 TNormal
                      end
                  end
            end
      end
  end.

(** [re.sub] takes a replacement without a backslash literally and hands
    every other one to the template parser, before it searches. *)
Definition compile (legacy : bool) (repl : text) : option (list piece) :=
  if contains_char backslash repl then parse legacy repl TNormal
  else Some (map Lit repl).

(** Expansion for one match: group 0 is the whole match, group 1 the
    captured text (empty when the group took no part in the match). *)
Definition expand (t : list piece) (whole g1 : text) : text :=
  flat_map (fun p => match p with
                     | Lit c => [c]
                     | Group 0 => whole
                     | Group _ => g1
                     end) t.

End Template.

(** *** [re.sub] with the marker pattern of update_index_html *)

Module Marker.
Import Text.

(** The pattern is [start], then the lazily repeated group that accepts any
    one character (a non-newline character or a newline), then [stop];
    [start] and [stop] are literal for a placeholder name of letters, digits
    and underscores.  A match at a position begins with [start] there and
    ends with the first [stop] after it; the group holds the last character
    it accepted. *)
Definition plain_char (c : ascii) : bool :=
  let n := nat_of_ascii c in
  ((48 <=? n) && (n <=? 57)) || ((65 <=? n) && (n <=? 90))
  || ((97 <=? n) && (n <=? 122)) || (n =? 95).

Definition plain_name (placeholder : text) : bool := forallb plain_char placeholder.

(** The match at the head of [s]: the length of the region between the
    markers. *)
Definition match_here (start stop s : text) : option nat :=
  if starts_with start s then find_sub stop (drop (length start) s) else None.

Definition last_char (region : text) : text :=
  match rev region with
  | [] => []
  | c :: _ => [c]
  end.

(** All non-overlapping matches, leftmost first; [skip] counts the
    characters of the last match still to pass. *)
Fixpoint sub_from (start stop : text) (t : list Template.piece)
    (s : text) (skip : nat) : text :=
  match s with
  | [] => []
  | c :: s' =>
      match skip with
      | S k => sub_from start stop t s' k
      | O =>
          match match_here start stop s with
          | Some j =>
              let region := take j (drop (length start) s) in
              let whole := start ++ region ++ stop in
              Template.expand t whole (last_char region)
              ++ sub_from start stop t s' (length whole - 1)
          | None => c :: sub_from start stop t s' 0
          end
      end
  end.

(** [re.sub(pattern, repl, s)]; [None] when the template does not compile. *)
Definition sub (legacy : bool) (start stop repl s : text) : option text :=
  t ← Template.compile legacy repl;
  Some (sub_from start stop t s 0).

End Marker.

(** ** Paths ([os.path] on POSIX) *)

Module Path.
Import Text.

Definition slash : ascii := "/"%char.
Definition dot : ascii := "."%char.

(** [p.rfind(c)] *)
Definition rfind (c : ascii) (p : text) : option nat :=
  i ← find_sub [c] (rev p); Some (length p - 1 - i).

(** [os.path.basename]: what follows the last slash. *)
Definition basename_text (p : text) : text :=
  match rfind slash p with
  | Some i => drop (S i) p
  | None => p
  end.

(** [os.path.splitext]: the extension starts at the last dot, provided the
    dot lies in the last component and a character other than a dot precedes
    it there (a name of leading dots has no extension). *)
Definition splitext_text (p : text) : text * text :=
  match rfind dot p with
  | None => (p, [])
  | Some d =>
      let first := match rfind slash p with Some s => S s | None => 0 end in
      if (first <=? d)
         && existsb (fun c => negb (Ascii.eqb c dot)) (take (d - first) (drop first p))
      then (take d p, drop d p)
      else (p, [])
  end.

(** [os.path.join(a, b)] *)
Definition join_text (a b : text) : text :=
  if starts_with [slash] b then b
  else if (length a =? 0) || ends_with [slash] a then a ++ b
  else a ++ [slash] ++ b.

Definition of_text (p : text) : string := string_of_list_ascii p.

Definition basename (p : string) : string := of_text (basename_text (txt p)).
Definition splitext (p : string) : string * string :=
  let r := splitext_text (txt p) in (of_text r.1, of_text r.2).
Definition join (a b : string) : string := of_text (join_text (txt a) (txt b)).
Definition endswith (suffix p : string) : bool := ends_with (txt suffix) (txt p).

(** The directories a path leads through: what stands before each slash
    that ends a component ([a] and [a/b] for [a/b/c]). *)
Fixpoint ancestors_from (seen rest : text) : list text :=
  match rest with
  | [] => []
  | c :: rest' =>
      (if Ascii.eqb c slash
       then match seen with
            | [] => []
            | x :: _ => if Ascii.eqb x slash then [] else [rev seen]
            end
       else [])
      ++ ancestors_from (c :: seen) rest'
  end.

Definition ancestors (p : string) : list string :=
  map of_text (ancestors_from [] (txt p)).

(** The directory a path lies in, when the path names one: the last of the
    directories it leads through. *)
Definition parent (p : string) : option string := last (ancestors p).

(** The name a path has inside directory [d], when it lies directly in it. *)
Definition child_name (d p : string) : option string :=
  let pre := txt d ++ [slash] in
  if starts_with pre (txt p)
  then let name := drop (length pre) (txt p) in
       if (0 <? length name) && negb (contains_char slash name)
       then Some (of_text name) else None
  else None.

End Path.

(** ** The world: file system, clock, record of [open] calls *)

(** The file system maps a path to what is there.  A file has the
    characters its bytes encode in UTF-8, line endings as they are stored,
    and its modification time; a regular file whose bytes are not UTF-8 is a
    [Blob]; a directory keeps the modification time it was given (the script
    asks for the modification time of regular files only).  Every write
    stamps the file with the clock and moves the clock on by one unit.

    A world describes a file system when every path with a node has
    directories for all the paths it leads through; the operations below
    look at those only to tell which error a path without a node gives. *)
Inductive node :=
| File (content : text) (mtime : Z)
| Dir (mtime : Z)
| Blob (mtime : Z).

Inductive mode := Reading | Writing.

Record world := World {
  files : gmap string node;
  clock : Z;
  opened : list (string * mode)
}.

(** The exceptions the script can meet, all of them subclasses of
    [Exception]. [TemplateError] is what [re.sub] raises when the replacement
    template does not compile ([re.error], or [IndexError] for an unknown
    group name); [OtherError] stands for every exception of a library that
    the script does not name. *)
Inductive exn :=
| FileNotFoundError
| IsADirectoryError
| NotADirectoryError
| FileExistsError
| UnicodeDecodeError
| JSONDecodeError
| RecursionError
| ValueError
| OverflowError
| AttributeError
| TypeError
| TemplateError
| OtherError.

Inductive outcome (A : Type) :=
| Returned (a : A) (w : world)
| Raised (e : exn) (w : world).
Arguments Returned {A} a w.
Arguments Raised {A} e w.

Definition M (A : Type) : Type := world -> outcome A.

Definition ret {A} (a : A) : M A := fun w => Returned a w.

Definition bind {A B} (m : M A) (k : A -> M B) : M B :=
  fun w => match m w with
           | Returned a w' => k a w'
           | Raised e w' => Raised e w'
           end.

Definition raise {A} (e : exn) : M A := fun w => Raised e w.

Notation "'let*' x := c 'in' k" := (bind c (fun x => k))
  (at level 10, x name, c at level 100, k at level 200, only parsing).

(** The world an outcome leaves behind. *)
Definition world_of {A} (o : outcome A) : world :=
  match o with
  | Returned _ w => w
  | Raised _ w => w
  end.

(** [try: ... except FileNotFoundError: return None] around an action. *)
Definition except_not_found {A} (m : M A) : M (option A) :=
  fun w => match m w with
           | Returned a w' => Returned (Some a) w'
           | Raised FileNotFoundError w' => Returned None w'
           | Raised e w' => Raised e w'
           end.

(** [try: ... except Exception: return None] *)
Definition except_any {A} (m : M (option A)) : M (option A) :=
  fun w => match m w with
           | Returned a w' => Returned a w'
           | Raised _ w' => Returned None w'
           end.

Module Fs.

Definition record_open (p : string) (m : mode) (w : world) : world :=
  World (files w) (clock w) (opened w ++ [(p, m)]).

(** A regular file stands at one of the paths that [p] leads through. *)
Definition under_file (p : string) (w : world) : bool :=
  existsb (fun d => match files w !! d with
                    | Some (File _ _) | Some (Blob _) => true
                    | _ => false
                    end)
          (Path.ancestors p).

(** The error for a path at which nothing is found: [ENOTDIR] when the path
    leads through a regular file, [ENOENT] otherwise. *)
Definition absent_error (p : string) (w : world) : exn :=
  if under_file p w then NotADirectoryError else FileNotFoundError.

(** [with open(p, 'r', encoding='utf-8') as f: f.read()] *)
Definition open_read (p : string) : M text :=
  fun w =>
    let w' := record_open p Reading w in
    match files w !! p with
    | Some (File c _) => Returned (Text.universal_newlines c) w'
    | Some (Blob _) => Raised UnicodeDecodeError w'
    | Some (Dir _) => Raised IsADirectoryError w'
    | None => Raised (absent_error p w) w'
    end.

(** [with open(p, 'w', encoding='utf-8') as f: f.write(c)]: an existing
    file is replaced as a whole, a new one is created when its directory
    exists; the file is stamped with the clock. *)
Definition open_write (p : string) (c : text) : M unit :=
  fun w =>
    let w' := record_open p Writing w in
    let store := World (<[p := File c (clock w)]> (files w))
                       (clock w + 1)%Z (opened w') in
    match files w !! p with
    | Some (Dir _) => Raised IsADirectoryError w'
    | Some (File _ _) | Some (Blob _) => Returned tt store
    | None =>
        match Path.parent p with
        | None => Returned tt store
        | Some d =>
            match files w !! d with
            | Some (Dir _) => Returned tt store
            | _ => Raised (absent_error p w) w'
            end
        end
    end.

(** [os.path.exists] *)
Definition exists_ (p : string) : M bool :=
  fun w => Returned (bool_decide (is_Some (files w !! p))) w.

(** [os.path.isdir] *)
Definition isdir (p : string) : M bool :=
  fun w => Returned (match files w !! p with Some (Dir _) => true | _ => false end) w.

(** [os.path.getmtime] *)
Definition getmtime (p : string) : M Z :=
  fun w => match files w !! p with
           | Some (File _ t) | Some (Blob t) | Some (Dir t) => Returned t w
           | None => Raised (absent_error p w) w
           end.

(** [os.listdir]: the names directly inside the directory, in the order
    the file system yields them. *)
Definition listdir (d : string) : M (list string) :=
  fun w => match files w !! d with
           | Some (Dir _) =>
               Returned (omap (fun kv => Path.child_name d kv.1)
                              (map_to_list (files w))) w
           | Some (File _ _) | Some (Blob _) => Raised NotADirectoryError w
           | None => Raised (absent_error d w) w
           end.

(** [os.makedirs(d, exist_ok=True)] for a single-component [d]. *)
Definition makedirs (d : string) : M unit :=
  fun w => match files w !! d with
           | Some (Dir _) => Returned tt w
           | Some (File _ _) | Some (Blob _) => Raised FileExistsError w
           | None => Returned tt (World (<[d := Dir (clock w)]> (files w))
                                        (clock w + 1)%Z (opened w))
           end.

End Fs.

(** ** Python values, as [json.load] produces them *)

#[local] Unset Elimination Schemes.
Inductive pyval :=
| PNone
| PBool (b : bool)
| PInt (z : Z)
| PFloat (f : spec_float)
| PStr (s : text)
| PList (l : list pyval)
| PDict (items : list (text * pyval)).
#[local] Set Elimination Schemes.

Module Py.

Definition text_eqb (a b : text) : bool := bool_decide (a = b).

(** [d.get(key)] on the items of a dict. *)
Fixpoint lookup (key : text) (items : list (text * pyval)) : option pyval :=
  match items with
  | [] => None
  | (k, v) :: r => if text_eqb k key then Some v else lookup key r
  end.

(** [bool(v)] *)
Definition truthy (v : pyval) : bool :=
  match v with
  | PNone => false
  | PBool b => b
  | PInt z => negb (z =? 0)%Z
  | PFloat (S754_zero _) => false
  | PFloat _ => true
  | PStr s => negb (length s =? 0)
  | PList l => negb (length l =? 0)
  | PDict d => negb (length d =? 0)
  end.

(** [for x in v]: the elements of a list, the keys of a dict, the
    characters of a string; other values are not iterable. *)
Definition iterate (v : pyval) : exn + list pyval :=
  match v with
  | PList l => inr l
  | PDict d => inr (map (fun kv => PStr kv.1) d)
  | PStr s => inr (map (fun c => PStr [c]) s)
  | _ => inl TypeError
  end.

End Py.

(** ** What the script takes from outside *)

Record external := External {
  (** [json.loads]: the value, or the exception raised: [JSONDecodeError]
      for text that is not valid JSON, another one ([RecursionError],
      [ValueError]) for JSON the decoder gives up on *)
  json_loads : text -> exn + pyval;
  (** [markdown2.markdown(_, extras=['fenced-code-blocks', 'tables'])] *)
  markdown : text -> text;
  (** [datetime.fromtimestamp] of a modification time: the naive local
      datetime, as its count of microseconds (naive datetimes compare as
      these counts do), or the exception raised for a time outside the
      years the type holds *)
  fromtimestamp : Z -> exn + Z;
  (** [strftime("%B %d, %Y")] of such a datetime *)
  strftime : Z -> text;
  (** [str(v)] for a value that is not a string *)
  py_str : pyval -> text;
  (** the template parser reads group names as CPython 3.7 to 3.11 does
      (from 3.12 on it does not) *)
  legacy_group_names : bool;
  (** [re.sub(pattern, repl, string)] for the patterns not embedded here *)
  re_sub : text -> text -> text -> exn + text
}.

(** ** The literal parts of the generated markup *)

Module Markup.

(** A line break of the source literal and the indentation after it. *)
Definition nl (indent : nat) : text := newline :: repeat " "%char indent.

Definition card_0 : text :=
  nl 24 ++
  html "<div class=~project-card glass-card rounded-2xl overflow-hidden group flex flex-col~>" ++
  nl 28 ++
  html "<img src=~".
Definition card_1 : text :=
  html "~ alt=~".
Definition card_2 : text :=
  html "~ class=~w-full h-48 object-cover group-hover:scale-105 transition-transform duration-500~>" ++
  nl 28 ++
  html "<div class=~p-6 flex flex-col flex-grow~>" ++
  nl 32 ++
  html "<h3 class=~text-xl font-bold text-white mb-2~>".
Definition card_3 : text :=
  html "</h3>" ++
  nl 32 ++
  html "<p class=~text-gray-300 mb-4 flex-grow~>".
Definition card_4 : text :=
  html "</p>" ++
  nl 32 ++
  html "<div class=~flex flex-wrap gap-2 mb-4~>".
Definition card_5 : text :=
  html "</div>" ++
  nl 32 ++
  html "<div class=~flex items-center space-x-4 mt-auto~>" ++
  nl 36 ++
  html "<a href=~".
Definition card_6 : text :=
  html "~ target=~_blank~ class=~text-[var(--neon-green)] hover:opacity-80 font-semibold flex items-center space-x-1~><i data-lucide=~github~ class=~h-5 w-5~></i><span>Source Code</span></a>" ++
  nl 36.
Definition card_7 : text :=
  nl 32 ++
  html "</div>" ++
  nl 28 ++
  html "</div>" ++
  nl 24 ++
  html "</div>".
Definition entry_0 : text :=
  nl 24 ++
  html "<div class=~blog-post-entry flex flex-col sm:flex-row items-center gap-8 py-4 border-b border-[var(--border-color-rgba)]~>" ++
  nl 28 ++
  html "<div class=~flex-grow~>" ++
  nl 32 ++
  html "<p class=~text-sm text-gray-400 mb-2~>".
Definition entry_1 : text :=
  html "</p>" ++
  nl 32 ++
  html "<h3 class=~text-xl font-bold text-white mb-2~>".
Definition entry_2 : text :=
  html "</h3>" ++
  nl 32 ++
  html "<p class=~text-gray-300 mb-4~>".
Definition entry_3 : text :=
  html "...</p>" ++
  nl 28 ++
  html "</div>" ++
  nl 28 ++
  html "<a href=~".
Definition entry_4 : text :=
  html "~ class=~flex-shrink-0 text-[var(--neon-green)] hover:opacity-80 font-semibold flex items-center space-x-1~>" ++
  nl 32 ++
  html "<span>Read More</span>" ++
  nl 32 ++
  html "<i data-lucide=~arrow-right~ class=~h-5 w-5~></i>" ++
  nl 28 ++
  html "</a>" ++
  nl 24 ++
  html "</div>".
Definition demo_0 : text :=
  html "<a href=~".
Definition demo_1 : text :=
  html "~ target=~_blank~ class=~text-[var(--neon-green)] hover:opacity-80 font-semibold flex items-center space-x-1~><i data-lucide=~external-link~ class=~h-5 w-5~></i><span>Live Demo</span></a>".
Definition tag_0 : text :=
  html "<span class=~bg-gray-700 text-xs font-semibold px-2.5 py-1 rounded-full~>".
Definition tag_1 : text :=
  html "</span>".

Definition default_image : text :=
  txt "https://placehold.co/600x300/1f2937/bfff00?text=Project".

End Markup.

(** ** The functions of sync.py *)

(** [post]: the dict extract_post_details returns. *)
Record post := Post {
  title : text;
  description : text;
  path : text;
  date_obj : Z;
  date_str : text
}.

(** [list.sort(key=..., reverse=True)]: descending by key, and stable (posts
    of equal key keep the order they had). *)
Fixpoint insert_desc (p : post) (l : list post) : list post :=
  match l with
  | [] => [p]
  | q :: l' =>
      if (date_obj q <=? date_obj p)%Z then p :: l
      else q :: insert_desc p l'
  end.

Definition sort_desc (l : list post) : list post := foldr insert_desc [] l.

Section Pipeline.
Context (ext : external).
Import Text Markup.

(** *** create_blog_post *)

Definition output_path_of (md_file_path output_dir : string) : string :=
  let output_filename := (Path.splitext (Path.basename md_file_path)).1 +:+ ".html" in
  Path.join output_dir output_filename.

Definition create_blog_post (md_file_path template_path output_dir : string)
    : M (option string) :=
  let output_path := output_path_of md_file_path output_dir in
  let* there := Fs.exists_ output_path in
  if there then ret (Some output_path)
  else
    let* md := except_not_found (Fs.open_read md_file_path) in
    match md with
    | None => ret None
    | Some md_content =>
        let* tpl := except_not_found (Fs.open_read template_path) in
        match tpl with
        | None => ret None
        | Some template_html =>
            let title :=
              match Re.md_title_search md_content true with
              | Some g => strip g
              | None => txt "Untitled Post"
              end in
            let html_content := markdown ext md_content in
            let final_html :=
              replace (txt "<!-- BLOG_TITLE_PLACEHOLDER -->") title template_html in
            let final_html :=
              replace (txt "<!-- BLOG_CONTENT_PLACEHOLDER -->") html_content final_html in
            let* _ := Fs.open_write output_path final_html in
            ret (Some output_path)
        end
    end.

(** *** update_index_html *)

Definition placeholder_start (placeholder : text) : text :=
  txt "<!-- " ++ placeholder ++ txt "_START -->".
Definition placeholder_end (placeholder : text) : text :=
  txt "<!-- " ++ placeholder ++ txt "_END -->".

(** The replacement string handed to [re.sub]. *)
Definition replacement (content_to_inject placeholder : text) : text :=
  placeholder_start placeholder ++ [newline] ++ content_to_inject
  ++ nl 24 ++ placeholder_end placeholder.

(** The pattern handed to [re.sub]. *)
Definition marker_pattern (placeholder : text) : text :=
  placeholder_start placeholder ++ txt "(.|" ++ [newline] ++ txt ")*?"
  ++ placeholder_end placeholder.

(** The [re.sub] call.  For a placeholder name of letters, digits and
    underscores the markers are literal text in the pattern and the call is
    the substitution of module [Marker]; any other name may bring
    metacharacters into the pattern, and the call is left to the engine. *)
Definition sub_markers (content_to_inject placeholder index_content : text)
    : exn + text :=
  if Marker.plain_name placeholder then
    match Marker.sub (legacy_group_names ext)
            (placeholder_start placeholder) (placeholder_end placeholder)
            (replacement content_to_inject placeholder) index_content with
    | Some updated_content => inr updated_content
    | None => inl TemplateError
    end
  else re_sub ext (marker_pattern placeholder)
         (replacement content_to_inject placeholder) index_content.

Definition update_index_html (content_to_inject placeholder : text)
    (index_path : string) : M unit :=
  let* r := except_not_found (Fs.open_read index_path) in
  match r with
  | None => ret tt
  | Some index_content =>
      match sub_markers content_to_inject placeholder index_content with
      | inl e => raise e
      | inr updated_content => Fs.open_write index_path updated_content
      end
  end.

(** *** generate_projects_html *)

(** An interpolated value: a string as it is, anything else through [str]. *)
Definition fmt (v : pyval) : text :=
  match v with
  | PStr s => s
  | _ => py_str ext v
  end.

Definition tags_html (tags : list pyval) : text :=
  flat_map (fun tag => tag_0 ++ fmt tag ++ tag_1) tags.

Definition live_demo_button (items : list (text * pyval)) : text :=
  match Py.lookup (txt "liveDemoUrl") items with
  | Some url => if Py.truthy url then demo_0 ++ fmt url ++ demo_1 else []
  | None => []
  end.

(** The loop body: what one element of [projects] appends.  [project.get]
    exists on a dict only; the tags must be iterable. *)
Definition project_card (project : pyval) : exn + text :=
  match project with
  | PDict items =>
      let get key fallback := default fallback (Py.lookup (txt key) items) in
      match Py.iterate (get "tags" (PList [])) with
      | inl e => inl e
      | inr tags =>
          inr (card_0 ++ fmt (get "image" (PStr default_image))
               ++ card_1 ++ fmt (get "title" (PStr (txt "Project")))
               ++ card_2 ++ fmt (get "title" (PStr (txt "Untitled Project")))
               ++ card_3 ++ fmt (get "description" (PStr []))
               ++ card_4 ++ tags_html tags
               ++ card_5 ++ fmt (get "sourceCodeUrl" (PStr (txt "#")))
               ++ card_6 ++ live_demo_button items
               ++ card_7)
      end
  | _ => inl AttributeError
  end.

Fixpoint project_cards (projects : list pyval) (projects_html : text)
    : exn + text :=
  match projects with
  | [] => inr projects_html
  | project :: rest =>
      match project_card project with
      | inl e => inl e
      | inr card => project_cards rest (projects_html ++ card)
      end
  end.

Definition render_projects (projects : pyval) : exn + text :=
  match Py.iterate projects with
  | inl e => inl e
  | inr l => project_cards l []
  end.

(** [json.load(f)] inside the [try] of generate_projects_html. *)
Definition load_json (p : string) : M pyval :=
  let* c := Fs.open_read p in
  match json_loads ext c with
  | inr v => ret v
  | inl e => raise e
  end.

Definition generate_projects_html (projects_json_path : string) : M text :=
  fun w =>
    match load_json projects_json_path w with
    | Raised FileNotFoundError w' => Returned [] w'
    | Raised JSONDecodeError w' => Returned [] w'
    | Raised e w' => Raised e w'
    | Returned projects w' =>
        match render_projects projects with
        | inl e => Raised e w'
        | inr projects_html => Returned projects_html w'
        end
    end.

(** *** extract_post_details *)

Definition describe (content : text) : text :=
  let description :=
    match Re.desc_search content with
    | Some g => strip g
    | None => txt "Click to read more"
    end in
  let description := Re.strip_tags description in
  if 150 <? length description then strip (take 150 description)
  else description.

Definition extract_post_details (html_path : string) : M (option post) :=
  except_any (
    let* content := Fs.open_read html_path in
    let title :=
      match Re.title_search content with
      | Some g => g
      | None => txt "Untitled"
      end in
    let description := describe content in
    let* creation_time := Fs.getmtime html_path in
    match fromtimestamp ext creation_time with
    | inl e => raise e
    | inr date_obj =>
        let date_str := strftime ext date_obj in
        ret (Some (Post title description
                        (txt "blog/" ++ txt (Path.basename html_path))
                        date_obj date_str))
    end).

(** *** generate_blog_html *)

Fixpoint collect_posts (blog_dir : string) (names : list string)
    (blog_posts : list post) : M (list post) :=
  match names with
  | [] => ret blog_posts
  | filename :: rest =>
      if Path.endswith ".html" filename then
        let* details := extract_post_details (Path.join blog_dir filename) in
        match details with
        | Some d => collect_posts blog_dir rest (blog_posts ++ [d])
        | None => collect_posts blog_dir rest blog_posts
        end
      else collect_posts blog_dir rest blog_posts
  end.

Definition blog_entry (p : post) : text :=
  entry_0 ++ date_str p ++ entry_1 ++ title p ++ entry_2 ++ description p
  ++ entry_3 ++ path p ++ entry_4.

Definition generate_blog_html (blog_dir : string) : M text :=
  let* names := Fs.listdir blog_dir in
  let* blog_posts := collect_posts blog_dir names [] in
  ret (flat_map blog_entry (sort_desc blog_posts)).

(** *** main *)

Definition source_dir : string := "blogs_md".
Definition output_dir : string := "blog".
Definition template_file : string := "template.html".
Definition projects_file : string := "projects.json".
Definition index_file : string := "index.html".

Fixpoint convert_all (names : list string) : M unit :=
  match names with
  | [] => ret tt
  | filename :: rest =>
      let* _ :=
        if Path.endswith ".md" filename
        then create_blog_post (Path.join source_dir filename) template_file output_dir
        else ret None in
      convert_all rest
  end.

(** Step 1: convert the Markdown posts. *)
Definition main_step1 : M unit :=
  let* d := Fs.isdir source_dir in
  if d then
    let* _ := Fs.makedirs output_dir in
    let* names := Fs.listdir source_dir in
    convert_all names
  else ret tt.

(** Step 2: the project cards. *)
Definition main_step2 : M unit :=
  let* projects_html_content := generate_projects_html projects_file in
  if 0 <? length projects_html_content
  then update_index_html projects_html_content (txt "PROJECTS_PLACEHOLDER") index_file
  else ret tt.

(** Step 3: the blog list. *)
Definition main_step3 : M unit :=
  let* d := Fs.isdir output_dir in
  if d then
    let* blog_html_content := generate_blog_html output_dir in
    if 0 <? length blog_html_content
    then update_index_html blog_html_content (txt "BLOG_POSTS_PLACEHOLDER") index_file
    else ret tt
  else ret tt.

Definition main : M unit :=
  let* _ := main_step1 in
  let* _ := main_step2 in
  main_step3.

End Pipeline.

(** ** Concrete inputs *)

Module Sample.

(** Local time as UTC, timestamps in seconds: the years 1 to 9999 are the
    seconds from -62135596800 to 253402300799. *)
Definition utc (t : Z) : exn + Z :=
  if ((-62135596800 <=? t) && (t <=? 253402300799))%Z
  then inr (t * 1000000)%Z else inl ValueError.

(** Stand-ins for the outside libraries: the records file decodes to [v]
    (or is rejected), Markdown is passed through, local time is [local], the
    interpreter is a CPython from 3.12 on, the engine is not asked. *)
Definition ext_with (v : exn + pyval) (local : Z -> exn + Z) : external :=
  External (fun _ => v) (fun s => s) local
           (fun _ => txt "January 01, 1970") (fun _ => txt "None")
           false (fun _ _ _ => inl OtherError).

(** No text decodes as JSON. *)
Definition ext : external := ext_with (inl JSONDecodeError) utc.

(** The records file decodes to one project without fields. *)
Definition ext_one_project : external := ext_with (inr (PList [PDict []])) utc.

(** The records file decodes to one project whose title holds a
    backslash. *)
Definition ext_backslash : external :=
  ext_with (inr (PList [PDict [(txt "title", PStr (txt "C:\docs"))]])) utc.

(** The card of a project without fields. *)
Definition bare_card : text :=
  match project_card ext (PDict []) with
  | inr card => card
  | inl _ => []
  end.

(** Project records: with a demo address, with an empty one, and without
    one but with a description that holds a link of its own. *)
Definition project_with_demo : list (text * pyval) :=
  [(txt "title", PStr (txt "Site"));
   (txt "liveDemoUrl", PStr (txt "https://example.org"))].

Definition project_empty_demo : list (text * pyval) :=
  [(txt "title", PStr (txt "Site")); (txt "liveDemoUrl", PStr [])].

Definition project_own_link : list (text * pyval) :=
  [(txt "description", PStr (html "<a href=~#~><span>Live Demo</span></a>"))].

Definition card_of (items : list (text * pyval)) : text :=
  match project_card ext (PDict items) with
  | inr card => card
  | inl _ => []
  end.

Definition world_of_files (l : list (string * node)) : world :=
  World (list_to_map l) 100%Z [].

(** A page was generated before; its source and the template are gone. *)
Definition generated : world :=
  world_of_files
    [("blog", Dir 1%Z); ("blog/a.html", File (txt "<p>first build</p>") 2%Z);
     ("blogs_md", Dir 1%Z)].

(** A source without a template. *)
Definition no_template : world :=
  world_of_files
    [("blogs_md", Dir 1%Z); ("blogs_md/a.md", File (txt "# A") 2%Z)].

(** A regular file where the source directory is expected. *)
Definition source_dir_is_a_file : world :=
  world_of_files [("blogs_md", File (txt "x") 1%Z)].

(** A source, and a directory where the template is expected. *)
Definition template_is_dir : world :=
  world_of_files
    [("blogs_md", Dir 1%Z); ("blogs_md/a.md", File (txt "# A") 2%Z);
     ("template.html", Dir 3%Z)].

(** A post page with one paragraph. *)
Definition page (paragraph : text) : text :=
  txt "<title>Post | hxr3tic</title>" ++ Re.desc_div ++ txt "<p>" ++ paragraph
  ++ txt "</p></div>".

(** 160 characters with a space as the 150th. *)
Definition space_at_150 : text :=
  repeat "a"%char 149 ++ txt " " ++ repeat "b"%char 10.

(** 160 characters without whitespace. *)
Definition no_space : text := repeat "a"%char 160.

Definition blog_with (paragraph : text) : world :=
  world_of_files
    [("blog", Dir 1%Z); ("blog/p.html", File (page paragraph) 5%Z)].

(** Local time as in a zone that sets its clocks back one hour at
    1729990800 (27 October 2024, 01:00 UTC, in central Europe): offset two
    hours before, one hour from then on; timestamps in seconds. *)
Definition ext_autumn : external :=
  ext_with (inl JSONDecodeError)
    (fun t => inr ((t + (if (t <? 1729990800)%Z then 7200 else 3600)) * 1000000)%Z).

(** Two pages, modified at 02:50 before and at 02:10 after the change. *)
Definition autumn_blog : world :=
  world_of_files
    [("blog", Dir 1%Z);
     ("blog/early.html", File (page (txt "early")) 1729990200%Z);
     ("blog/late.html", File (page (txt "late")) 1729991400%Z)].

(** An output directory without pages. *)
Definition empty_blog : world := world_of_files [("blog", Dir 1%Z)].

(** An index page and nothing else. *)
Definition only_index : world :=
  world_of_files
    [("index.html",
      File (txt "<!-- PROJECTS_PLACEHOLDER_START -->old<!-- PROJECTS_PLACEHOLDER_END -->") 2%Z)].

(** An index page whose markers carry the short names, and a records
    file. *)
Definition short_names : world :=
  world_of_files
    [("index.html",
      File (txt "<!-- PROJECTS_START -->old<!-- PROJECTS_END -->") 2%Z);
     ("projects.json", File (txt "[{}]") 3%Z)].

(** An index page with the markers of the script, and a records file. *)
Definition with_region : world :=
  world_of_files
    [("index.html",
      File (txt "<main><!-- PROJECTS_PLACEHOLDER_START -->old<!-- PROJECTS_PLACEHOLDER_END --></main>") 2%Z);
     ("projects.json", File (txt "[{}]") 3%Z)].

(** An index page that lacks the start marker; its line ends in a carriage
    return and a line feed. *)
Definition without_start : world :=
  world_of_files
    [("index.html",
      File (txt "old" ++ [carriage_return; newline]
            ++ txt "<!-- PROJECTS_PLACEHOLDER_END -->") 2%Z)].

(** An index page in which each marker occurs twice. *)
Definition doubled : world :=
  world_of_files
    [("index.html",
      File (txt "<!-- P_START -->a<!-- P_END --><!-- P_START -->b<!-- P_END -->") 2%Z)].





End Sample.

(** ** Vocabulary of the statements *)

(** A computation [respects] a relation on worlds when every run, returning
    or raising, ends in a world related to the one it started in. *)
Definition respects {A} (R : relation world) (m : M A) : Prop :=
  forall w, R w (world_of (m w)).

(** Nothing is written: the files and the clock stay, and every recorded
    [open] is one for reading. *)
Definition reads_only : relation world :=
  fun w w' =>
    files w' = files w /\ clock w' = clock w
    /\ exists l, opened w' = opened w ++ l /\ Forall (fun e => e.2 = Reading) l.

(** Every path other than [target] keeps the node it has. *)
Definition keeps_but (target : string) : relation world :=
  fun w w' =>
    forall p n, p <> target -> files w !! p = Some n -> files w' !! p = Some n.

(** The text has a start marker with an end marker after it. *)
Definition has_region (start stop c : text) : Prop :=
  exists a r b, c = a ++ start ++ r ++ stop ++ b.

(** Whitespace only. *)
Definition all_space (a : text) : Prop :=
  Forall (fun c => Text.is_space c = true) a.

(** The text by which a Live Demo link shows in a fragment. *)
Definition live_demo : text := txt "Live Demo".

(** A character that does not occur in [needle]. *)
Definition foreign (needle : text) (c : ascii) : bool :=
  negb (Text.contains_char c needle).

(** A piece of markup whose first and last characters are foreign to
    [needle]: no occurrence of [needle] can straddle its ends. *)
Definition clean_ends (needle piece : text) : bool :=
  match piece, last piece with
  | c :: _, Some c' => foreign needle c && foreign needle c'
  | _, _ => false
  end.

(** The keys whose values a card interpolates as they are. *)
Definition card_keys : list text :=
  [txt "image"; txt "title"; txt "description"; txt "sourceCodeUrl";
   txt "liveDemoUrl"].

(** The markers of the projects region, as main names them. *)
Definition projects_start : text := placeholder_start (txt "PROJECTS_PLACEHOLDER").
Definition projects_end : text := placeholder_end (txt "PROJECTS_PLACEHOLDER").

(** [newer_first p q]: [p] may stand before [q] in a list sorted newest
    first. *)
Definition newer_first (p q : post) : Prop := (date_obj q <= date_obj p)%Z.

(** [reads_as w p c t]: at [p] stands a regular file, modified at [t],
    that reading in text mode gives as the text [c]. *)
Definition reads_as (w : world) (p : string) (c : text) (t : Z) : Prop :=
  exists raw, files w !! p = Some (File raw t) /\ Text.universal_newlines raw = c.

(** The dict extract_post_details builds for a page that reads as [content]
    and whose modification time is the local datetime [date]. *)
Definition details_of (ext : external) (html_path : string) (content : text)
    (date : Z) : post :=
  Post (match Re.title_search content with
        | Some g => g
        | None => txt "Untitled"
        end)
       (describe content)
       (txt "blog/" ++ txt (Path.basename html_path))
       date
       (strftime ext date).

(** What a path contributes to the list of posts: the details of a regular
    file with a text and a modification time that has a local datetime. *)
Definition post_at (ext : external) (fs : gmap string node) (p : string)
    : option post :=
  match fs !! p with
  | Some (File raw t) =>
      match fromtimestamp ext t with
      | inr date => Some (details_of ext p (Text.universal_newlines raw) date)
      | inl _ => None
      end
  | _ => None
  end.

(** What a name of the listing contributes to the list of posts. *)
Definition page_post (ext : external) (fs : gmap string node)
    (blog_dir name : string) : option post :=
  if Path.endswith ".html" name then post_at ext fs (Path.join blog_dir name)
  else None.

(** ** Further vocabulary *)

(** The title create_blog_post gives a page: group 1 of the heading pattern,
    trimmed, or the fallback. *)
Definition post_title (md_content : text) : text :=
  match Re.md_title_search md_content true with
  | Some g => Text.strip g
  | None => txt "Untitled Post"
  end.

(** The two tokens create_blog_post replaces in the template. *)
Definition title_token : text := txt "<!-- BLOG_TITLE_PLACEHOLDER -->".
Definition content_token : text := txt "<!-- BLOG_CONTENT_PLACEHOLDER -->".

(** A template with the two tokens, in either order: [page_with
    title_first a b c x y] has [x] where the title token stands and [y]
    where the content token stands. *)
Definition page_with (title_first : bool) (a b c x y : text) : text :=
  if title_first then a ++ x ++ b ++ y ++ c else a ++ y ++ b ++ x ++ c.

(** A marker opens with [<] and holds no line break. *)
Definition marker_like (m : text) : Prop :=
  (exists r, m = "<"%char :: r) /\ Text.contains_char newline m = false.

(** [isinstance(v, dict)] *)
Definition is_dict (v : pyval) : bool :=
  match v with
  | PDict _ => true
  | _ => false
  end.

(** No character of the text is a newline. *)
Definition single_line (s : text) : Prop :=
  Forall (fun c => Re.is_newline c = false) s.

(** ** A small site *)

Module Site.

(** A template with both tokens, the title inside the title element. *)
Definition template : text :=
  txt "<html><head><title>" ++ title_token
  ++ txt " | hxr3tic</title></head><body>" ++ Re.desc_div ++ content_token
  ++ txt "</div></body></html>".

Definition hello : text :=
  txt "# Hello World" ++ [newline; newline] ++ txt "Some text.".

(** One post to convert, the template, and the output directory. *)
Definition ready : world :=
  Sample.world_of_files
    [("blogs_md", Dir 1%Z); ("blogs_md/hello.md", File hello 2%Z);
     ("template.html", File template 3%Z); ("blog", Dir 4%Z)].

(** The same without the output directory. *)
Definition no_output_dir : world :=
  Sample.world_of_files
    [("blogs_md", Dir 1%Z); ("blogs_md/hello.md", File hello 2%Z);
     ("template.html", File template 3%Z)].

(** The site after the post was converted. *)
Definition converted : world :=
  world_of (create_blog_post Sample.ext "blogs_md/hello.md" "template.html" "blog" ready).

(** A regular file where the output directory should be. *)
Definition blog_is_a_file : world :=
  Sample.world_of_files [("blogs_md", Dir 1%Z); ("blog", File (txt "x") 2%Z)].

(** A page without title element and without content container. *)
Definition bare_page : world :=
  Sample.world_of_files
    [("blog", Dir 1%Z); ("blog/x.html", File (txt "<p>hi</p>") 7%Z)].

(** Outside libraries whose records file decodes to the given value. *)
Definition ext_json (v : pyval) : external := Sample.ext_with (inr v) Sample.utc.

Definition two_projects : list pyval :=
  [PDict Sample.project_with_demo; PDict []].

Definition mixed : list pyval := [PDict []; PInt 3; PDict []].

End Site.

(** * Properties *)

(** ** The embedding on small inputs *)

Example output_path_plain :
  output_path_of "blogs_md/hello-world.md" "blog" = "blog/hello-world.html".
Proof. vm_compute. reflexivity. Qed.

Example output_path_inner_dot :
  output_path_of "blogs_md/v1.2.md" "blog" = "blog/v1.2.html".
Proof. vm_compute. reflexivity. Qed.

(** A name of leading dots has no extension to replace. *)
Example output_path_hidden :
  output_path_of "blogs_md/.md" "blog" = "blog/.md.html".
Proof. vm_compute. reflexivity. Qed.

Example heading_first_line :
  Re.md_title_search (txt "intro" ++ [newline] ++ txt "#  Hello World  ") true
  = Some (txt "Hello World  ").
Proof. vm_compute. reflexivity. Qed.

(** The whitespace after [#] may run over line ends. *)
Example heading_across_lines :
  Re.md_title_search (txt "#" ++ [newline; newline] ++ txt "Next") true
  = Some (txt "Next").
Proof. vm_compute. reflexivity. Qed.

Example heading_needs_line_start :
  Re.md_title_search (txt "a # b") true = None.
Proof. vm_compute. reflexivity. Qed.

Example title_of_page :
  Re.title_search (txt "<head><title>My Post | hxr3tic</title></head>")
  = Some (txt "My Post").
Proof. vm_compute. reflexivity. Qed.

Example tags_removed :
  Re.strip_tags (txt "a <b>bold</b> move, 1<2 and 3>2, <>")
  = txt "a bold move, 12, <>".
Proof. vm_compute. reflexivity. Qed.

Example strip_both_ends :
  Text.strip ([newline] ++ txt "  a b " ++ [newline]) = txt "a b".
Proof. vm_compute. reflexivity. Qed.

Example replace_left_to_right :
  Text.replace (txt "aa") (txt "b") (txt "aaaaa") = txt "bba".
Proof. vm_compute. reflexivity. Qed.

(** A replacement with a backslash goes through the template parser. *)
Example template_escapes :
  Template.compile false (txt "a\nb\\c\1")
  = Some [Template.Lit "a"; Template.Lit newline; Template.Lit "b";
          Template.Lit backslash; Template.Lit "c"; Template.Group 1].
Proof. vm_compute. reflexivity. Qed.

Example template_bad_escape :
  Template.compile false (txt "C:\docs") = None
  /\ Template.compile true (txt "C:\docs") = None.
Proof. split; vm_compute; reflexivity. Qed.

Example template_without_backslash :
  Template.compile false (txt "<p>")
  = Some [Template.Lit "<"; Template.Lit "p"; Template.Lit ">"].
Proof. vm_compute. reflexivity. Qed.

(** A signed group number passes before CPython 3.12 only. *)
Example template_signed_group :
  Template.compile true (txt "\g<+1>") = Some [Template.Group 1]
  /\ Template.compile false (txt "\g<+1>") = None.
Proof. split; vm_compute; reflexivity. Qed.

Example reading_translates_line_ends :
  Text.universal_newlines
    (txt "a" ++ [carriage_return; newline] ++ txt "b" ++ [carriage_return]
     ++ txt "c" ++ [newline; carriage_return; carriage_return; newline])
  = txt "a" ++ [newline] ++ txt "b" ++ [newline] ++ txt "c"
    ++ [newline; newline; newline].
Proof. vm_compute. reflexivity. Qed.

Example ancestors_of_a_path :
  Path.ancestors "blog/2024/a.html" = ["blog"; "blog/2024"].
Proof. vm_compute. reflexivity. Qed.

(** Every region is replaced; the lazy group stops at the first end marker. *)
Example sub_every_region :
  Marker.sub false (txt "[") (txt "]") (txt "[x]") (txt "a[1]b[2]]c")
  = Some (txt "a[x]b[x]]c").
Proof. vm_compute. reflexivity. Qed.


(** ** Text *)

Section TextFacts.
Import Text.
Implicit Types (s needle a b : text) (c : ascii).

Lemma starts_with_app needle s : starts_with needle (needle ++ s) = true.
Proof.
  induction needle as [|x needle IH]; simpl; [done|].
  by rewrite Ascii.eqb_refl, IH.
Qed.

Lemma starts_with_inv needle s :
  starts_with needle s = true -> s = needle ++ drop (length needle) s.
Proof.
  revert s. induction needle as [|x needle IH]; intros [|y s] H; simpl in *;
    try done.
  apply andb_true_iff in H as [Hxy H].
  apply Ascii.eqb_eq in Hxy as ->. f_equal. by apply IH.
Qed.

Lemma starts_with_iff needle s :
  starts_with needle s = true <-> exists r, s = needle ++ r.
Proof.
  split.
  - intros H. eexists. by apply starts_with_inv.
  - intros [r ->]. apply starts_with_app.
Qed.

Lemma starts_with_cons_ne needle c s :
  ~ In c needle -> needle <> [] -> starts_with needle (c :: s) = false.
Proof.
  intros Hc Hne. destruct needle as [|x needle]; [done|]. simpl.
  destruct (Ascii.eqb x c) eqn:E; [|done].
  apply Ascii.eqb_eq in E as ->. destruct Hc. by left.
Qed.

(** [find_sub] returns the first occurrence. *)
Lemma find_sub_Some needle s i :
  find_sub needle s = Some i ->
  starts_with needle (drop i s) = true
  /\ (forall j, j < i -> starts_with needle (drop j s) = false)
  /\ i <= length s.
Proof.
  revert i. induction s as [|c s IH]; intros i; simpl.
  - destruct (starts_with needle []) eqn:E; [|done].
    intros [= <-]. repeat split; [done|lia|simpl; lia].
  - destruct (starts_with needle (c :: s)) eqn:E.
    + intros [= <-]. repeat split; [done|lia|simpl; lia].
    + destruct (find_sub needle s) as [k|] eqn:F; [|done].
      intros [= <-]. destruct (IH k eq_refl) as (H1 & H2 & H3).
      repeat split; [done| |simpl; lia].
      intros [|j] Hj; [done|]. simpl. apply H2. lia.
Qed.

Lemma find_sub_split needle s i :
  find_sub needle s = Some i ->
  s = take i s ++ needle ++ drop (i + length needle) s.
Proof.
  intros H. apply find_sub_Some in H as (H & _ & _).
  apply starts_with_inv in H. rewrite drop_drop in H.
  rewrite <- H. by rewrite take_drop.
Qed.

Lemma find_sub_None needle s :
  find_sub needle s = None -> forall j, starts_with needle (drop j s) = false.
Proof.
  induction s as [|c s IH]; simpl.
  - destruct (starts_with needle []) eqn:E; [done|].
    intros _ j. by rewrite drop_nil.
  - destruct (starts_with needle (c :: s)) eqn:E; [done|].
    destruct (find_sub needle s) eqn:F; [done|].
    intros _ [|j]; [done|]. simpl. by apply IH.
Qed.

(** An occurrence anywhere makes the search succeed, no later than there. *)
Lemma find_sub_occurs needle a b :
  exists i, find_sub needle (a ++ needle ++ b) = Some i /\ i <= length a.
Proof.
  induction a as [|c a IH]; simpl.
  - exists 0. split; [|lia].
    destruct (needle ++ b) eqn:E; simpl.
    + destruct needle; [done|discriminate].
    + rewrite <- E. by rewrite starts_with_app.
  - destruct (starts_with needle (c :: a ++ needle ++ b)).
    + exists 0. split; [done|lia].
    + destruct IH as (i & -> & Hi). exists (S i). split; [done|lia].
Qed.

Lemma find_sub_first needle a b :
  (forall j, j < length a -> starts_with needle (drop j (a ++ needle ++ b)) = false) ->
  find_sub needle (a ++ needle ++ b) = Some (length a).
Proof.
  intros H. destruct (find_sub_occurs needle a b) as (i & Hi & Hle).
  rewrite Hi. f_equal.
  destruct (decide (i = length a)) as [|Hne]; [done|].
  apply find_sub_Some in Hi as (Hi & _). rewrite H in Hi; [done|lia].
Qed.

(** *** Counting occurrences *)

Lemma count_sub_cons needle c s :
  count_sub needle (c :: s) =
  (if starts_with needle (c :: s) then 1 else 0) + count_sub needle s.
Proof. done. Qed.

Lemma count_sub_drop needle s k :
  count_sub needle (drop k s) <= count_sub needle s.
Proof.
  revert k. induction s as [|c s IH]; intros [|k]; try (simpl; lia).
  rewrite count_sub_cons. simpl drop. specialize (IH k). lia.
Qed.

Lemma count_sub_app_r needle a s :
  count_sub needle s <= count_sub needle (a ++ s).
Proof.
  pose proof (count_sub_drop needle (a ++ s) (length a)) as H.
  by rewrite drop_app_length in H.
Qed.

Lemma count_sub_starts needle s :
  needle <> [] -> starts_with needle s = true -> 1 <= count_sub needle s.
Proof.
  intros Hne H. destruct s as [|c s].
  - destruct needle; done.
  - rewrite count_sub_cons, H. lia.
Qed.

Lemma count_sub_zero needle s :
  needle <> [] ->
  count_sub needle s = 0 <-> find_sub needle s = None.
Proof.
  intros Hne. induction s as [|c s IH]; simpl.
  - destruct needle; [done|]. by split.
  - destruct (starts_with needle (c :: s)); [split; [lia|done]|].
    simpl. rewrite IH. destruct (find_sub needle s); by split.
Qed.

(** With a single occurrence in all, the one in sight is the first. *)
Lemma count_sub_one_first needle a b :
  needle <> [] ->
  count_sub needle (a ++ needle ++ b) = 1 ->
  find_sub needle (a ++ needle ++ b) = Some (length a).
Proof.
  intros Hne. induction a as [|c a IH]; simpl app.
  - intros _. destruct (find_sub_occurs needle [] b) as (i & Hi & Hle).
    simpl in *. rewrite Hi. f_equal. lia.
  - rewrite count_sub_cons. intros H.
    pose proof (count_sub_starts needle (needle ++ b) Hne
                  (starts_with_app needle b)) as H1.
    pose proof (count_sub_app_r needle a (needle ++ b)) as H2.
    simpl find_sub.
    destruct (starts_with needle (c :: a ++ needle ++ b)); [lia|].
    rewrite IH; [done|lia].
Qed.

Lemma count_sub_one_rest needle a b :
  needle <> [] ->
  count_sub needle (a ++ needle ++ b) = 1 ->
  count_sub needle (drop 1 (needle ++ b)) = 0.
Proof.
  intros Hne H.
  pose proof (count_sub_app_r needle a (needle ++ b)) as H2.
  destruct (needle ++ b) as [|c r] eqn:E; [by destruct needle|].
  rewrite count_sub_cons in H2. rewrite <- E in H2 at 1.
  rewrite starts_with_app in H2. simpl. rewrite drop_0. lia.
Qed.

(** A character foreign to the needle separates the occurrences. *)
Lemma starts_with_app_sep needle a c b :
  ~ In c needle ->
  starts_with needle (a ++ c :: b) = starts_with needle a.
Proof.
  revert needle. induction a as [|y a IH]; intros needle Hc.
  - destruct needle as [|z needle]; [done|]. simpl.
    destruct (Ascii.eqb z c) eqn:E; [|done].
    apply Ascii.eqb_eq in E as ->. destruct Hc. by left.
  - destruct needle as [|z needle]; [done|]. simpl.
    rewrite IH; [done|]. intros Hin. apply Hc. by right.
Qed.

Lemma count_sub_sep needle a c b :
  needle <> [] -> ~ In c needle ->
  count_sub needle (a ++ c :: b) = count_sub needle a + count_sub needle b.
Proof.
  intros Hne Hc. induction a as [|x a IH].
  - simpl app. rewrite count_sub_cons.
    rewrite starts_with_cons_ne by done.
    destruct needle; [done|]. simpl. lia.
  - change ((x :: a) ++ c :: b) with (x :: (a ++ c :: b)).
    rewrite !count_sub_cons, IH.
    change (x :: (a ++ c :: b)) with ((x :: a) ++ c :: b).
    rewrite starts_with_app_sep by done. lia.
Qed.

End TextFacts.

(** ** Worlds related across a computation *)

Section Respects.
Context (R : relation world) `{!PreOrder R}.

Lemma respects_ret {A} (a : A) : respects R (ret a).
Proof. intros w. simpl. reflexivity. Qed.

Lemma respects_raise {A} (e : exn) : respects R (@raise A e).
Proof. intros w. simpl. reflexivity. Qed.

Lemma respects_bind {A B} (m : M A) (k : A -> M B) :
  respects R m -> (forall a, respects R (k a)) -> respects R (bind m k).
Proof.
  intros Hm Hk w. unfold bind. specialize (Hm w).
  destruct (m w) as [a w'|e w']; simpl in *; [|done].
  etransitivity; [exact Hm|apply Hk].
Qed.

Lemma respects_except_not_found {A} (m : M A) :
  respects R m -> respects R (except_not_found m).
Proof.
  intros Hm w. unfold except_not_found. specialize (Hm w).
  destruct (m w) as [a w'|[] w']; done.
Qed.

Lemma respects_except_any {A} (m : M (option A)) :
  respects R m -> respects R (except_any m).
Proof.
  intros Hm w. unfold except_any. specialize (Hm w).
  destruct (m w) as [a w'|e w']; done.
Qed.

End Respects.

Global Instance reads_only_preorder : PreOrder reads_only.
Proof.
  split.
  - intros w. repeat split. exists []. by rewrite app_nil_r.
  - intros w1 w2 w3 (F1 & C1 & l1 & O1 & A1) (F2 & C2 & l2 & O2 & A2).
    repeat split; [congruence|congruence|].
    exists (l1 ++ l2). rewrite O2, O1, <- app_assoc. split; [done|].
    by apply Forall_app.
Qed.

Global Instance keeps_but_preorder target : PreOrder (keeps_but target).
Proof.
  split.
  - by intros w p n.
  - intros w1 w2 w3 H1 H2 p n Hp Hn. apply H2, H1; done.
Qed.

Lemma reads_only_keeps target w w' : reads_only w w' -> keeps_but target w w'.
Proof. intros (F & _) p n _. by rewrite F. Qed.

Section Primitives.
Import Fs.

Lemma open_read_reads_only p : respects reads_only (open_read p).
Proof.
  intros w. unfold open_read.
  assert (reads_only w (record_open p Reading w)) as H.
  { repeat split. exists [(p, Reading)]. split; [done|]. by repeat constructor. }
  by destruct (files w !! p) as [[]|].
Qed.

Lemma open_read_file p w c t :
  reads_as w p c t -> open_read p w = Returned c (record_open p Reading w).
Proof. intros (raw & Hfile & <-). unfold open_read. by rewrite Hfile. Qed.

Lemma getmtime_file p w c t : reads_as w p c t -> getmtime p w = Returned t w.
Proof. intros (raw & Hfile & _). unfold getmtime. by rewrite Hfile. Qed.

(** A path that leads through no other is under no file. *)
Lemma open_read_absent p w :
  files w !! p = None -> under_file p w = false ->
  open_read p w = Raised FileNotFoundError (record_open p Reading w).
Proof.
  intros Hp Hu. unfold open_read, absent_error. by rewrite Hp, Hu.
Qed.

Lemma exists_reads_only p : respects reads_only (exists_ p).
Proof. intros w. simpl. reflexivity. Qed.

Lemma isdir_reads_only p : respects reads_only (isdir p).
Proof. intros w. simpl. reflexivity. Qed.

Lemma getmtime_reads_only p : respects reads_only (getmtime p).
Proof. intros w. unfold getmtime. destruct (files w !! p) as [[]|]; reflexivity. Qed.

Lemma listdir_reads_only d : respects reads_only (listdir d).
Proof. intros w. unfold listdir. destruct (files w !! d) as [[]|]; reflexivity. Qed.

(** Writing touches the written path only. *)
Lemma open_write_keeps p c : respects (keeps_but p) (open_write p c).
Proof.
  intros w q n Hq Hn. unfold open_write.
  assert (<[p:=File c (clock w)]> (files w) !! q = Some n) as Hs.
  { by rewrite lookup_insert_ne. }
  destruct (files w !! p) as [[]|]; simpl; [exact Hs|done|exact Hs|].
  destruct (Path.parent p) as [d|]; simpl; [|exact Hs].
  destruct (files w !! d) as [[]|]; simpl; [done|exact Hs|done|done].
Qed.

(** Creating a path that did not exist keeps every node. *)
Lemma open_write_new_keeps target p c w :
  files w !! p = None -> keeps_but target w (world_of (open_write p c w)).
Proof.
  intros Hp q n _ Hn. apply (open_write_keeps p c w); [|done].
  intros ->. congruence.
Qed.

Lemma makedirs_keeps target d : respects (keeps_but target) (makedirs d).
Proof.
  intros w q n _ Hn. unfold makedirs.
  destruct (files w !! d) as [[]|] eqn:E; [done..|]. simpl.
  rewrite lookup_insert_ne; [done|]. intros ->. congruence.
Qed.

End Primitives.

(** ** What each function does to the world *)

Section Effects.
Context (ext : external).

Lemma create_blog_post_existing md tpl out w :
  is_Some (files w !! output_path_of md out) ->
  create_blog_post ext md tpl out w = Returned (Some (output_path_of md out)) w.
Proof.
  intros H. unfold create_blog_post, bind, Fs.exists_.
  by rewrite bool_decide_eq_true_2.
Qed.

(** create_blog_post creates at most one new file and replaces none. *)
Lemma create_blog_post_keeps target md tpl out :
  respects (keeps_but target) (create_blog_post ext md tpl out).
Proof.
  intros w. destruct (files w !! output_path_of md out) as [n|] eqn:E.
  { rewrite create_blog_post_existing by eauto. reflexivity. }
  unfold create_blog_post, bind, Fs.exists_.
  rewrite bool_decide_eq_false_2 by (rewrite E; by intros [? ?]).
  unfold except_not_found, Fs.open_read.
  assert (forall l, keeps_but target w (World (files w) (clock w) l)) as Hk.
  { by intros l p n. }
  destruct (files w !! md) as [[c t|t|t]|]; simpl;
    [|apply Hk..|destruct (Fs.absent_error _ _); apply Hk].
  destruct (files w !! tpl) as [[c' t'|t'|t']|]; simpl;
    [|apply Hk..|destruct (Fs.absent_error _ _); apply Hk].
  match goal with
  | |- context [Fs.open_write ?p ?c ?w0] =>
      pose proof (open_write_new_keeps target p c w0 E) as Hw;
      destruct (Fs.open_write p c w0); simpl in *
  end.
  - intros p n Hp Hn. by apply Hw.
  - intros p n Hp Hn. by apply Hw.
Qed.

Lemma update_index_html_keeps content placeholder index_path :
  respects (keeps_but index_path)
    (update_index_html ext content placeholder index_path).
Proof.
  unfold update_index_html. apply respects_bind; [apply _|..].
  - apply respects_except_not_found.
    intros w. apply reads_only_keeps, open_read_reads_only.
  - intros [c|]; [|apply respects_ret; apply _].
    destruct (sub_markers ext content placeholder c); [|apply open_write_keeps].
    apply respects_raise; apply _.
Qed.

Lemma generate_projects_html_reads_only p :
  respects reads_only (generate_projects_html ext p).
Proof.
  intros w. unfold generate_projects_html.
  assert (respects reads_only (load_json ext p)) as H.
  { unfold load_json. apply respects_bind; [apply _|apply open_read_reads_only|].
    intros c. destruct (json_loads ext c);
      [apply respects_raise|apply respects_ret]; apply _. }
  specialize (H w). destruct (load_json ext p w) as [v w'|[] w']; simpl in *;
    try done.
  by destruct (render_projects ext v).
Qed.

Lemma extract_post_details_reads_only p :
  respects reads_only (extract_post_details ext p).
Proof.
  unfold extract_post_details. apply respects_except_any.
  apply respects_bind; [apply _|apply open_read_reads_only|]. intros c.
  apply respects_bind; [apply _|apply getmtime_reads_only|]. intros t.
  destruct (fromtimestamp ext t); [apply respects_raise|apply respects_ret]; apply _.
Qed.

Lemma collect_posts_reads_only d names acc :
  respects reads_only (collect_posts ext d names acc).
Proof.
  revert acc. induction names as [|f names IH]; intros acc; simpl.
  - apply respects_ret; apply _.
  - destruct (Path.endswith ".html" f); [|apply IH].
    apply respects_bind; [apply _|apply extract_post_details_reads_only|].
    intros [x|]; apply IH.
Qed.

Lemma generate_blog_html_reads_only d :
  respects reads_only (generate_blog_html ext d).
Proof.
  unfold generate_blog_html.
  apply respects_bind; [apply _|apply listdir_reads_only|]. intros names.
  apply respects_bind; [apply _|apply collect_posts_reads_only|]. intros l.
  apply respects_ret; apply _.
Qed.

Lemma convert_all_keeps target names :
  respects (keeps_but target) (convert_all ext names).
Proof.
  induction names as [|f names IH]; simpl.
  - apply respects_ret; apply _.
  - apply respects_bind; [apply _| |intros _; apply IH].
    destruct (Path.endswith ".md" f);
      [apply create_blog_post_keeps|apply respects_ret; apply _].
Qed.

Lemma main_step1_keeps target : respects (keeps_but target) (main_step1 ext).
Proof.
  unfold main_step1. apply respects_bind; [apply _|..].
  - intros w. apply reads_only_keeps, isdir_reads_only.
  - intros [|]; [|apply respects_ret; apply _].
    apply respects_bind; [apply _|apply makedirs_keeps|]. intros _.
    apply respects_bind; [apply _| |intros l; apply convert_all_keeps].
    intros w. apply reads_only_keeps, listdir_reads_only.
Qed.

Lemma main_step2_keeps : respects (keeps_but index_file) (main_step2 ext).
Proof.
  unfold main_step2. apply respects_bind; [apply _|..].
  - intros w. apply reads_only_keeps, generate_projects_html_reads_only.
  - intros c. destruct (0 <? length c);
      [apply update_index_html_keeps|apply respects_ret; apply _].
Qed.

Lemma main_step3_keeps : respects (keeps_but index_file) (main_step3 ext).
Proof.
  unfold main_step3. apply respects_bind; [apply _|..].
  - intros w. apply reads_only_keeps, isdir_reads_only.
  - intros [|]; [|apply respects_ret; apply _].
    apply respects_bind; [apply _|..].
    + intros w. apply reads_only_keeps, generate_blog_html_reads_only.
    + intros c. destruct (0 <? length c);
        [apply update_index_html_keeps|apply respects_ret; apply _].
Qed.

Lemma main_keeps : respects (keeps_but index_file) (main ext).
Proof.
  unfold main. apply respects_bind; [apply _|apply main_step1_keeps|].
  intros _. apply respects_bind; [apply _|apply main_step2_keeps|].
  intros _. apply main_step3_keeps.
Qed.

End Effects.

(** ** create_blog_post: existing output, missing input *)

Section ConverterClaims.
Context (ext : external).

(** C10. When the computed output path already exists, create_blog_post
    returns that path and leaves the world exactly as it was: no file is
    opened, neither the source nor the template, so their absence or
    state plays no part. *)
Theorem create_blog_post_skip_opens_nothing md tpl out w
    (Hthere : is_Some (files w !! output_path_of md out)) :
  create_blog_post ext md tpl out w = Returned (Some (output_path_of md out)) w
  /\ opened (world_of (create_blog_post ext md tpl out w)) = opened w.
Proof.
  rewrite create_blog_post_existing by done. by split.
Qed.

(** C2. A page that exists is returned as it is by create_blog_post for
    every source whose output path it is, and a whole run of the pipeline
    from any world (whatever the sources now contain) leaves its node,
    content and modification time, as it was. *)
Theorem existing_page_is_never_regenerated w page n
    (Hpage : files w !! page = Some n) :
  (forall md tpl out, output_path_of md out = page ->
     create_blog_post ext md tpl out w = Returned (Some page) w)
  /\ (page <> index_file -> files (world_of (main ext w)) !! page = Some n).
Proof.
  split.
  - intros md tpl out <-. apply create_blog_post_existing. by exists n.
  - intros Hne. by apply (main_keeps ext w).
Qed.

End ConverterClaims.

Lemma create_blog_post_skip_opens_nothing_witness :
  create_blog_post Sample.ext "blogs_md/a.md" "template.html" "blog" Sample.generated
  = Returned (Some "blog/a.html") Sample.generated
  /\ opened (world_of (create_blog_post Sample.ext "blogs_md/a.md" "template.html"
                         "blog" Sample.generated))
     = opened Sample.generated.
Proof.
  apply (create_blog_post_skip_opens_nothing
           Sample.ext "blogs_md/a.md" "template.html" "blog" Sample.generated).
  vm_compute. eexists. reflexivity.
Defined.

Lemma existing_page_is_never_regenerated_witness :
  (forall md tpl out, output_path_of md out = "blog/a.html" ->
     create_blog_post Sample.ext md tpl out Sample.generated
     = Returned (Some "blog/a.html") Sample.generated)
  /\ ("blog/a.html" <> index_file ->
      files (world_of (main Sample.ext Sample.generated)) !! "blog/a.html"
      = Some (File (txt "<p>first build</p>") 2%Z)).
Proof.
  apply (existing_page_is_never_regenerated Sample.ext Sample.generated).
  vm_compute. reflexivity.
Defined.

(** C7. The claim fails on the code: with a directory where the template is
    expected the output path does not exist and the template cannot be
    opened, yet create_blog_post does not return None, as its docstring
    says and as it does for a template that is missing; the exception
    leaves it and ends the run in main.  The same holds for a source whose
    path leads through a regular file. *)
Lemma create_blog_post_unopenable_template_raises :
  files Sample.template_is_dir !! output_path_of "blogs_md/a.md" "blog" = None
  /\ (exists w', Fs.open_read "template.html" Sample.template_is_dir
                 = Raised IsADirectoryError w')
  /\ (exists w', create_blog_post Sample.ext "blogs_md/a.md" "template.html" "blog"
                   Sample.template_is_dir
                 = Raised IsADirectoryError w')
  /\ (exists w', main Sample.ext Sample.template_is_dir = Raised IsADirectoryError w')
  /\ files Sample.source_dir_is_a_file !! output_path_of "blogs_md/a.md" "blog" = None
  /\ (exists w', Fs.open_read "blogs_md/a.md" Sample.source_dir_is_a_file
                 = Raised NotADirectoryError w')
  /\ (exists w', create_blog_post Sample.ext "blogs_md/a.md" "template.html" "blog"
                   Sample.source_dir_is_a_file
                 = Raised NotADirectoryError w').
Proof.
  split; [vm_compute; reflexivity|].
  split; [eexists; vm_compute; reflexivity|].
  split; [eexists; vm_compute; reflexivity|].
  split; [eexists; vm_compute; reflexivity|].
  split; [vm_compute; reflexivity|].
  split; eexists; vm_compute; reflexivity.
Qed.

(** ** The driver: unavailable records, empty fragments *)

Section DriverClaims.
Context (ext : external).


(** C9. When a fragment comes out empty, the step of main that would inject
    it returns without calling update_index_html: the world after the step
    is the world the generator left, in which no file has changed and
    nothing was opened for writing. *)
Theorem empty_fragment_skips_injection w w1 :
  (generate_projects_html ext projects_file w = Returned [] w1 ->
   main_step2 ext w = Returned tt w1 /\ reads_only w w1)
  /\ (generate_blog_html ext output_dir w = Returned [] w1 ->
      main_step3 ext w = Returned tt w1 /\ reads_only w w1).
Proof.
  split; intros Hgen.
  - split.
    + unfold main_step2, bind. by rewrite Hgen.
    + pose proof (generate_projects_html_reads_only ext projects_file w) as H.
      by rewrite Hgen in H.
  - split.
    + unfold main_step3, bind, Fs.isdir.
      assert (exists t, files w !! output_dir = Some (Dir t)) as [t Ht].
      { revert Hgen. unfold generate_blog_html, bind, Fs.listdir.
        destruct (files w !! output_dir) as [[]|]; [done|by eexists|done..]. }
      by rewrite Ht, Hgen.
    + pose proof (generate_blog_html_reads_only ext output_dir w) as H.
      by rewrite Hgen in H.
Qed.

End DriverClaims.



Lemma empty_fragment_skips_injection_witness :
  main_step2 Sample.ext Sample.only_index
  = Returned tt (Fs.record_open projects_file Reading Sample.only_index)
  /\ main_step3 Sample.ext Sample.empty_blog = Returned tt Sample.empty_blog.
Proof.
  split.
  - apply (empty_fragment_skips_injection Sample.ext Sample.only_index).
    vm_compute. reflexivity.
  - apply (empty_fragment_skips_injection Sample.ext Sample.empty_blog Sample.empty_blog).
    vm_compute. reflexivity.
Defined.

(** ** Marker substitution *)

Section MarkerFacts.
Import Text.
Context (start stop : text) (t : list Template.piece).

Lemma match_here_region s j :
  Marker.match_here start stop s = Some j ->
  s = start ++ take j (drop (length start) s) ++ stop
      ++ drop (j + length stop) (drop (length start) s).
Proof.
  unfold Marker.match_here. destruct (starts_with start s) eqn:E; [|done].
  intros F. apply starts_with_inv in E. rewrite E at 1. f_equal.
  by apply find_sub_split.
Qed.

Lemma no_region_no_match c :
  ~ has_region start stop c ->
  forall j, Marker.match_here start stop (drop j c) = None.
Proof.
  intros Hno j. destruct (Marker.match_here start stop (drop j c)) as [k|] eqn:E;
    [|done].
  destruct Hno. apply match_here_region in E.
  exists (take j c). eexists. eexists.
  rewrite <- E. by rewrite take_drop.
Qed.

Lemma sub_from_here c s :
  Marker.sub_from start stop t (c :: s) 0
  = match Marker.match_here start stop (c :: s) with
    | Some j =>
        let region := take j (drop (length start) (c :: s)) in
        Template.expand t (start ++ region ++ stop) (Marker.last_char region)
        ++ Marker.sub_from start stop t s (length (start ++ region ++ stop) - 1)
    | None => c :: Marker.sub_from start stop t s 0
    end.
Proof. done. Qed.

Lemma sub_from_no_match s :
  (forall j, Marker.match_here start stop (drop j s) = None) ->
  Marker.sub_from start stop t s 0 = s.
Proof.
  induction s as [|c s IH]; intros H; [done|]. rewrite sub_from_here.
  pose proof (H 0) as H0. rewrite drop_0 in H0. rewrite H0.
  f_equal. apply IH. intros j. apply (H (S j)).
Qed.

Lemma sub_from_skip a b :
  Marker.sub_from start stop t (a ++ b) (length a) = Marker.sub_from start stop t b 0.
Proof. induction a as [|x a IH]; [done|]. simpl. apply IH. Qed.

Lemma sub_from_before pre rest :
  (forall j, j < length pre -> starts_with start (drop j (pre ++ rest)) = false) ->
  Marker.sub_from start stop t (pre ++ rest) 0
  = pre ++ Marker.sub_from start stop t rest 0.
Proof.
  induction pre as [|c pre IH]; intros H; [done|].
  change ((c :: pre) ++ rest) with (c :: (pre ++ rest)) in *.
  rewrite sub_from_here. unfold Marker.match_here.
  pose proof (H 0) as H0. rewrite drop_0 in H0. rewrite H0 by (simpl; lia).
  simpl. f_equal. apply IH. intros j Hj. apply (H (S j)). simpl. lia.
Qed.

(** One start marker, one end marker after it: the single match is
    replaced and the text around it stays. *)
Lemma sub_from_single pre region post :
  start <> [] -> stop <> [] ->
  count_sub start (pre ++ start ++ region ++ stop ++ post) = 1 ->
  count_sub stop (pre ++ start ++ region ++ stop ++ post) = 1 ->
  Marker.sub_from start stop t (pre ++ start ++ region ++ stop ++ post) 0
  = pre ++ Template.expand t (start ++ region ++ stop) (Marker.last_char region)
    ++ post.
Proof.
  intros Hstart Hstop Hs He.
  pose proof (count_sub_one_first start pre _ Hstart Hs) as Hfirst.
  apply find_sub_Some in Hfirst as (_ & Hbefore & _).
  rewrite sub_from_before by done. f_equal.
  (* the end marker: once in what follows the start marker *)
  assert (find_sub stop (region ++ stop ++ post) = Some (length region)) as Hend.
  { apply count_sub_one_first; [done|].
    pose proof (count_sub_app_r stop (pre ++ start) (region ++ stop ++ post)) as H1.
    rewrite <- app_assoc in H1.
    pose proof (count_sub_starts stop (stop ++ post) Hstop (starts_with_app _ _)) as H2.
    pose proof (count_sub_app_r stop region (stop ++ post)) as H3. lia. }
  (* no start marker in what follows the match *)
  assert (forall j, starts_with start (drop j post) = false) as Hafter.
  { apply find_sub_None, count_sub_zero; [done|].
    pose proof (count_sub_one_rest start pre _ Hstart Hs) as H1.
    destruct start as [|x start']; [done|]. simpl in H1. rewrite drop_0 in H1.
    pose proof (count_sub_app_r (x :: start') (start' ++ region ++ stop) post) as H2.
    rewrite <- !app_assoc in H2. lia. }
  destruct start as [|x start'] eqn:Estart; [done|]. rewrite <- Estart in *.
  assert (Marker.match_here start stop (start ++ region ++ stop ++ post)
          = Some (length region)) as Hm.
  { unfold Marker.match_here. rewrite starts_with_app.
    by rewrite drop_app_length. }
  rewrite Estart at 2.
  change ((x :: start') ++ region ++ stop ++ post)
    with (x :: (start' ++ region ++ stop ++ post)).
  rewrite sub_from_here.
  change (x :: (start' ++ region ++ stop ++ post))
    with ((x :: start') ++ region ++ stop ++ post).
  rewrite <- Estart, Hm. cbv zeta.
  rewrite drop_app_length, take_app_length. f_equal.
  replace (start' ++ region ++ stop ++ post)
    with ((start' ++ region ++ stop) ++ post) by (by rewrite <- !app_assoc).
  replace (length (start ++ region ++ stop) - 1)
    with (length (start' ++ region ++ stop)).
  2:{ rewrite Estart. simpl. lia. }
  rewrite sub_from_skip. apply sub_from_no_match.
  intros j. unfold Marker.match_here. by rewrite Hafter.
Qed.

End MarkerFacts.

Section TemplateFacts.
Import Text.

Lemma expand_literal repl whole g :
  Template.expand (map Template.Lit repl) whole g = repl.
Proof. induction repl as [|c repl IH]; [done|]. simpl. by rewrite IH. Qed.

Lemma compile_literal legacy repl :
  contains_char backslash repl = false ->
  Template.compile legacy repl = Some (map Template.Lit repl).
Proof. unfold Template.compile. by intros ->. Qed.

Lemma contains_char_app c a b :
  contains_char c (a ++ b) = contains_char c a || contains_char c b.
Proof. apply existsb_app. Qed.

Lemma plain_name_no_backslash p :
  Marker.plain_name p = true -> contains_char backslash p = false.
Proof.
  induction p as [|c p IH]; [done|]. simpl.
  intros [Hc Hp]%andb_true_iff. rewrite (IH Hp), orb_false_r.
  destruct (Ascii.eqb backslash c) eqn:E; [|done].
  apply Ascii.eqb_eq in E as <-. done.
Qed.

Lemma replacement_no_backslash content placeholder :
  Marker.plain_name placeholder = true ->
  contains_char backslash content = false ->
  contains_char backslash (replacement content placeholder) = false.
Proof.
  intros Hp%plain_name_no_backslash Hc.
  unfold replacement, placeholder_start, placeholder_end.
  rewrite !contains_char_app, Hp, Hc. done.
Qed.

End TemplateFacts.

(** ** Reading in text mode *)

Section ReadingFacts.
Import Text.

Lemma translate_newlines_cons c s after_cr :
  translate_newlines (c :: s) after_cr
  = if Ascii.eqb c carriage_return then newline :: translate_newlines s true
    else if Ascii.eqb c newline && after_cr then translate_newlines s false
         else c :: translate_newlines s false.
Proof. done. Qed.

(** What was read holds no carriage return. *)
Lemma translate_newlines_no_cr s after_cr :
  contains_char carriage_return (translate_newlines s after_cr) = false.
Proof.
  revert after_cr. induction s as [|c s IH]; intros after_cr; [done|].
  rewrite translate_newlines_cons.
  destruct (Ascii.eqb c carriage_return) eqn:Ec.
  - change (contains_char carriage_return (newline :: translate_newlines s true))
      with (Ascii.eqb carriage_return newline
            || contains_char carriage_return (translate_newlines s true)).
    by rewrite IH.
  - destruct (Ascii.eqb c newline && after_cr); [apply IH|].
    change (contains_char carriage_return (c :: translate_newlines s false))
      with (Ascii.eqb carriage_return c
            || contains_char carriage_return (translate_newlines s false)).
    by rewrite IH, Ascii.eqb_sym, Ec.
Qed.

(** A text without carriage return is read as it is. *)
Lemma universal_newlines_id s :
  contains_char carriage_return s = false -> universal_newlines s = s.
Proof.
  unfold universal_newlines. induction s as [|c s IH]; [done|].
  change (contains_char carriage_return (c :: s))
    with (Ascii.eqb carriage_return c || contains_char carriage_return s).
  intros [Hc Hs]%orb_false_iff. rewrite translate_newlines_cons.
  rewrite Ascii.eqb_sym, Hc, andb_false_r. by rewrite IH.
Qed.

Lemma universal_newlines_no_cr s :
  contains_char carriage_return (universal_newlines s) = false.
Proof. apply translate_newlines_no_cr. Qed.

(** Reading again what was read changes nothing. *)
Lemma universal_newlines_idem s :
  universal_newlines (universal_newlines s) = universal_newlines s.
Proof. apply universal_newlines_id, universal_newlines_no_cr. Qed.

Lemma reads_as_no_cr w p c t :
  reads_as w p c t -> contains_char carriage_return c = false.
Proof. intros (raw & _ & <-). apply universal_newlines_no_cr. Qed.

(** A file that holds a text without carriage return reads as that text. *)
Lemma reads_as_stored w p c t :
  files w !! p = Some (File c t) -> contains_char carriage_return c = false ->
  reads_as w p c t.
Proof. intros Hfile Hc. exists c. split; [done|by apply universal_newlines_id]. Qed.

End ReadingFacts.

(** ** update_index_html *)

Section InjectorClaims.
Import Text Markup.
Context (ext : external).

(** A text without a region is one in which the search for a start marker
    and then an end marker fails. *)
Lemma no_region_check start stop c :
  match find_sub start c with
  | Some i => find_sub stop (drop (i + length start) c)
  | None => None
  end = None ->
  ~ has_region start stop c.
Proof.
  intros Hcheck (a & r & b & ->).
  destruct (find_sub_occurs start a (r ++ stop ++ b)) as (i & Hi & Hle).
  rewrite Hi in Hcheck.
  replace (a ++ start ++ r ++ stop ++ b)
    with ((a ++ start) ++ r ++ stop ++ b) in Hcheck by (by rewrite <- app_assoc).
  rewrite drop_app_le in Hcheck by (rewrite length_app; lia).
  rewrite app_assoc in Hcheck.
  destruct (find_sub_occurs stop (drop (i + length start) (a ++ start) ++ r) b)
    as (k & Hk & _).
  congruence.
Qed.

Lemma update_index_html_rewrites content placeholder index_path w c t c' :
  Marker.plain_name placeholder = true ->
  reads_as w index_path c t ->
  Marker.sub (legacy_group_names ext)
    (placeholder_start placeholder) (placeholder_end placeholder)
    (replacement content placeholder) c = Some c' ->
  update_index_html ext content placeholder index_path w
  = Returned tt (World (<[index_path := File c' (clock w)]> (files w))
                       (clock w + 1)%Z
                       (opened w ++ [(index_path, Reading); (index_path, Writing)])).
Proof.
  intros Hplain Hfile Hsub.
  unfold update_index_html, bind, except_not_found.
  rewrite (open_read_file _ _ _ _ Hfile). unfold sub_markers.
  rewrite Hplain, Hsub. destruct Hfile as (raw & Hraw & _).
  unfold Fs.open_write. simpl. rewrite Hraw.
  by rewrite <- app_assoc.
Qed.

(** A replacement that does not compile: re.sub raises, and the file has
    only been read. *)
Lemma update_index_html_rejects content placeholder index_path w c t :
  Marker.plain_name placeholder = true ->
  reads_as w index_path c t ->
  Template.compile (legacy_group_names ext) (replacement content placeholder) = None ->
  update_index_html ext content placeholder index_path w
  = Raised TemplateError (Fs.record_open index_path Reading w).
Proof.
  intros Hplain Hfile Hbad.
  unfold update_index_html, bind, except_not_found.
  rewrite (open_read_file _ _ _ _ Hfile). unfold sub_markers, Marker.sub.
  by rewrite Hplain, Hbad.
Qed.

(** One region, a replacement without backslash: the file is rewritten
    with the content between the markers. *)
Lemma update_index_html_injects content placeholder index_path w pre region post t :
  let start := placeholder_start placeholder in
  let stop := placeholder_end placeholder in
  let c := pre ++ start ++ region ++ stop ++ post in
  Marker.plain_name placeholder = true ->
  contains_char backslash content = false ->
  reads_as w index_path c t ->
  count_sub start c = 1 ->
  count_sub stop c = 1 ->
  update_index_html ext content placeholder index_path w
  = Returned tt
      (World (<[index_path :=
                  File (pre ++ start ++ [newline] ++ content ++ nl 24 ++ stop ++ post)
                       (clock w)]> (files w))
             (clock w + 1)%Z
             (opened w ++ [(index_path, Reading); (index_path, Writing)])).
Proof.
  intros start stop c Hplain Hbs Hfile Hs He.
  apply (update_index_html_rewrites _ _ _ _ c t); [done|done|].
  unfold Marker.sub.
  rewrite compile_literal by by apply replacement_no_backslash.
  cbv [mbind option_bind]. f_equal. fold start stop. unfold c.
  rewrite sub_from_single; [|done|done|done|done].
  rewrite expand_literal. unfold replacement. fold start stop.
  by rewrite <- !app_assoc.
Qed.

(** C3 as amended. For a placeholder name of letters, digits and
    underscores: when the text of the target file, as it is read, has no
    start marker with an end marker after it, update_index_html never
    changes that text (the file reads afterwards as it did before); and
    whenever the injected content has no backslash (re.sub then accepts the
    replacement) it writes the file back in full, holding the text as it
    was read. *)
Theorem update_index_html_without_region content placeholder index_path w c t
    (Hplain : Marker.plain_name placeholder = true)
    (Hfile : reads_as w index_path c t)
    (Hno : ~ has_region (placeholder_start placeholder)
                        (placeholder_end placeholder) c) :
  (exists t',
      reads_as (world_of (update_index_html ext content placeholder index_path w))
               index_path c t')
  /\ (contains_char backslash content = false ->
      update_index_html ext content placeholder index_path w
      = Returned tt (World (<[index_path := File c (clock w)]> (files w))
                           (clock w + 1)%Z
                           (opened w ++ [(index_path, Reading);
                                         (index_path, Writing)]))).
Proof.
  assert (forall tpl,
             Template.compile (legacy_group_names ext)
               (replacement content placeholder) = Some tpl ->
             Marker.sub (legacy_group_names ext)
               (placeholder_start placeholder) (placeholder_end placeholder)
               (replacement content placeholder) c = Some c) as Hsub.
  { intros tpl Htpl. unfold Marker.sub. rewrite Htpl.
    cbv [mbind option_bind]. f_equal.
    by apply sub_from_no_match, no_region_no_match. }
  split.
  - destruct (Template.compile (legacy_group_names ext)
                (replacement content placeholder)) as [tpl|] eqn:E.
    + rewrite (update_index_html_rewrites _ _ _ _ c t c) by eauto.
      exists (clock w). apply reads_as_stored.
      * simpl. by rewrite lookup_insert_eq.
      * by apply (reads_as_no_cr w index_path c t).
    + rewrite (update_index_html_rejects _ _ _ _ c t) by done.
      exists t. exact Hfile.
  - intros Hbs. apply (update_index_html_rewrites _ _ _ _ c t); [done|done|].
    apply (Hsub _ (compile_literal _ _ (replacement_no_backslash _ _ Hplain Hbs))).
Qed.

End InjectorClaims.

Lemma update_index_html_without_region_witness :
  (exists t',
      reads_as (world_of (update_index_html Sample.ext (txt "<p>new</p>")
                            (txt "PROJECTS_PLACEHOLDER") "index.html"
                            Sample.without_start))
               "index.html" (txt "old" ++ [newline] ++ txt "<!-- PROJECTS_PLACEHOLDER_END -->") t')
  /\ (Text.contains_char backslash (txt "<p>new</p>") = false ->
      update_index_html Sample.ext (txt "<p>new</p>") (txt "PROJECTS_PLACEHOLDER")
        "index.html" Sample.without_start
      = Returned tt
          (World (<["index.html" :=
                      File (txt "old" ++ [newline]
                            ++ txt "<!-- PROJECTS_PLACEHOLDER_END -->")
                           (clock Sample.without_start)]>
                    (files Sample.without_start))
                 (clock Sample.without_start + 1)%Z
                 (opened Sample.without_start
                  ++ [("index.html", Reading); ("index.html", Writing)]))).
Proof.
  apply (update_index_html_without_region
           Sample.ext (txt "<p>new</p>") (txt "PROJECTS_PLACEHOLDER") "index.html"
           Sample.without_start
           (txt "old" ++ [newline] ++ txt "<!-- PROJECTS_PLACEHOLDER_END -->") 2%Z).
  - vm_compute. reflexivity.
  - eexists. split; vm_compute; reflexivity.
  - apply no_region_check. vm_compute. reflexivity.
Defined.

(** C3 as stated fails: in a file where each marker occurs twice (so not
    exactly once each) the injection is not a no-op; both regions are
    replaced. *)
Lemma update_index_html_doubled_markers_change :
  Text.count_sub (placeholder_start (txt "P"))
    (txt "<!-- P_START -->a<!-- P_END --><!-- P_START -->b<!-- P_END -->") = 2
  /\ Text.count_sub (placeholder_end (txt "P"))
       (txt "<!-- P_START -->a<!-- P_END --><!-- P_START -->b<!-- P_END -->") = 2
  /\ exists w',
       update_index_html Sample.ext (txt "new") (txt "P") "index.html" Sample.doubled
       = Returned tt w'
       /\ files w' !! "index.html"
          = Some (File (txt "<!-- P_START -->" ++ [newline] ++ txt "new" ++ Markup.nl 24
                        ++ txt "<!-- P_END --><!-- P_START -->" ++ [newline]
                        ++ txt "new" ++ Markup.nl 24 ++ txt "<!-- P_END -->") 100%Z)
       /\ files Sample.doubled !! "index.html"
          = Some (File (txt "<!-- P_START -->a<!-- P_END --><!-- P_START -->b<!-- P_END -->")
                       2%Z).
Proof.
  split; [vm_compute; reflexivity|]. split; [vm_compute; reflexivity|].
  eexists. split; [vm_compute; reflexivity|]. split; vm_compute; reflexivity.
Qed.

(** ** The injection step of main *)

Section ProjectsInjection.
Import Text Markup.
Context (ext : external).

(** C1 as amended. The markers of the projects region are
    [<!-- PROJECTS_PLACEHOLDER_START -->] and
    [<!-- PROJECTS_PLACEHOLDER_END -->].  When the text of the index file,
    as it is read, has each of them once, the start marker first, and the
    generated projects fragment is non-empty and has no backslash, step 2
    of main rewrites the index file to: the text before, the start marker,
    a newline, the fragment, a newline and 24 spaces, the end marker, the
    text after. *)
Theorem projects_fragment_injected w w1 fragment pre region post t
    (Hgen : generate_projects_html ext projects_file w = Returned fragment w1)
    (Hne : fragment <> [])
    (Hbs : contains_char backslash fragment = false)
    (Hfile : reads_as w index_file
               (pre ++ projects_start ++ region ++ projects_end ++ post) t)
    (Hstart : count_sub projects_start
                (pre ++ projects_start ++ region ++ projects_end ++ post) = 1)
    (Hend : count_sub projects_end
              (pre ++ projects_start ++ region ++ projects_end ++ post) = 1) :
  exists w2,
    main_step2 ext w = Returned tt w2
    /\ files w2 !! index_file
       = Some (File (pre ++ projects_start ++ [newline] ++ fragment ++ nl 24
                     ++ projects_end ++ post) (clock w)).
Proof.
  pose proof (generate_projects_html_reads_only ext projects_file w) as Hro.
  rewrite Hgen in Hro. destruct Hro as (Hf & Hc & _). simpl in Hf, Hc.
  pose proof (update_index_html_injects ext fragment (txt "PROJECTS_PLACEHOLDER")
                index_file w1 pre region post t) as Hinj.
  cbv zeta in Hinj. fold projects_start projects_end in Hinj.
  assert (reads_as w1 index_file
            (pre ++ projects_start ++ region ++ projects_end ++ post) t) as Hfile1.
  { destruct Hfile as (raw & Hraw & Heq). exists raw. by rewrite Hf. }
  rewrite Hf, Hc in Hinj. specialize (Hinj eq_refl Hbs Hfile1 Hstart Hend).
  eexists. split.
  - unfold main_step2, bind. rewrite Hgen.
    replace (0 <? length fragment) with true; [exact Hinj|].
    by destruct fragment.
  - simpl. by rewrite lookup_insert_eq.
Qed.

End ProjectsInjection.

Lemma projects_fragment_injected_witness :
  exists w2,
    main_step2 Sample.ext_one_project Sample.with_region = Returned tt w2
    /\ files w2 !! index_file
       = Some (File (txt "<main>" ++ projects_start ++ [newline]
                     ++ Sample.bare_card ++ Markup.nl 24
                     ++ projects_end ++ txt "</main>") (clock Sample.with_region)).
Proof.
  apply (projects_fragment_injected
           Sample.ext_one_project Sample.with_region
           (Fs.record_open projects_file Reading Sample.with_region)
           Sample.bare_card (txt "<main>") (txt "old") (txt "</main>") 2%Z).
  - vm_compute. reflexivity.
  - vm_compute. discriminate.
  - vm_compute. reflexivity.
  - eexists. split; vm_compute; reflexivity.
  - vm_compute. reflexivity.
  - vm_compute. reflexivity.
Defined.

(** C1 as stated fails: with markers named PROJECTS_START and PROJECTS_END
    the injection step finds no region; the file keeps its old content and
    the non-empty fragment is nowhere in it.  (And with the markers of the
    script, a fragment that holds a backslash is not injected as it is: for
    a project titled [C:\docs] re.sub rejects the replacement and the step
    raises.) *)
Lemma projects_short_marker_names_ignored :
  Text.count_sub (placeholder_start (txt "PROJECTS"))
    (txt "<!-- PROJECTS_START -->old<!-- PROJECTS_END -->") = 1
  /\ Text.count_sub (placeholder_end (txt "PROJECTS"))
       (txt "<!-- PROJECTS_START -->old<!-- PROJECTS_END -->") = 1
  /\ (exists w1 w2,
         generate_projects_html Sample.ext_one_project projects_file Sample.short_names
         = Returned Sample.bare_card w1
         /\ Sample.bare_card <> []
         /\ main_step2 Sample.ext_one_project Sample.short_names = Returned tt w2
         /\ files w2 !! index_file
            = Some (File (txt "<!-- PROJECTS_START -->old<!-- PROJECTS_END -->") 100%Z)
         /\ Text.count_sub Sample.bare_card
              (txt "<!-- PROJECTS_START -->old<!-- PROJECTS_END -->") = 0)
  /\ (exists fragment w1 w2,
         generate_projects_html Sample.ext_backslash projects_file Sample.with_region
         = Returned fragment w1
         /\ fragment <> []
         /\ main_step2 Sample.ext_backslash Sample.with_region = Raised TemplateError w2
         /\ files w2 = files Sample.with_region).
Proof.
  split; [vm_compute; reflexivity|]. split; [vm_compute; reflexivity|].
  split.
  - eexists. eexists. split; [vm_compute; reflexivity|].
    split; [vm_compute; discriminate|].
    split; [vm_compute; reflexivity|].
    split; vm_compute; reflexivity.
  - eexists. eexists. eexists. split; [vm_compute; reflexivity|].
    split; [discriminate|].
    split; vm_compute; reflexivity.
Qed.

(** ** Trimming *)

Section StripFacts.
Import Text.
Implicit Types (s a b : text).

Lemma lstrip_split s : exists a, s = a ++ lstrip s /\ all_space a.
Proof.
  induction s as [|c s (a & Hs & Ha)]; simpl.
  - exists []. split; [done|constructor].
  - destruct (is_space c) eqn:E.
    + exists (c :: a). split; [by rewrite Hs at 1|by constructor].
    + exists []. split; [done|constructor].
Qed.

Lemma lstrip_head s c r : lstrip s = c :: r -> is_space c = false.
Proof.
  induction s as [|x s IH]; simpl; [done|].
  destruct (is_space x) eqn:E; [done|]. by intros [= <- _].
Qed.

Lemma lstrip_id c s : is_space c = false -> lstrip (c :: s) = c :: s.
Proof. simpl. by intros ->. Qed.

Lemma rstrip_split s : exists b, s = rstrip s ++ b /\ all_space b.
Proof.
  unfold rstrip. destruct (lstrip_split (rev s)) as (a & Hs & Ha).
  exists (rev a). split.
  - rewrite <- rev_app_distr, <- Hs. by rewrite rev_involutive.
  - unfold all_space. by apply Forall_rev.
Qed.

Lemma rstrip_last s r c : rstrip s = r ++ [c] -> is_space c = false.
Proof.
  unfold rstrip. intros H. apply (f_equal (@rev ascii)) in H.
  rewrite rev_involutive, rev_app_distr in H. simpl in H.
  by apply lstrip_head in H.
Qed.

Lemma rstrip_id s c : is_space c = false -> rstrip (s ++ [c]) = s ++ [c].
Proof.
  intros H. unfold rstrip. rewrite rev_app_distr. simpl.
  rewrite H. simpl. by rewrite rev_involutive.
Qed.

(** The head of a text survives trimming on the right while something
    other than whitespace does. *)
Lemma rstrip_head c s x r :
  is_space c = false -> rstrip (c :: s) = x :: r -> x = c.
Proof.
  intros Hc H. destruct (rstrip_split (c :: s)) as (b & Hs & Hb).
  rewrite H in Hs. by injection Hs as -> _.
Qed.

Lemma rstrip_nonempty c s : is_space c = false -> rstrip (c :: s) <> [].
Proof.
  intros Hc H. destruct (rstrip_split (c :: s)) as (b & Hs & Hb).
  rewrite H in Hs. simpl in Hs. rewrite <- Hs in Hb.
  apply Forall_cons in Hb as [Hb _]. congruence.
Qed.

(** What [strip] removes is whitespace at both ends. *)
Lemma strip_split s :
  exists a b, s = a ++ strip s ++ b /\ all_space a /\ all_space b.
Proof.
  unfold strip. destruct (lstrip_split s) as (a & Hs & Ha).
  destruct (rstrip_split (lstrip s)) as (b & Hr & Hb).
  exists a, b. split; [|done]. rewrite <- Hr. done.
Qed.

Lemma strip_length s : length (strip s) <= length s.
Proof.
  destruct (strip_split s) as (a & b & Hs & _).
  rewrite Hs at 2. rewrite !length_app. lia.
Qed.

(** What [strip] returns has no whitespace at either end. *)
Lemma strip_ends s :
  strip s = []
  \/ exists c r c', strip s = c :: r /\ is_space c = false
                    /\ last (strip s) = Some c' /\ is_space c' = false.
Proof.
  unfold strip. destruct (lstrip s) as [|c l] eqn:El; [by left|].
  apply lstrip_head in El as Hc. right.
  destruct (rstrip (c :: l)) as [|x r] eqn:Er; [by apply rstrip_nonempty in Er|].
  pose proof (rstrip_head _ _ _ _ Hc Er) as ->.
  destruct (last (c :: r)) as [c'|] eqn:Elast;
    [|by apply last_None in Elast].
  exists c, r, c'. repeat split; [done|].
  apply last_Some in Elast as [r' Hr']. rewrite Hr' in Er.
  by apply rstrip_last in Er.
Qed.

(** A text without whitespace at either end is its own trimming. *)
Lemma strip_id c s c' :
  is_space c = false -> last (c :: s) = Some c' -> is_space c' = false ->
  strip (c :: s) = c :: s.
Proof.
  intros Hc Hlast Hc'. unfold strip. rewrite lstrip_id by done.
  apply last_Some in Hlast as [r ->]. by apply rstrip_id.
Qed.

End StripFacts.

(** ** extract_post_details *)

Section MetadataClaims.
Import Text.
Context (ext : external).

(** The description pattern finds the first paragraph after the first
    container tag. *)
Lemma desc_search_first_paragraph pre mid para post :
  let after_p := para ++ Re.desc_p_close ++ post in
  let after_div := mid ++ Re.desc_p ++ after_p in
  let content := pre ++ Re.desc_div ++ after_div in
  (forall j, j < length pre -> starts_with Re.desc_div (drop j content) = false) ->
  (forall j, j < length mid -> starts_with Re.desc_p (drop j after_div) = false) ->
  (forall j, j < length para -> starts_with Re.desc_p_close (drop j after_p) = false) ->
  Re.desc_search content = Some para.
Proof.
  intros after_p after_div content Hdiv Hp Hclose. unfold Re.desc_search.
  assert (find_sub Re.desc_div content = Some (length pre)) as ->
    by apply (find_sub_first _ _ _ Hdiv).
  cbv [mbind option_bind].
  assert (drop (length pre + length Re.desc_div) content = after_div) as ->.
  { unfold content. rewrite app_assoc, <- length_app. apply drop_app_length. }
  assert (find_sub Re.desc_p after_div = Some (length mid)) as ->
    by apply (find_sub_first _ _ _ Hp).
  assert (drop (length mid + length Re.desc_p) after_div = after_p) as ->.
  { unfold after_div. rewrite app_assoc, <- length_app. apply drop_app_length. }
  assert (find_sub Re.desc_p_close after_p = Some (length para)) as ->
    by apply (find_sub_first _ _ _ Hclose).
  unfold after_p. by rewrite take_app_length.
Qed.

(** extract_post_details returns what [post_at] describes, and has opened
    the page for reading. *)
Lemma extract_post_details_spec p w :
  extract_post_details ext p w
  = Returned (post_at ext (files w) p) (Fs.record_open p Reading w).
Proof.
  unfold extract_post_details, except_any, bind, Fs.open_read, Fs.getmtime, post_at.
  destruct (files w !! p) as [[raw t|t|t]|] eqn:E; simpl; [|done..].
  rewrite E. by destruct (fromtimestamp ext t).
Qed.

(** A page with a text and a date always yields metadata. *)
Lemma extract_post_details_file html_path w content t date :
  reads_as w html_path content t ->
  fromtimestamp ext t = inr date ->
  extract_post_details ext html_path w
  = Returned (Some (details_of ext html_path content date))
             (Fs.record_open html_path Reading w).
Proof.
  intros (raw & Hfile & <-) Hdate. rewrite extract_post_details_spec.
  unfold post_at. by rewrite Hfile, Hdate.
Qed.

(** C4 as amended. For a page that is read as a text and whose modification
    time has a local datetime: when the first description paragraph of the
    text, trimmed and with its tags removed, is longer than 150 characters,
    the description is the first 150 characters of that text trimmed
    again: what is cut off the 150 is whitespace at its ends, so the
    description has at most 150 characters, and exactly 150 precisely when
    neither the first nor the 150th character of the text is whitespace. *)
Theorem long_description_truncated html_path w content t date para
    (Hfile : reads_as w html_path content t)
    (Hdate : fromtimestamp ext t = inr date)
    (Hpara : Re.desc_search content = Some para)
    (Hlong : 150 < length (Re.strip_tags (strip para))) :
  let stripped := Re.strip_tags (strip para) in
  exists p w',
    extract_post_details ext html_path w = Returned (Some p) w'
    /\ description p = strip (take 150 stripped)
    /\ length (description p) <= 150
    /\ (exists a b, take 150 stripped = a ++ description p ++ b
                    /\ all_space a /\ all_space b)
    /\ (forall c0 c1,
           stripped !! 0 = Some c0 -> stripped !! 149 = Some c1 ->
           length (description p) = 150
           <-> is_space c0 = false /\ is_space c1 = false).
Proof.
  intros stripped.
  pose proof (extract_post_details_file html_path w content t date Hfile Hdate)
    as Hrun.
  set (p := details_of ext html_path content date) in *.
  exists p, (Fs.record_open html_path Reading w). split; [done|].
  assert (description p = strip (take 150 stripped)) as Hd.
  { unfold p, details_of. cbn [description]. unfold describe. rewrite Hpara.
    by rewrite (proj2 (Nat.ltb_lt _ _) Hlong). }
  assert (length (take 150 stripped) = 150) as Hlen.
  { rewrite length_take. unfold stripped. lia. }
  split; [done|]. rewrite Hd.
  split; [pose proof (strip_length (take 150 stripped)); lia|].
  split; [apply strip_split|].
  intros c0 c1 H0 H149.
  assert (exists r, take 150 stripped = c0 :: r) as [r Hr].
  { destruct stripped as [|x l]; [done|]. injection H0 as ->. by eexists. }
  assert (last (take 150 stripped) = Some c1) as Hlast.
  { rewrite last_lookup, Hlen. simpl. by rewrite lookup_take_lt by lia. }
  split.
  - intros Hfull.
    destruct (strip_split (take 150 stripped)) as (a & b & Hs & _).
    assert (a = [] /\ b = []) as [-> ->].
    { apply (f_equal length) in Hs. rewrite !length_app in Hs.
      split; apply nil_length_inv; lia. }
    simpl in Hs. rewrite app_nil_r in Hs.
    destruct (strip_ends (take 150 stripped))
      as [Hnil|(c & r' & c' & Hc & Hsp & Hl & Hsp')].
    { rewrite Hnil in Hfull. done. }
    rewrite <- Hs in Hc, Hl. rewrite Hr in Hc. injection Hc as <- _.
    rewrite Hlast in Hl. injection Hl as <-. done.
  - intros [Hc0 Hc1]. rewrite Hr in *. by rewrite (strip_id c0 r c1).
Qed.

End MetadataClaims.

Lemma long_description_truncated_witness :
  let stripped := Re.strip_tags (Text.strip Sample.no_space) in
  exists p w',
    extract_post_details Sample.ext "blog/p.html" (Sample.blog_with Sample.no_space)
    = Returned (Some p) w'
    /\ description p = Text.strip (take 150 stripped)
    /\ length (description p) <= 150
    /\ (exists a b, take 150 stripped = a ++ description p ++ b
                    /\ all_space a /\ all_space b)
    /\ (forall c0 c1,
           stripped !! 0 = Some c0 -> stripped !! 149 = Some c1 ->
           length (description p) = 150
           <-> Text.is_space c0 = false /\ Text.is_space c1 = false).
Proof.
  apply (long_description_truncated
           Sample.ext "blog/p.html" (Sample.blog_with Sample.no_space)
           (Sample.page Sample.no_space) 5%Z 5000000%Z Sample.no_space).
  - eexists. split; vm_compute; reflexivity.
  - vm_compute. reflexivity.
  - vm_compute. reflexivity.
  - vm_compute. lia.
Defined.

(** C4 as stated fails: a paragraph of 160 characters whose 150th is a space
    gives a description of 149 characters. *)
Lemma long_description_can_be_shorter :
  Re.desc_search (Sample.page Sample.space_at_150) = Some Sample.space_at_150
  /\ length (Re.strip_tags (Text.strip Sample.space_at_150)) = 160
  /\ exists p w',
       extract_post_details Sample.ext "blog/p.html"
         (Sample.blog_with Sample.space_at_150)
       = Returned (Some p) w'
       /\ description p = repeat "a"%char 149
       /\ length (description p) = 149.
Proof.
  split; [vm_compute; reflexivity|]. split; [vm_compute; reflexivity|].
  eexists. eexists. split; [vm_compute; reflexivity|].
  split; vm_compute; reflexivity.
Qed.

(** ** generate_projects_html: the Live Demo link *)

Section CountPieces.
Import Text.
Context (needle : text) (Hneedle : needle <> []).

Lemma foreign_not_in c : foreign needle c = true -> ~ In c needle.
Proof.
  unfold foreign, contains_char. intros H Hin.
  apply negb_true_iff in H.
  assert (existsb (Ascii.eqb c) needle = true); [|congruence].
  apply existsb_exists. exists c. split; [done|apply Ascii.eqb_refl].
Qed.

Lemma count_sub_piece a piece b :
  clean_ends needle piece = true ->
  count_sub needle (a ++ piece ++ b)
  = count_sub needle a + count_sub needle piece + count_sub needle b.
Proof.
  unfold clean_ends. destruct piece as [|c piece']; [done|].
  destruct (last (c :: piece')) as [c'|] eqn:Hlast; [|done].
  intros [Hc%foreign_not_in Hc'%foreign_not_in]%andb_true_iff.
  change ((c :: piece') ++ b) with (c :: (piece' ++ b)).
  rewrite count_sub_sep by done.
  change (c :: piece') with ([] ++ c :: piece') at 1.
  rewrite (count_sub_sep needle [] c piece') by done.
  destruct piece' as [|x piece''] using rev_ind.
  - simpl. destruct needle; [done|]. simpl. lia.
  - rewrite last_cons, last_snoc in Hlast. injection Hlast as ->.
    rewrite <- app_assoc. simpl app.
    rewrite count_sub_sep by done.
    rewrite (count_sub_sep needle piece'' c' []) by done.
    destruct needle; [done|]. simpl. lia.
Qed.

Lemma count_sub_piece_l piece b :
  clean_ends needle piece = true ->
  count_sub needle (piece ++ b) = count_sub needle piece + count_sub needle b.
Proof.
  intros H. pose proof (count_sub_piece [] piece b H) as Hp. simpl app in Hp.
  rewrite Hp. destruct needle; [done|]. simpl. lia.
Qed.

Lemma count_sub_piece_r a piece :
  clean_ends needle piece = true ->
  count_sub needle (a ++ piece) = count_sub needle a + count_sub needle piece.
Proof.
  intros H. pose proof (count_sub_piece a piece [] H) as Hp.
  rewrite app_nil_r in Hp. rewrite Hp. destruct needle; [done|]. simpl. lia.
Qed.

End CountPieces.

Section ProjectsClaims.
Import Text Markup.
Context (ext : external).

Local Abbreviation count := (count_sub live_demo).

Lemma live_demo_nonempty : live_demo <> [].
Proof. done. Qed.

Lemma tags_html_cons tag tags :
  tags_html ext (tag :: tags)
  = (tag_0 ++ fmt ext tag ++ tag_1) ++ tags_html ext tags.
Proof. done. Qed.

Lemma tags_html_count tags :
  Forall (fun tag => count (fmt ext tag) = 0) tags ->
  count (tags_html ext tags) = 0.
Proof.
  induction 1 as [|tag tags Htag _ IH]; [done|].
  rewrite tags_html_cons, <- !app_assoc.
  rewrite (count_sub_piece_l _ live_demo_nonempty tag_0) by done.
  rewrite (count_sub_piece _ live_demo_nonempty (fmt ext tag) tag_1) by done.
  rewrite Htag, IH. done.
Qed.

Lemma live_demo_button_count items :
  (forall url, Py.lookup (txt "liveDemoUrl") items = Some url ->
               count (fmt ext url) = 0) ->
  count (live_demo_button ext items)
  = match Py.lookup (txt "liveDemoUrl") items with
    | Some url => if Py.truthy url then 1 else 0
    | None => 0
    end.
Proof.
  intros H. unfold live_demo_button.
  destruct (Py.lookup (txt "liveDemoUrl") items) as [url|]; [|done].
  destruct (Py.truthy url); [|done].
  rewrite (count_sub_piece_l _ live_demo_nonempty demo_0) by done.
  rewrite (count_sub_piece_r _ live_demo_nonempty (fmt ext url) demo_1) by done.
  by rewrite (H url eq_refl).
Qed.

(** The end of a card: the source link closes a line, the button is
    indented by spaces (which the words Live Demo contain), and the button,
    when there is one, starts with a character foreign to those words. *)
Lemma card_tail_count source button :
  match button with
  | [] => true
  | c :: _ => foreign live_demo c
  end = true ->
  count (source ++ card_6 ++ button ++ card_7) = count source + count button.
Proof.
  intros Hhead. pose proof live_demo_nonempty as Hn.
  set (link := take (length card_6 - 37) card_6).
  assert (card_6 = link ++ newline :: repeat " "%char 36) as -> by done.
  rewrite <- app_assoc, app_assoc.
  change ((newline :: repeat " "%char 36) ++ button ++ card_7)
    with (newline :: (repeat " "%char 36 ++ button ++ card_7)).
  rewrite count_sub_sep; [|done|by apply foreign_not_in].
  rewrite (count_sub_piece_r _ Hn source link) by done.
  assert (count link = 0) as -> by done.
  destruct button as [|c button'].
  - change ([] ++ card_7) with card_7.
    rewrite (count_sub_piece_r _ Hn (repeat " "%char 36) card_7) by done.
    assert (count (repeat " "%char 36) = 0) as -> by done.
    assert (count card_7 = 0) as -> by done.
    simpl. lia.
  - change ((c :: button') ++ card_7) with (c :: (button' ++ card_7)).
    rewrite count_sub_sep; [|done|by apply foreign_not_in].
    rewrite (count_sub_piece_r _ Hn button' card_7) by done.
    change (c :: button') with ([] ++ c :: button').
    rewrite (count_sub_sep live_demo [] c button'); [|done|by apply foreign_not_in].
    assert (count (repeat " "%char 36) = 0) as -> by done.
    assert (count card_7 = 0) as -> by done.
    simpl. lia.
Qed.

Lemma live_demo_button_head items :
  match live_demo_button ext items with
  | [] => true
  | c :: _ => foreign live_demo c
  end = true.
Proof.
  unfold live_demo_button.
  destruct (Py.lookup (txt "liveDemoUrl") items) as [url|]; [|done].
  by destruct (Py.truthy url).
Qed.

(** C5 as amended. For a project record whose interpolated field texts do
    not themselves contain the words Live Demo, the card has as many Live
    Demo links as the truth value of the liveDemoUrl field says: none when
    the field is absent or holds a false value (the empty string, null,
    zero, an empty list), exactly one when it holds a true value. *)
Theorem card_live_demo_links items card
    (Hcard : project_card ext (PDict items) = inr card)
    (Hfields : forall key v, In key card_keys -> Py.lookup key items = Some v ->
                             count (fmt ext v) = 0)
    (Htags : forall tags,
        Py.iterate (default (PList []) (Py.lookup (txt "tags") items)) = inr tags ->
        Forall (fun tag => count (fmt ext tag) = 0) tags) :
  count card
  = match Py.lookup (txt "liveDemoUrl") items with
    | Some url => if Py.truthy url then 1 else 0
    | None => 0
    end.
Proof.
  assert (forall key fallback,
             In (txt key) card_keys -> count fallback = 0 ->
             count (fmt ext (default (PStr fallback) (Py.lookup (txt key) items))) = 0)
    as Hfield.
  { intros key fallback Hin Hfb.
    destruct (Py.lookup (txt key) items) as [v|] eqn:E; simpl; [|done].
    by apply (Hfields (txt key)). }
  unfold project_card in Hcard.
  destruct (Py.iterate (default (PList []) (Py.lookup (txt "tags") items)))
    as [e|tags] eqn:Eit; [done|].
  apply (inj inr) in Hcard. rewrite <- Hcard. clear Hcard.
  pose proof live_demo_nonempty as Hn.
  rewrite (count_sub_piece_l _ Hn card_0) by done.
  rewrite (count_sub_piece _ Hn _ card_1) by done.
  rewrite (count_sub_piece _ Hn _ card_2) by done.
  rewrite (count_sub_piece _ Hn _ card_3) by done.
  rewrite (count_sub_piece _ Hn _ card_4) by done.
  rewrite (count_sub_piece _ Hn _ card_5) by done.
  rewrite card_tail_count by apply live_demo_button_head.
  rewrite !Hfield; [|(simpl; tauto) || done ..].
  rewrite (tags_html_count tags (Htags tags eq_refl)).
  rewrite live_demo_button_count.
  2:{ intros url Hurl. apply (Hfields (txt "liveDemoUrl")); [simpl; tauto|done]. }
  done.
Qed.

End ProjectsClaims.

Lemma card_live_demo_links_witness :
  Text.count_sub live_demo (Sample.card_of Sample.project_with_demo)
  = match Py.lookup (txt "liveDemoUrl") Sample.project_with_demo with
    | Some url => if Py.truthy url then 1 else 0
    | None => 0
    end.
Proof.
  apply (card_live_demo_links Sample.ext Sample.project_with_demo).
  - vm_compute. reflexivity.
  - intros key v Hin Hv. simpl in Hin.
    destruct Hin as [<-|[<-|[<-|[<-|[<-|[]]]]]]; vm_compute in Hv;
      try discriminate; injection Hv as <-; vm_compute; reflexivity.
  - intros tags Htags. vm_compute in Htags. injection Htags as <-. constructor.
Defined.

(** C5 as stated fails: a record in which the liveDemoUrl field is present
    and empty has a card without a Live Demo link; and a record without the
    field has one when its description brings it. *)
Lemma card_live_demo_depends_on_value :
  Py.lookup (txt "liveDemoUrl") Sample.project_empty_demo = Some (PStr [])
  /\ (exists card,
         project_card Sample.ext (PDict Sample.project_empty_demo) = inr card
         /\ Text.count_sub live_demo card = 0)
  /\ Py.lookup (txt "liveDemoUrl") Sample.project_own_link = None
  /\ (exists card,
         project_card Sample.ext (PDict Sample.project_own_link) = inr card
         /\ Text.count_sub live_demo card = 1).
Proof.
  split; [vm_compute; reflexivity|].
  split; [eexists; split; vm_compute; reflexivity|].
  split; [vm_compute; reflexivity|].
  eexists; split; vm_compute; reflexivity.
Qed.

(** ** generate_blog_html: the order of the entries *)

Section SortFacts.

Lemma insert_desc_perm p l : Permutation (insert_desc p l) (p :: l).
Proof.
  induction l as [|q l IH]; simpl; [done|].
  destruct (date_obj q <=? date_obj p)%Z; [done|].
  rewrite IH. apply perm_swap.
Qed.

Lemma sort_desc_perm l : Permutation (sort_desc l) l.
Proof.
  induction l as [|p l IH]; simpl; [done|].
  rewrite insert_desc_perm. by constructor.
Qed.

Lemma insert_desc_sorted p l :
  StronglySorted newer_first l -> StronglySorted newer_first (insert_desc p l).
Proof.
  induction 1 as [|q l Hl IH Hq]; simpl; [by repeat constructor|].
  destruct (date_obj q <=? date_obj p)%Z eqn:E.
  - apply Z.leb_le in E. constructor; [by constructor|].
    constructor; [done|].
    eapply Forall_impl; [exact Hq|]. unfold newer_first. intros x Hx. lia.
  - apply Z.leb_gt in E. constructor; [done|].
    rewrite insert_desc_perm. constructor; [|done].
    unfold newer_first. lia.
Qed.

Lemma sort_desc_sorted l : StronglySorted newer_first (sort_desc l).
Proof.
  induction l as [|p l IH]; simpl; [constructor|by apply insert_desc_sorted].
Qed.

(** Of two posts the one with the later date comes first. *)
Lemma sort_desc_order l p1 p2 :
  p1 ∈ l -> p2 ∈ l -> (date_obj p1 < date_obj p2)%Z ->
  exists l1 l2 l3, sort_desc l = l1 ++ p2 :: l2 ++ p1 :: l3.
Proof.
  intros H1 H2 Hlt.
  rewrite <- (sort_desc_perm l) in H1, H2.
  pose proof (sort_desc_sorted l) as Hs.
  apply list_elem_of_split in H2 as (l1 & r & Hsplit).
  rewrite Hsplit in H1, Hs. exists l1.
  apply elem_of_app in H1 as [H1|H1].
  - pose proof (StronglySorted_app_1_elem_of _ _ _ p1 p2 Hs H1) as Hle.
    unfold newer_first in Hle. specialize (Hle ltac:(left)). lia.
  - apply elem_of_cons in H1 as [->|H1]; [lia|].
    apply list_elem_of_split in H1 as (l2 & l3 & ->).
    by exists l2, l3.
Qed.

End SortFacts.

Section BlogListClaims.
Context (ext : external).

Lemma collect_posts_spec blog_dir names acc w :
  exists w',
    collect_posts ext blog_dir names acc w
    = Returned (acc ++ omap (page_post ext (files w) blog_dir) names) w'
    /\ files w' = files w.
Proof.
  revert acc w. induction names as [|name names IH]; intros acc w; simpl.
  - exists w. by rewrite app_nil_r.
  - unfold page_post at 1.
    destruct (Path.endswith ".html" name); [|apply IH].
    unfold bind. rewrite (extract_post_details_spec ext).
    destruct (post_at ext (files w) (Path.join blog_dir name)) as [d|];
      match goal with
      | |- context [collect_posts _ _ _ ?acc' ?w0] =>
          destruct (IH acc' w0) as (w' & -> & Hfiles)
      end; exists w'; simpl in Hfiles; rewrite Hfiles;
      (split; [|done]); by rewrite <- ?app_assoc.
Qed.

Lemma page_post_file blog_dir w name c t date :
  Path.endswith ".html" name = true ->
  reads_as w (Path.join blog_dir name) c t ->
  fromtimestamp ext t = inr date ->
  page_post ext (files w) blog_dir name
  = Some (details_of ext (Path.join blog_dir name) c date).
Proof.
  intros Hhtml (raw & Hfile & <-) Hdate. unfold page_post, post_at.
  by rewrite Hhtml, Hfile, Hdate.
Qed.

(** C6 as amended. The blog fragment lists the pages of the directory that
    have a text and a local datetime for their modification time, by that
    datetime, latest first: the posts whose entries make the fragment are
    those pages, in an order in which no post stands before one with a
    later datetime, and of two listed pages the one whose local datetime is
    later has its entry first.  (The local datetimes follow the order of
    the modification times T1 < T2 except where the conversion to local
    time is not increasing.) *)
Theorem blog_entries_latest_first blog_dir w names name1 name2 c1 t1 d1 c2 t2 d2
    (Hlist : Fs.listdir blog_dir w = Returned names w)
    (Hname1 : name1 ∈ names) (Hname2 : name2 ∈ names)
    (Hhtml1 : Path.endswith ".html" name1 = true)
    (Hhtml2 : Path.endswith ".html" name2 = true)
    (Hpage1 : reads_as w (Path.join blog_dir name1) c1 t1)
    (Hpage2 : reads_as w (Path.join blog_dir name2) c2 t2)
    (Hdate1 : fromtimestamp ext t1 = inr d1)
    (Hdate2 : fromtimestamp ext t2 = inr d2)
    (Hlater : (d1 < d2)%Z) :
  let p1 := details_of ext (Path.join blog_dir name1) c1 d1 in
  let p2 := details_of ext (Path.join blog_dir name2) c2 d2 in
  exists w' l1 l2 l3,
    generate_blog_html ext blog_dir w
    = Returned (flat_map blog_entry l1 ++ blog_entry p2
                ++ flat_map blog_entry l2 ++ blog_entry p1
                ++ flat_map blog_entry l3) w'
    /\ Permutation (l1 ++ p2 :: l2 ++ p1 :: l3)
         (omap (page_post ext (files w) blog_dir) names)
    /\ StronglySorted newer_first (l1 ++ p2 :: l2 ++ p1 :: l3).
Proof.
  intros p1 p2.
  destruct (collect_posts_spec blog_dir names [] w) as (w' & Hcollect & _).
  set (found := omap (page_post ext (files w) blog_dir) names) in *.
  assert (p1 ∈ found) as Hp1.
  { apply list_elem_of_omap. exists name1. split; [done|].
    by apply (page_post_file _ _ _ _ t1). }
  assert (p2 ∈ found) as Hp2.
  { apply list_elem_of_omap. exists name2. split; [done|].
    by apply (page_post_file _ _ _ _ t2). }
  destruct (sort_desc_order found p1 p2 Hp1 Hp2 Hlater) as (l1 & l2 & l3 & Hsort).
  exists w', l1, l2, l3. rewrite <- Hsort.
  split; [|split].
  - unfold generate_blog_html, bind. rewrite Hlist, Hcollect. simpl.
    rewrite Hsort. rewrite flat_map_app. simpl. rewrite flat_map_app. simpl.
    by rewrite <- !app_assoc.
  - apply sort_desc_perm.
  - apply sort_desc_sorted.
Qed.

End BlogListClaims.

Lemma blog_entries_latest_first_witness :
  let p1 := details_of Sample.ext "blog/early.html" (Sample.page (txt "early"))
              1729990200000000%Z in
  let p2 := details_of Sample.ext "blog/late.html" (Sample.page (txt "late"))
              1729991400000000%Z in
  exists w' l1 l2 l3,
    generate_blog_html Sample.ext "blog" Sample.autumn_blog
    = Returned (flat_map blog_entry l1 ++ blog_entry p2
                ++ flat_map blog_entry l2 ++ blog_entry p1
                ++ flat_map blog_entry l3) w'
    /\ Permutation (l1 ++ p2 :: l2 ++ p1 :: l3)
         (omap (page_post Sample.ext (files Sample.autumn_blog) "blog")
               ["early.html"; "late.html"])
    /\ StronglySorted newer_first (l1 ++ p2 :: l2 ++ p1 :: l3).
Proof.
  apply (blog_entries_latest_first
           Sample.ext "blog" Sample.autumn_blog ["early.html"; "late.html"]
           "early.html" "late.html" _ 1729990200%Z _ _ 1729991400%Z).
  - vm_compute. reflexivity.
  - repeat constructor.
  - repeat constructor.
  - vm_compute. reflexivity.
  - vm_compute. reflexivity.
  - eexists. split; vm_compute; reflexivity.
  - eexists. split; vm_compute; reflexivity.
  - vm_compute. reflexivity.
  - vm_compute. reflexivity.
  - vm_compute. reflexivity.
Defined.

(** C6 as stated fails: where the clocks were set back between the two
    modification times T1 < T2, the page modified at T1 has the later local
    datetime and its entry stands first. *)
Lemma blog_entries_follow_local_time :
  let early := details_of Sample.ext_autumn "blog/early.html"
                 (Sample.page (txt "early")) 1729997400000000%Z in
  let late := details_of Sample.ext_autumn "blog/late.html"
                (Sample.page (txt "late")) 1729995000000000%Z in
  files Sample.autumn_blog !! "blog/early.html"
  = Some (File (Sample.page (txt "early")) 1729990200%Z)
  /\ files Sample.autumn_blog !! "blog/late.html"
     = Some (File (Sample.page (txt "late")) 1729991400%Z)
  /\ (1729990200 < 1729991400)%Z
  /\ fromtimestamp Sample.ext_autumn 1729990200%Z = inr (date_obj early)
  /\ fromtimestamp Sample.ext_autumn 1729991400%Z = inr (date_obj late)
  /\ (date_obj late < date_obj early)%Z
  /\ exists w',
       generate_blog_html Sample.ext_autumn "blog" Sample.autumn_blog
       = Returned (blog_entry early ++ blog_entry late) w'.
Proof.
  split; [vm_compute; reflexivity|]. split; [vm_compute; reflexivity|].
  split; [lia|]. split; [vm_compute; reflexivity|].
  split; [vm_compute; reflexivity|]. split; [vm_compute; reflexivity|].
  eexists. vm_compute. reflexivity.
Qed.

(** * Further properties of the script *)

(** ** str.replace *)

Section ReplaceFacts.
Import Text.
Context (old new : text).

Lemma replace_from_here c s :
  replace_from old new (c :: s) 0
  = if starts_with old (c :: s)
    then new ++ replace_from old new s (length old - 1)
    else c :: replace_from old new s 0.
Proof. done. Qed.

Lemma replace_from_skip a b :
  replace_from old new (a ++ b) (length a) = replace_from old new b 0.
Proof. induction a as [|x a IH]; [done|]. simpl. apply IH. Qed.

Lemma replace_from_before pre rest :
  (forall j, j < length pre -> starts_with old (drop j (pre ++ rest)) = false) ->
  replace_from old new (pre ++ rest) 0 = pre ++ replace_from old new rest 0.
Proof.
  induction pre as [|c pre IH]; intros H; [done|].
  change ((c :: pre) ++ rest) with (c :: (pre ++ rest)) in *.
  rewrite replace_from_here.
  pose proof (H 0) as H0. rewrite drop_0 in H0. rewrite H0 by (simpl; lia).
  simpl. f_equal. apply IH. intros j Hj. apply (H (S j)). simpl. lia.
Qed.

Lemma replace_from_absent s :
  (forall j, starts_with old (drop j s) = false) ->
  replace_from old new s 0 = s.
Proof.
  intros H. rewrite <- (app_nil_r s) at 1.
  rewrite replace_from_before; [by rewrite app_nil_r|].
  intros j _. by rewrite app_nil_r.
Qed.

(** A text without the token is returned as it is. *)
Lemma replace_absent s : old <> [] -> count_sub old s = 0 -> replace old new s = s.
Proof.
  intros Hold H. unfold replace. destruct old as [|x old'] eqn:E; [done|].
  rewrite <- E in *. apply replace_from_absent.
  by apply find_sub_None, count_sub_zero.
Qed.

(** The single occurrence of the token is replaced, the rest stays. *)
Lemma replace_single a b :
  old <> [] -> count_sub old (a ++ old ++ b) = 1 ->
  replace old new (a ++ old ++ b) = a ++ new ++ b.
Proof.
  intros Hold Hone. unfold replace.
  destruct old as [|x old'] eqn:E; [done|]. rewrite <- E in *.
  pose proof (count_sub_one_first old a b Hold Hone) as Hfirst.
  apply find_sub_Some in Hfirst as (_ & Hbefore & _).
  rewrite replace_from_before by done. f_equal.
  assert (forall j, starts_with old (drop j b) = false) as Hafter.
  { apply find_sub_None, count_sub_zero; [done|].
    pose proof (count_sub_one_rest old a b Hold Hone) as H1.
    rewrite E in H1 at 2. simpl in H1. rewrite drop_0 in H1.
    pose proof (count_sub_app_r old old' b) as H2. lia. }
  rewrite E at 2.
  change ((x :: old') ++ b) with (x :: (old' ++ b)).
  rewrite replace_from_here.
  change (x :: (old' ++ b)) with ((x :: old') ++ b).
  rewrite <- E, starts_with_app. f_equal.
  replace (length old - 1) with (length old') by (rewrite E; simpl; lia).
  rewrite replace_from_skip. by apply replace_from_absent.
Qed.

End ReplaceFacts.

(** ** create_blog_post: the title and the page written *)

Section TitleFacts.
Import Text.

Lemma contains_char_cons x c s :
  contains_char x (c :: s) = Ascii.eqb x c || contains_char x s.
Proof. done. Qed.

Lemma md_title_at_other c s :
  Ascii.eqb c "#"%char = false -> Re.md_title_at (c :: s) = None.
Proof. intros H. destruct s as [|x s]; [done|]. simpl. by rewrite H. Qed.

Lemma md_title_search_no_hash s bol :
  contains_char "#"%char s = false -> Re.md_title_search s bol = None.
Proof.
  revert bol. induction s as [|c s IH]; intros bol H.
  - by destruct bol.
  - rewrite contains_char_cons in H. apply orb_false_iff in H as [Hc Hs].
    rewrite Ascii.eqb_sym in Hc.
    change (Re.md_title_search (c :: s) bol)
      with (match (if bol then Re.md_title_at (c :: s) else None) with
            | Some t => Some t
            | None => Re.md_title_search s (Re.is_newline c)
            end).
    rewrite (md_title_at_other c s Hc). destruct bol; by apply IH.
Qed.

Lemma md_title_search_first pre heading bol :
  contains_char "#"%char pre = false ->
  (pre = [] -> bol = true) ->
  (pre <> [] -> last pre = Some newline) ->
  Re.md_title_at heading <> None ->
  Re.md_title_search (pre ++ heading) bol = Re.md_title_at heading.
Proof.
  revert bol. induction pre as [|c pre IH]; intros bol Hno Hnil Hlast Hat.
  - rewrite (Hnil eq_refl). simpl app.
    destruct heading as [|h r]; [done|].
    change (Re.md_title_search (h :: r) true)
      with (match Re.md_title_at (h :: r) with
            | Some t => Some t
            | None => Re.md_title_search r (Re.is_newline h)
            end).
    by destruct (Re.md_title_at (h :: r)).
  - rewrite contains_char_cons in Hno. apply orb_false_iff in Hno as [Hc Hs].
    rewrite Ascii.eqb_sym in Hc.
    change (Re.md_title_search ((c :: pre) ++ heading) bol)
      with (match (if bol then Re.md_title_at (c :: (pre ++ heading)) else None) with
            | Some t => Some t
            | None => Re.md_title_search (pre ++ heading) (Re.is_newline c)
            end).
    rewrite (md_title_at_other c _ Hc).
    assert (Re.md_title_search (pre ++ heading) (Re.is_newline c)
            = Re.md_title_at heading) as Hrec.
    { apply IH; [done| | |done].
      - intros ->. specialize (Hlast ltac:(done)). simpl in Hlast.
        injection Hlast as ->. done.
      - intros Hne. specialize (Hlast ltac:(done)).
        destruct pre; [done|]. by rewrite last_cons_cons in Hlast. }
    by destruct bol.
Qed.

Lemma take_while_line t rest :
  single_line t -> (rest = [] \/ exists r, rest = newline :: r) ->
  take_while (fun x => negb (Re.is_newline x)) (t ++ rest) = t.
Proof.
  intros Ht Hrest. induction Ht as [|c t Hc _ IH].
  - by destruct Hrest as [->|[r ->]].
  - change (take_while (fun x => negb (Re.is_newline x)) ((c :: t) ++ rest))
      with (if negb (Re.is_newline c)
            then c :: take_while (fun x => negb (Re.is_newline x)) (t ++ rest)
            else []).
    by rewrite Hc, IH.
Qed.

(** X1. The first heading line gives the title: when no [#] precedes it and
    it stands at the start of a line, the title is the trimmed text between
    the whitespace after [#] and the end of the line. *)
Theorem heading_becomes_title pre sp c t rest
    (Hpre : contains_char "#"%char pre = false)
    (Hline : pre = [] \/ last pre = Some newline)
    (Hsp : is_space sp = true)
    (Hc : is_space c = false)
    (Ht : single_line (c :: t))
    (Hrest : rest = [] \/ exists r, rest = newline :: r) :
  post_title (pre ++ "#"%char :: sp :: (c :: t) ++ rest) = strip (c :: t).
Proof.
  unfold post_title.
  assert (Re.md_title_at ("#"%char :: sp :: (c :: t) ++ rest) = Some (c :: t)) as Hat.
  { unfold Re.md_title_at. rewrite Hsp. simpl andb. cbv iota.
    change ((c :: t) ++ rest) with (c :: (t ++ rest)).
    rewrite lstrip_id by done.
    change (c :: (t ++ rest)) with ((c :: t) ++ rest).
    by rewrite take_while_line. }
  rewrite (md_title_search_first pre _ true Hpre); [by rewrite Hat|done| |by rewrite Hat].
  intros Hne. by destruct Hline.
Qed.

(** X2. A Markdown text without any [#] gets the fallback title. *)
Theorem no_heading_fallback_title md_content
    (Hno : contains_char "#"%char md_content = false) :
  post_title md_content = txt "Untitled Post".
Proof. unfold post_title. by rewrite md_title_search_no_hash. Qed.

End TitleFacts.

Section ConverterFacts.
Import Text.
Context (ext : external).

(** What create_blog_post does once the output is known to be new and both
    inputs are files with a text: the page text it writes. *)
Lemma create_blog_post_converts md tpl out w md_content t1 template_html t2 :
  files w !! output_path_of md out = None ->
  reads_as w md md_content t1 ->
  reads_as w tpl template_html t2 ->
  create_blog_post ext md tpl out w
  = bind (Fs.open_write (output_path_of md out)
            (replace content_token (markdown ext md_content)
               (replace title_token (post_title md_content) template_html)))
         (fun _ => ret (Some (output_path_of md out)))
         (Fs.record_open tpl Reading (Fs.record_open md Reading w)).
Proof.
  intros Hout Hmd Htpl. unfold create_blog_post, bind at 1, Fs.exists_.
  rewrite bool_decide_eq_false_2 by (rewrite Hout; by intros [? ?]).
  unfold bind at 1, except_not_found. rewrite (open_read_file _ _ _ _ Hmd).
  unfold bind at 1.
  by rewrite (open_read_file tpl (Fs.record_open md Reading w) template_html t2 Htpl).
Qed.

(** X3. A new page: when the output path is free, its directory exists, the
    source and the template are files with a text, and the template holds
    the two tokens, in either order, each once in the text it is replaced
    in, create_blog_post writes the template with the title in place of the
    title token and the rendered Markdown in place of the content token, and
    returns the output path. *)
Theorem create_blog_post_writes_page md tpl out w md_content t1 title_first
    a b c t2 d td
    (Hout : files w !! output_path_of md out = None)
    (Hparent : Path.parent (output_path_of md out) = Some d)
    (Hdir : files w !! d = Some (Dir td))
    (Hmd : reads_as w md md_content t1)
    (Htpl : reads_as w tpl (page_with title_first a b c title_token content_token) t2)
    (Htitle : count_sub title_token
                (page_with title_first a b c title_token content_token) = 1)
    (Hcontent : count_sub content_token
                  (page_with title_first a b c (post_title md_content) content_token)
                = 1) :
  exists w',
    create_blog_post ext md tpl out w = Returned (Some (output_path_of md out)) w'
    /\ files w'
       = <[output_path_of md out :=
             File (page_with title_first a b c (post_title md_content)
                     (markdown ext md_content))
                  (clock w)]> (files w).
Proof.
  rewrite (create_blog_post_converts _ _ _ _ _ _ _ _ Hout Hmd Htpl).
  assert (replace content_token (markdown ext md_content)
            (replace title_token (post_title md_content)
               (page_with title_first a b c title_token content_token))
          = page_with title_first a b c (post_title md_content)
              (markdown ext md_content)) as ->.
  { unfold page_with in *. destruct title_first.
    - rewrite replace_single by done.
      replace (a ++ post_title md_content ++ b ++ content_token ++ c)
        with ((a ++ post_title md_content ++ b) ++ content_token ++ c) in *
        by (by rewrite <- !app_assoc).
      rewrite replace_single by done. by rewrite <- !app_assoc.
    - replace (a ++ content_token ++ b ++ title_token ++ c)
        with ((a ++ content_token ++ b) ++ title_token ++ c) in *
        by (by rewrite <- !app_assoc).
      rewrite replace_single by done. rewrite <- !app_assoc.
      by rewrite replace_single by done. }
  unfold bind, Fs.open_write. simpl files. rewrite Hout, Hparent, Hdir.
  eexists. split; done.
Qed.

(** X4. An output directory that does not exist is not created by
    create_blog_post: after both inputs were read the write raises
    FileNotFoundError (NotADirectoryError when the way to the directory
    leads through a regular file), which the function does not catch; no
    file changes. *)
Theorem create_blog_post_without_output_dir md tpl out w md_content t1
    template_html t2 d
    (Hout : files w !! output_path_of md out = None)
    (Hparent : Path.parent (output_path_of md out) = Some d)
    (Hdir : files w !! d = None)
    (Hmd : reads_as w md md_content t1)
    (Htpl : reads_as w tpl template_html t2) :
  exists w',
    create_blog_post ext md tpl out w
    = Raised (if Fs.under_file (output_path_of md out) w
              then NotADirectoryError else FileNotFoundError) w'
    /\ files w' = files w.
Proof.
  rewrite (create_blog_post_converts _ _ _ _ _ _ _ _ Hout Hmd Htpl).
  unfold bind, Fs.open_write. simpl files. rewrite Hout, Hparent, Hdir.
  by eexists.
Qed.

(** X5. create_blog_post is idempotent: once it has returned a path, a
    further call for the same source and output directory, with whatever
    template, returns the same path and leaves the world as it is. *)
Theorem create_blog_post_again md tpl out w p w'
    (Hfirst : create_blog_post ext md tpl out w = Returned (Some p) w') :
  forall tpl', create_blog_post ext md tpl' out w' = Returned (Some p) w'.
Proof.
  intros tpl'.
  assert (p = output_path_of md out /\ is_Some (files w' !! output_path_of md out))
    as [-> Hthere]; [|by apply create_blog_post_existing].
  revert Hfirst. unfold create_blog_post, bind, Fs.exists_.
  destruct (files w !! output_path_of md out) as [n|] eqn:Hout.
  { rewrite bool_decide_eq_true_2 by eauto. intros [= <- <-]. eauto. }
  rewrite bool_decide_eq_false_2 by (by intros [? ?]).
  unfold except_not_found, Fs.open_read.
  destruct (files w !! md) as [[md_content t1|t1|t1]|];
    [|done..|by destruct (Fs.absent_error _ _)].
  simpl files. destruct (files w !! tpl) as [[template_html t2|t2|t2]|];
    [|done..|by destruct (Fs.absent_error _ _)].
  unfold Fs.open_write. simpl files. rewrite Hout.
  assert (forall cl op x,
             is_Some (files (World (<[output_path_of md out := x]> (files w)) cl op)
                      !! output_path_of md out)) as Hins.
  { intros cl op x. simpl. rewrite lookup_insert_eq. eauto. }
  destruct (Path.parent (output_path_of md out)) as [d|].
  - destruct (files w !! d) as [[]|]; [done| |done..].
    intros [= <- <-]. split; [done|apply Hins].
  - intros [= <- <-]. split; [done|apply Hins].
Qed.

(** X25. Missing inputs: when the output path does not exist and the source
    is missing, or the source is a file with a text and the template is
    missing (nothing stands at the path and no regular file on the way to
    it, so that open raises FileNotFoundError), create_blog_post returns
    None, leaves every file and the clock as they were, has opened files
    for reading only, and the conversion loop of main goes on with the
    remaining names. *)
Theorem create_blog_post_missing_input md tpl out w
    (Hout : files w !! output_path_of md out = None)
    (Hmissing : (files w !! md = None /\ Fs.under_file md w = false)
                \/ ((exists c t, reads_as w md c t)
                    /\ files w !! tpl = None /\ Fs.under_file tpl w = false)) :
  exists trace,
    let w' := World (files w) (clock w) (opened w ++ trace) in
    create_blog_post ext md tpl out w = Returned None w'
    /\ Forall (fun e => e.2 = Reading) trace
    /\ forall filename rest,
         Path.endswith ".md" filename = true ->
         md = Path.join source_dir filename -> tpl = template_file ->
         out = output_dir ->
         convert_all ext (filename :: rest) w = convert_all ext rest w'.
Proof.
  assert (exists trace,
             create_blog_post ext md tpl out w
             = Returned None (World (files w) (clock w) (opened w ++ trace))
             /\ Forall (fun e => e.2 = Reading) trace)
    as (trace & Hrun & Htrace).
  { unfold create_blog_post, bind, Fs.exists_.
    rewrite bool_decide_eq_false_2 by (rewrite Hout; by intros [? ?]).
    unfold except_not_found.
    destruct Hmissing as [[Hmd Hu]|[(c & t & Hmd) [Htpl Hu]]].
    - rewrite (open_read_absent md w Hmd Hu).
      exists [(md, Reading)]. split; [done|]. by repeat constructor.
    - rewrite (open_read_file md w c t Hmd).
      rewrite (open_read_absent tpl (Fs.record_open md Reading w) Htpl Hu).
      exists [(md, Reading); (tpl, Reading)]. unfold Fs.record_open. simpl.
      rewrite <- app_assoc. split; [done|]. by repeat constructor. }
  exists trace. simpl. repeat split; [done..|].
  intros filename rest Hmd -> -> ->. simpl convert_all. unfold bind at 1.
  by rewrite Hmd, Hrun.
Qed.

End ConverterFacts.

(** ** The output path *)

Section PathFacts.
Import Text.

Lemma contains_char_not_in c s : contains_char c s = false -> ~ In c s.
Proof.
  intros H Hin. assert (contains_char c s = true); [|congruence].
  apply existsb_exists. exists c. split; [done|apply Ascii.eqb_refl].
Qed.

Lemma starts_with_char c x s : starts_with [c] (x :: s) = Ascii.eqb c x.
Proof. simpl. by rewrite andb_true_r. Qed.

Lemma find_char_first c a b :
  ~ In c a -> find_sub [c] (a ++ c :: b) = Some (length a).
Proof.
  intros Hno. apply (find_sub_first [c] a b). intros j Hj.
  destruct (drop j a) as [|x r] eqn:E.
  { apply (f_equal length) in E. rewrite length_drop in E. simpl in E. lia. }
  rewrite drop_app_le by lia. rewrite E.
  change ((x :: r) ++ [c] ++ b) with (x :: (r ++ [c] ++ b)).
  rewrite starts_with_char. destruct (Ascii.eqb c x) eqn:Ecx; [|done].
  apply Ascii.eqb_eq in Ecx as ->. destruct Hno.
  apply list_elem_of_In. eapply (subseteq_drop j a). rewrite E. by left.
Qed.

Lemma find_char_none c s : ~ In c s -> find_sub [c] s = None.
Proof.
  intros Hno. destruct (find_sub [c] s) as [i|] eqn:E; [|done].
  apply find_sub_split in E. destruct Hno. rewrite E.
  apply in_or_app. right. by left.
Qed.

Lemma rfind_last c a b : ~ In c b -> Path.rfind c (a ++ c :: b) = Some (length a).
Proof.
  intros Hno. unfold Path.rfind.
  rewrite rev_app_distr. simpl rev. rewrite <- app_assoc. simpl app.
  rewrite find_char_first by (by rewrite <- in_rev).
  cbv [mbind option_bind]. f_equal.
  rewrite length_rev, length_app. simpl. lia.
Qed.

Lemma rfind_none c s : ~ In c s -> Path.rfind c s = None.
Proof.
  intros Hno. unfold Path.rfind.
  by rewrite find_char_none by (by rewrite <- in_rev).
Qed.

(** The base name is what follows the last slash. *)
Lemma basename_text_of_join d name :
  contains_char Path.slash name = false ->
  Path.basename_text (d ++ Path.slash :: name) = name.
Proof.
  intros H%contains_char_not_in. unfold Path.basename_text.
  rewrite rfind_last by done.
  change (S (length d)) with (1 + length d). rewrite Nat.add_comm.
  rewrite <- drop_drop, drop_app_length. done.
Qed.

(** The extension splits off at the last dot of a name that has more than
    dots before it. *)
Lemma splitext_text_name stem e :
  contains_char Path.slash (stem ++ Path.dot :: e) = false ->
  contains_char Path.dot e = false ->
  existsb (fun c => negb (Ascii.eqb c Path.dot)) stem = true ->
  Path.splitext_text (stem ++ Path.dot :: e) = (stem, Path.dot :: e).
Proof.
  intros Hslash%contains_char_not_in Hdot%contains_char_not_in Hstem.
  unfold Path.splitext_text. rewrite rfind_last, rfind_none by done.
  rewrite Nat.sub_0_r, drop_0, take_app_length, drop_app_length, Hstem.
  done.
Qed.

Lemma join_text_plain a b x r :
  a = r ++ [x] -> Ascii.eqb Path.slash x = false ->
  starts_with [Path.slash] b = false ->
  Path.join_text a b = a ++ Path.slash :: b.
Proof.
  intros -> Hx Hb. unfold Path.join_text. rewrite Hb.
  unfold ends_with. rewrite rev_app_distr. simpl rev. simpl app.
  rewrite starts_with_char, Hx, length_app. simpl.
  by rewrite Nat.add_comm.
Qed.

Lemma txt_of_text s : txt (Path.of_text s) = s.
Proof. apply list_ascii_of_string_of_list_ascii. Qed.

Lemma txt_append s1 s2 : txt (s1 +:+ s2) = txt s1 ++ txt s2.
Proof. induction s1 as [|c s1 IH]; [done|]. simpl. by rewrite <- IH. Qed.

(** X6. The output path of a source [dir/stem.md] is [out/stem.html]: the
    directory of the source is dropped, the extension after the last dot is
    replaced, earlier dots of the name stay. *)
Theorem output_path_replaces_extension dir stem out r x
    (Hstem : contains_char Path.slash stem = false)
    (Hname : existsb (fun c => negb (Ascii.eqb c Path.dot)) stem = true)
    (Hout : out = r ++ [x])
    (Hx : Ascii.eqb Path.slash x = false) :
  output_path_of (Path.of_text (dir ++ Path.slash :: stem ++ txt ".md"))
                 (Path.of_text out)
  = Path.of_text (out ++ Path.slash :: stem ++ txt ".html").
Proof.
  unfold output_path_of, Path.join, Path.splitext, Path.basename.
  rewrite !txt_of_text.
  assert (contains_char Path.slash (stem ++ txt ".md") = false) as Hs.
  { by rewrite contains_char_app, Hstem. }
  rewrite basename_text_of_join by done.
  change (txt ".md") with (Path.dot :: txt "md") in *.
  rewrite (splitext_text_name stem (txt "md")) by done.
  simpl fst. rewrite txt_append, txt_of_text.
  f_equal. apply (join_text_plain _ _ x r); [done..|].
  destruct stem as [|c stem']; [done|].
  rewrite contains_char_cons in Hstem. apply orb_false_iff in Hstem as [Hc _].
  change ((c :: stem') ++ txt ".html") with (c :: (stem' ++ txt ".html")).
  by rewrite starts_with_char.
Qed.

End PathFacts.

(** ** update_index_html: missing file, rejected fragment, repeated injection *)

Section InjectorFacts.
Import Text Markup.
Context (ext : external).

(** X7. Without the target file update_index_html returns at once: when
    nothing stands at the path, and no regular file on the way to it, it has
    tried to open the file for reading and done nothing else, whatever the
    content and the placeholder. *)
Theorem update_index_html_missing_file content placeholder index_path w
    (Hmissing : files w !! index_path = None)
    (Hway : Fs.under_file index_path w = false) :
  update_index_html ext content placeholder index_path w
  = Returned tt (Fs.record_open index_path Reading w).
Proof.
  unfold update_index_html, bind, except_not_found.
  by rewrite (open_read_absent _ _ Hmissing Hway).
Qed.

(** The template parser passes over characters other than the backslash
    and raises at a backslash before a letter that is no escape. *)
Lemma parse_literal_prefix legacy pre s :
  contains_char backslash pre = false ->
  Template.parse legacy s Template.TNormal = None ->
  Template.parse legacy (pre ++ s) Template.TNormal = None.
Proof.
  intros Hpre Hs. induction pre as [|c pre IH]; [done|].
  rewrite contains_char_cons in Hpre. apply orb_false_iff in Hpre as [Hc Hpre].
  rewrite Ascii.eqb_sym in Hc.
  change ((c :: pre) ++ s) with (c :: (pre ++ s)).
  assert (Template.parse legacy (c :: (pre ++ s)) Template.TNormal
          = cons (Template.Lit c) <$> Template.parse legacy (pre ++ s) Template.TNormal)
    as ->.
  { generalize (pre ++ s). intros r. simpl. by rewrite Hc. }
  by rewrite IH.
Qed.

Lemma parse_bad_escape legacy e s :
  Template.is_ascii_letter e = true -> Template.escape e = None ->
  Ascii.eqb e "g"%char = false ->
  Template.parse legacy (backslash :: e :: s) Template.TNormal = None.
Proof.
  intros Hletter Hescape Hg.
  destruct e as [[] [] [] [] [] [] [] []];
    vm_compute in Hletter; try discriminate Hletter;
    vm_compute in Hescape; try discriminate Hescape;
    vm_compute in Hg; try discriminate Hg; reflexivity.
Qed.

(** X8. A fragment with a backslash before a letter that is no escape of
    the replacement template (as in [C:\docs]) is rejected by re.sub,
    whichever way the interpreter reads group names: for a placeholder name
    of letters, digits and underscores update_index_html raises before it
    opens the file for writing, so the file keeps its content and its
    modification time, markers or not. *)
Theorem update_index_html_rejected_fragment before e after placeholder
    index_path w c t
    (Hplain : Marker.plain_name placeholder = true)
    (Hfile : reads_as w index_path c t)
    (Hbefore : contains_char backslash before = false)
    (Hletter : Template.is_ascii_letter e = true)
    (Hescape : Template.escape e = None)
    (Hg : Ascii.eqb e "g"%char = false) :
  update_index_html ext (before ++ backslash :: e :: after) placeholder index_path w
  = Raised TemplateError (Fs.record_open index_path Reading w).
Proof.
  apply (update_index_html_rejects ext _ _ _ _ c t); [done|done|].
  unfold Template.compile, replacement.
  assert (contains_char backslash
            (placeholder_start placeholder ++ [newline]
             ++ (before ++ backslash :: e :: after) ++ nl 24
             ++ placeholder_end placeholder) = true) as ->.
  { rewrite !contains_char_app, (contains_char_cons backslash backslash).
    rewrite Ascii.eqb_refl. simpl orb. by rewrite !orb_true_r. }
  replace (placeholder_start placeholder ++ [newline]
           ++ (before ++ backslash :: e :: after) ++ nl 24
           ++ placeholder_end placeholder)
    with ((placeholder_start placeholder ++ [newline] ++ before)
          ++ backslash :: e :: (after ++ nl 24 ++ placeholder_end placeholder))
    by (by rewrite <- !app_assoc).
  apply parse_literal_prefix; [|by apply parse_bad_escape].
  unfold placeholder_start.
  rewrite !contains_char_app, (plain_name_no_backslash _ Hplain), Hbefore. done.
Qed.

(** Occurrences counted in a part of a text. *)
Lemma count_sub_nil needle : needle <> [] -> count_sub needle [] = 0.
Proof. by destruct needle. Qed.

Lemma starts_with_extend needle a b :
  starts_with needle a = true -> starts_with needle (a ++ b) = true.
Proof.
  intros [r ->]%starts_with_iff. rewrite <- app_assoc. apply starts_with_app.
Qed.

Lemma count_sub_app_l needle a b :
  needle <> [] -> count_sub needle a <= count_sub needle (a ++ b).
Proof.
  intros Hne. induction a as [|c a IH].
  - rewrite count_sub_nil by done. lia.
  - change ((c :: a) ++ b) with (c :: (a ++ b)). rewrite !count_sub_cons.
    destruct (starts_with needle (c :: a)) eqn:E; [|lia].
    change (c :: (a ++ b)) with ((c :: a) ++ b).
    rewrite (starts_with_extend _ _ b E). lia.
Qed.

Lemma count_sub_before needle a b :
  needle <> [] -> count_sub needle a + 1 <= count_sub needle (a ++ needle ++ b).
Proof.
  intros Hne. induction a as [|c a IH].
  - rewrite count_sub_nil by done. simpl app.
    apply (count_sub_starts needle (needle ++ b) Hne), starts_with_app.
  - change ((c :: a) ++ needle ++ b) with (c :: (a ++ needle ++ b)).
    rewrite !count_sub_cons.
    destruct (starts_with needle (c :: a)) eqn:E; [|lia].
    change (c :: (a ++ needle ++ b)) with ((c :: a) ++ needle ++ b).
    rewrite (starts_with_extend _ _ _ E). lia.
Qed.

(** Characters other than the first of the needle start no occurrence. *)
Lemma count_sub_skip x needle sp s :
  Forall (fun c => Ascii.eqb x c = false) sp ->
  count_sub (x :: needle) (sp ++ s) = count_sub (x :: needle) s.
Proof.
  induction 1 as [|c sp Hc _ IH]; [done|].
  change ((c :: sp) ++ s) with (c :: (sp ++ s)).
  rewrite count_sub_cons, IH.
  change (starts_with (x :: needle) (c :: (sp ++ s)))
    with (Ascii.eqb x c && starts_with needle (sp ++ s)).
  by rewrite Hc.
Qed.

Lemma plain_name_no_newline p :
  Marker.plain_name p = true -> contains_char newline p = false.
Proof.
  induction p as [|c p IH]; [done|]. simpl.
  intros [Hc Hp]%andb_true_iff. rewrite (IH Hp), orb_false_r.
  destruct (Ascii.eqb newline c) eqn:E; [|done].
  apply Ascii.eqb_eq in E as <-. done.
Qed.

Lemma plain_name_no_cr p :
  Marker.plain_name p = true -> contains_char carriage_return p = false.
Proof.
  induction p as [|c p IH]; [done|]. simpl.
  intros [Hc Hp]%andb_true_iff. rewrite (IH Hp), orb_false_r.
  destruct (Ascii.eqb carriage_return c) eqn:E; [|done].
  apply Ascii.eqb_eq in E as <-. done.
Qed.

Lemma placeholder_start_marker_like p :
  Marker.plain_name p = true -> marker_like (placeholder_start p).
Proof.
  intros Hp. split; [by eexists|]. unfold placeholder_start.
  by rewrite !contains_char_app, (plain_name_no_newline _ Hp).
Qed.

Lemma placeholder_end_marker_like p :
  Marker.plain_name p = true -> marker_like (placeholder_end p).
Proof.
  intros Hp. split; [by eexists|]. unfold placeholder_end.
  by rewrite !contains_char_app, (plain_name_no_newline _ Hp).
Qed.

(** The occurrences of a marker in an injected region lie in the text
    before the fragment, in the fragment, or in the text after it. *)
Lemma count_sub_injected m head fragment tail :
  marker_like m ->
  count_sub m (head ++ ([newline] ++ fragment ++ nl 24) ++ tail)
  = count_sub m head + count_sub m fragment + count_sub m tail.
Proof.
  intros [[r ->] Hnl]. apply contains_char_not_in in Hnl.
  replace (head ++ ([newline] ++ fragment ++ nl 24) ++ tail)
    with (head ++ newline :: (fragment ++ newline :: (repeat " "%char 24 ++ tail))).
  2:{ unfold nl. simpl. by rewrite <- !app_assoc. }
  rewrite !count_sub_sep by done.
  rewrite count_sub_skip; [lia|]. by repeat constructor.
Qed.

(** Injecting a fragment that holds no marker leaves one region. *)
Lemma one_region_after_injection start stop pre region post fragment :
  marker_like start -> marker_like stop ->
  count_sub start (pre ++ start ++ region ++ stop ++ post) = 1 ->
  count_sub stop (pre ++ start ++ region ++ stop ++ post) = 1 ->
  count_sub start fragment = 0 -> count_sub stop fragment = 0 ->
  count_sub start (pre ++ start ++ ([newline] ++ fragment ++ nl 24) ++ stop ++ post)
  = 1
  /\ count_sub stop (pre ++ start ++ ([newline] ++ fragment ++ nl 24) ++ stop ++ post)
     = 1.
Proof.
  intros Hstart Hstop Hs He Hf1 Hf2.
  assert (start <> []) as Hne1 by (destruct Hstart as [[r ->] _]; done).
  assert (stop <> []) as Hne2 by (destruct Hstop as [[r ->] _]; done).
  rewrite !(app_assoc pre start).
  rewrite !count_sub_injected by done. rewrite Hf1, Hf2.
  (* the start marker: once up to its own end, never after *)
  assert (count_sub start (pre ++ start) = 1) as ->.
  { pose proof (count_sub_app_l start (pre ++ start) (region ++ stop ++ post) Hne1)
      as H1.
    rewrite <- app_assoc in H1.
    pose proof (count_sub_before start pre [] Hne1) as H2.
    rewrite app_nil_r in H2. lia. }
  assert (count_sub start (stop ++ post) = 0) as ->.
  { pose proof (count_sub_one_rest start pre _ Hne1 Hs) as H1.
    destruct start as [|x start']; [done|]. simpl in H1. rewrite drop_0 in H1.
    pose proof (count_sub_app_r (x :: start') (start' ++ region) (stop ++ post)) as H2.
    rewrite <- !app_assoc in H2. lia. }
  (* the end marker: never before its own start, once from there *)
  assert (count_sub stop (pre ++ start) = 0) as ->.
  { pose proof (count_sub_before stop (pre ++ start ++ region) post Hne2) as H1.
    rewrite <- !app_assoc in H1.
    pose proof (count_sub_app_l stop (pre ++ start) region Hne2) as H2.
    rewrite <- !app_assoc in H2. lia. }
  assert (count_sub stop (stop ++ post) = 1) as ->.
  { pose proof (count_sub_app_r stop (pre ++ start ++ region) (stop ++ post)) as H1.
    rewrite <- !app_assoc in H1.
    pose proof (count_sub_starts stop (stop ++ post) Hne2 (starts_with_app _ _)) as H2.
    lia. }
  lia.
Qed.

(** X9. Injection overwrites, it does not accumulate: for a placeholder
    name of letters, digits and underscores and a file that reads with one
    region, injecting a first fragment and then a second leaves the file as
    injecting the second alone does, with the second fragment between the
    markers and the text around the region as it was, provided both
    fragments are free of backslashes and the first holds neither marker
    and no carriage return. *)
Theorem update_index_html_overwrites first second placeholder index_path w
    pre region post t
    (Hplain : Marker.plain_name placeholder = true)
    (Hfirst : contains_char backslash first = false)
    (Hsecond : contains_char backslash second = false)
    (Hcr : contains_char carriage_return first = false)
    (Hfree1 : count_sub (placeholder_start placeholder) first = 0)
    (Hfree2 : count_sub (placeholder_end placeholder) first = 0)
    (Hfile : reads_as w index_path
               (pre ++ placeholder_start placeholder ++ region
                ++ placeholder_end placeholder ++ post) t)
    (Hstart : count_sub (placeholder_start placeholder)
                (pre ++ placeholder_start placeholder ++ region
                 ++ placeholder_end placeholder ++ post) = 1)
    (Hend : count_sub (placeholder_end placeholder)
              (pre ++ placeholder_start placeholder ++ region
               ++ placeholder_end placeholder ++ post) = 1) :
  exists w1 w2 t1 t2,
    update_index_html ext first placeholder index_path w = Returned tt w1
    /\ update_index_html ext second placeholder index_path w1 = Returned tt w2
    /\ files w2 !! index_path
       = Some (File (pre ++ placeholder_start placeholder ++ [newline] ++ second
                     ++ nl 24 ++ placeholder_end placeholder ++ post) t2)
    /\ files (world_of (update_index_html ext second placeholder index_path w))
       !! index_path
       = Some (File (pre ++ placeholder_start placeholder ++ [newline] ++ second
                     ++ nl 24 ++ placeholder_end placeholder ++ post) t1).
Proof.
  pose proof (update_index_html_injects ext first placeholder index_path w
                pre region post t Hplain Hfirst Hfile Hstart Hend) as H1.
  pose proof (update_index_html_injects ext second placeholder index_path w
                pre region post t Hplain Hsecond Hfile Hstart Hend) as H2.
  cbv zeta in H1, H2.
  match type of H1 with _ = Returned tt ?w1 => set (W1 := w1) in * end.
  destruct (one_region_after_injection _ _ pre region post first
              (placeholder_start_marker_like _ Hplain)
              (placeholder_end_marker_like _ Hplain) Hstart Hend Hfree1 Hfree2)
    as [Hstart' Hend'].
  assert (reads_as W1 index_path
            (pre ++ placeholder_start placeholder
             ++ ([newline] ++ first ++ nl 24)
             ++ placeholder_end placeholder ++ post) (clock w)) as Hf1.
  { apply reads_as_stored.
    - unfold W1. cbn [files]. rewrite lookup_insert_eq.
      do 2 f_equal. by rewrite <- !app_assoc.
    - pose proof (reads_as_no_cr _ _ _ _ Hfile) as Hc.
      rewrite !contains_char_app in Hc.
      apply orb_false_iff in Hc as [Hpre Hc].
      apply orb_false_iff in Hc as [Hs Hc].
      apply orb_false_iff in Hc as [_ Hc].
      rewrite !contains_char_app, Hpre, Hs, Hc, Hcr. done. }
  pose proof (update_index_html_injects ext second placeholder index_path W1
                pre ([newline] ++ first ++ nl 24) post (clock w)
                Hplain Hsecond Hf1 Hstart' Hend') as H3.
  cbv zeta in H3.
  exists W1. eexists. exists (clock w), (clock W1).
  split; [exact H1|]. split; [exact H3|]. split.
  - cbn [files]. by rewrite lookup_insert_eq.
  - rewrite H2. cbn [world_of files]. by rewrite lookup_insert_eq.
Qed.

End InjectorFacts.

(** ** generate_projects_html: order, wrong shapes, joints *)

Section ProjectsFacts.
Import Text Markup.
Context (ext : external).

Lemma project_cards_concat projects cards acc :
  Forall2 (fun project card => project_card ext project = inr card) projects cards ->
  project_cards ext projects acc = inr (acc ++ concat cards).
Proof.
  intros H. revert acc. induction H as [|project card projects cards Hc _ IH];
    intros acc; simpl.
  - by rewrite app_nil_r.
  - rewrite Hc, IH. by rewrite <- app_assoc.
Qed.

Lemma project_cards_stop good cards bad rest acc e :
  Forall2 (fun project card => project_card ext project = inr card) good cards ->
  project_card ext bad = inl e ->
  project_cards ext (good ++ bad :: rest) acc = inl e.
Proof.
  intros H Hbad. revert acc. induction H as [|project card good cards Hc _ IH];
    intros acc; simpl.
  - by rewrite Hbad.
  - by rewrite Hc, IH.
Qed.

Lemma generate_projects_html_loaded p w c t v :
  reads_as w p c t ->
  json_loads ext c = inr v ->
  generate_projects_html ext p w
  = match render_projects ext v with
    | inl e => Raised e (Fs.record_open p Reading w)
    | inr projects_html => Returned projects_html (Fs.record_open p Reading w)
    end.
Proof.
  intros Hfile Hjson. unfold generate_projects_html, load_json, bind.
  by rewrite (open_read_file _ _ _ _ Hfile), Hjson.
Qed.

(** X10. When the text of the records file decodes to a list of records that
    all render, the fragment is the cards of the records one after the
    other, in the order of the file, and reading the file is all that
    happens to the world; no record gives the empty fragment. *)
Theorem generate_projects_html_in_file_order p w c t projects cards
    (Hfile : reads_as w p c t)
    (Hjson : json_loads ext c = inr (PList projects))
    (Hcards : Forall2 (fun project card => project_card ext project = inr card)
                projects cards) :
  generate_projects_html ext p w
  = Returned (concat cards) (Fs.record_open p Reading w).
Proof.
  rewrite (generate_projects_html_loaded _ _ _ _ _ Hfile Hjson).
  change (render_projects ext (PList projects)) with (project_cards ext projects []).
  by rewrite (project_cards_concat _ _ [] Hcards).
Qed.

(** X11. A records file that decodes, but to a list with an element that is
    not an object, makes generate_projects_html raise AttributeError at that
    element, whatever precedes and follows it; the exception is not
    caught. *)
Theorem generate_projects_html_non_object p w c t good cards bad rest
    (Hfile : reads_as w p c t)
    (Hjson : json_loads ext c = inr (PList (good ++ bad :: rest)))
    (Hgood : Forall2 (fun project card => project_card ext project = inr card)
               good cards)
    (Hbad : is_dict bad = false) :
  generate_projects_html ext p w
  = Raised AttributeError (Fs.record_open p Reading w).
Proof.
  rewrite (generate_projects_html_loaded _ _ _ _ _ Hfile Hjson).
  change (render_projects ext (PList (good ++ bad :: rest)))
    with (project_cards ext (good ++ bad :: rest) []).
  rewrite (project_cards_stop good cards bad rest [] AttributeError Hgood); [done|].
  by destruct bad.
Qed.

(** X12. A records file that decodes to a number, a truth value or null is
    not iterable: generate_projects_html raises TypeError. *)
Theorem generate_projects_html_not_iterable p w c t v
    (Hfile : reads_as w p c t)
    (Hjson : json_loads ext c = inr v)
    (Hscalar : match v with
               | PNone | PBool _ | PInt _ | PFloat _ => True
               | _ => False
               end) :
  generate_projects_html ext p w = Raised TypeError (Fs.record_open p Reading w).
Proof.
  rewrite (generate_projects_html_loaded _ _ _ _ _ Hfile Hjson).
  by destruct v.
Qed.

Lemma project_card_starts_with_newline project card :
  project_card ext project = inr card -> exists r, card = newline :: r.
Proof.
  destruct project as [| | | | | |items]; try done. unfold project_card.
  destruct (Py.iterate _); [done|]. intros [= <-]. by eexists.
Qed.

(** X13. The joints between cards neither make nor break an occurrence of a
    text without a line break: such a text occurs in the fragment as often
    as in all the cards taken one by one. *)
Theorem cards_joints_are_clean needle projects cards
    (Hneedle : needle <> [])
    (Hline : contains_char newline needle = false)
    (Hcards : Forall2 (fun project card => project_card ext project = inr card)
                projects cards) :
  count_sub needle (concat cards) = sum_list (map (count_sub needle) cards).
Proof.
  apply contains_char_not_in in Hline.
  assert (count_sub needle [] = 0) as Hnil by (by destruct needle).
  induction Hcards as [|project card projects cards Hc Hrest IH]; [done|].
  destruct (project_card_starts_with_newline _ _ Hc) as [r ->].
  change (concat ((newline :: r) :: cards)) with ((newline :: r) ++ concat cards).
  change (map (count_sub needle) ((newline :: r) :: cards))
    with (count_sub needle (newline :: r) :: map (count_sub needle) cards).
  change (sum_list (count_sub needle (newline :: r) :: map (count_sub needle) cards))
    with (count_sub needle (newline :: r)
          + sum_list (map (count_sub needle) cards)).
  rewrite <- IH. clear IH.
  destruct (concat cards) as [|x rest] eqn:E.
  - rewrite app_nil_r, Hnil. lia.
  - assert (exists r', x :: rest = newline :: r') as [r' Hr'].
    { destruct Hrest as [|project' card' projects' cards' Hc' Hrest'];
        [done|].
      destruct (project_card_starts_with_newline _ _ Hc') as [r'' ->].
      simpl in E. injection E as <- <-. by eexists. }
    rewrite Hr'.
    rewrite (count_sub_sep needle (newline :: r) newline r') by done.
    change (newline :: r') with ([] ++ newline :: r').
    rewrite (count_sub_sep needle [] newline r') by done.
    rewrite Hnil. lia.
Qed.

End ProjectsFacts.

(** ** Titles and descriptions *)

Section MetadataFacts.
Import Text.

Lemma strip_tags_from_sublist s skip : sublist (Re.strip_tags_from s skip) s.
Proof.
  revert skip. induction s as [|c s IH]; intros skip; [constructor|].
  destruct skip as [|k].
  - change (Re.strip_tags_from (c :: s) 0)
      with (if Ascii.eqb c "<"%char
            then match Re.tag_len s with
                 | Some n => Re.strip_tags_from s n
                 | None => c :: Re.strip_tags_from s 0
                 end
            else c :: Re.strip_tags_from s 0).
    destruct (Ascii.eqb c "<"%char); [destruct (Re.tag_len s)|];
      first [by apply sublist_cons | by apply sublist_skip].
  - apply sublist_cons, IH.
Qed.

(** X14. Removing tags only deletes characters: what is left is a
    subsequence of the text, in the same order, and never longer. *)
Theorem strip_tags_only_deletes s :
  sublist (Re.strip_tags s) s /\ length (Re.strip_tags s) <= length s.
Proof.
  pose proof (strip_tags_from_sublist s 0) as H. split; [done|].
  by apply sublist_length.
Qed.

Lemma strip_single_line s : single_line s -> single_line (strip s).
Proof.
  intros H. destruct (strip_split s) as (a & b & Hs & _).
  unfold single_line in *. rewrite Hs in H.
  apply Forall_app in H as [_ H]. by apply Forall_app in H as [H _].
Qed.

Lemma take_while_single_line s :
  single_line (take_while (fun x => negb (Re.is_newline x)) s).
Proof.
  induction s as [|c s IH]; [constructor|].
  change (take_while (fun x => negb (Re.is_newline x)) (c :: s))
    with (if negb (Re.is_newline c)
          then c :: take_while (fun x => negb (Re.is_newline x)) s
          else []).
  destruct (Re.is_newline c) eqn:E; [constructor|]. by constructor.
Qed.

Lemma md_title_search_single_line s bol t :
  Re.md_title_search s bol = Some t -> single_line t.
Proof.
  revert bol. induction s as [|c s IH]; intros bol.
  - by destruct bol.
  - change (Re.md_title_search (c :: s) bol)
      with (match (if bol then Re.md_title_at (c :: s) else None) with
            | Some t => Some t
            | None => Re.md_title_search s (Re.is_newline c)
            end).
    assert (forall t', Re.md_title_at (c :: s) = Some t' -> single_line t') as Hat.
    { intros t'. unfold Re.md_title_at. destruct s as [|x r]; [done|].
      destruct (_ && _); [|done]. intros [= <-]. apply take_while_single_line. }
    destruct bol; [|apply IH].
    destruct (Re.md_title_at (c :: s)) as [t'|]; [|apply IH].
    intros [= <-]. by apply Hat.
Qed.

Lemma post_title_single_line md_content : single_line (post_title md_content).
Proof.
  unfold post_title.
  destruct (Re.md_title_search md_content true) as [g|] eqn:E.
  - by apply strip_single_line, (md_title_search_single_line _ _ _ E).
  - by repeat constructor.
Qed.

(** X15. The title create_blog_post puts into a page is always one line and
    carries no whitespace at either end, whatever the Markdown text. *)
Theorem post_title_is_trimmed_line md_content :
  single_line (post_title md_content)
  /\ (post_title md_content = []
      \/ exists c r c',
           post_title md_content = c :: r /\ is_space c = false
           /\ last (post_title md_content) = Some c' /\ is_space c' = false).
Proof.
  split; [apply post_title_single_line|]. unfold post_title.
  destruct (Re.md_title_search md_content true) as [g|] eqn:E.
  - apply strip_ends.
  - right. by exists "U"%char, (txt "ntitled Post"), "t"%char.
Qed.

Lemma describe_length content : length (describe content) <= 150.
Proof.
  unfold describe.
  destruct (150 <? length _) eqn:E.
  - etransitivity; [apply strip_length|]. rewrite length_take. lia.
  - by apply Nat.ltb_ge in E.
Qed.

Lemma lazy_line_until_single_line stop s t :
  Re.lazy_line_until stop s = Some t -> single_line t.
Proof.
  revert t. induction s as [|c s IH]; intros t; simpl.
  - destruct (starts_with stop []); [|done]. intros [= <-]. constructor.
  - destruct (starts_with stop (c :: s)); [intros [= <-]; constructor|].
    destruct (Re.is_newline c) eqn:E; [done|].
    destruct (Re.lazy_line_until stop s) as [t'|]; [|done].
    intros [= <-]. constructor; [done|by apply IH].
Qed.

Lemma lazy_line_until_found stop t rest :
  single_line t ->
  (forall j, j < length t -> starts_with stop (drop j (t ++ stop ++ rest)) = false) ->
  Re.lazy_line_until stop (t ++ stop ++ rest) = Some t.
Proof.
  intros Ht. induction Ht as [|c t Hc _ IH]; intros Hno.
  - simpl app. destruct (stop ++ rest) as [|x r] eqn:E; simpl.
    + destruct stop; [done|discriminate].
    + rewrite <- E. by rewrite starts_with_app.
  - change ((c :: t) ++ stop ++ rest) with (c :: (t ++ stop ++ rest)) in *.
    simpl. pose proof (Hno 0) as H0. rewrite drop_0 in H0.
    rewrite H0 by (simpl; lia). rewrite Hc.
    rewrite IH; [done|]. intros j Hj. apply (Hno (S j)). simpl. lia.
Qed.

Lemma title_search_here s :
  Re.title_search s
  = match (if starts_with Re.title_open s
           then Re.lazy_line_until Re.title_close (drop (length Re.title_open) s)
           else None) with
    | Some t => Some t
    | None => match s with
              | [] => None
              | _ :: s' => Re.title_search s'
              end
    end.
Proof. by destruct s. Qed.

Lemma title_search_single_line s t : Re.title_search s = Some t -> single_line t.
Proof.
  induction s as [|c s IH]; rewrite title_search_here.
  - destruct (starts_with Re.title_open []); [|done].
    destruct (Re.lazy_line_until _ _) eqn:E; [|done].
    intros [= <-]. by apply lazy_line_until_single_line in E.
  - destruct (if starts_with Re.title_open (c :: s) then _ else None) as [t'|] eqn:E;
      [|apply IH].
    intros [= <-]. destruct (starts_with Re.title_open (c :: s)); [|done].
    by apply lazy_line_until_single_line in E.
Qed.

Lemma title_search_absent s :
  (forall j, starts_with Re.title_open (drop j s) = false) ->
  Re.title_search s = None.
Proof.
  induction s as [|c s IH]; intros H; rewrite title_search_here.
  - pose proof (H 0) as H0. rewrite drop_0 in H0. by rewrite H0.
  - pose proof (H 0) as H0. rewrite drop_0 in H0. rewrite H0.
    apply IH. intros j. apply (H (S j)).
Qed.

Lemma title_search_first pre x t :
  (forall j, j < length pre ->
             starts_with Re.title_open (drop j (pre ++ Re.title_open ++ x)) = false) ->
  Re.lazy_line_until Re.title_close x = Some t ->
  Re.title_search (pre ++ Re.title_open ++ x) = Some t.
Proof.
  intros Hno Hx. induction pre as [|c pre IH]; rewrite title_search_here.
  - change ([] ++ Re.title_open ++ x) with (Re.title_open ++ x).
    rewrite starts_with_app, drop_app_length. by rewrite Hx.
  - change ((c :: pre) ++ Re.title_open ++ x)
      with (c :: (pre ++ Re.title_open ++ x)) in *.
    pose proof (Hno 0) as H0. rewrite drop_0 in H0. rewrite H0 by (simpl; lia).
    apply IH. intros j Hj. apply (Hno (S j)). simpl. lia.
Qed.

End MetadataFacts.

Section ExtractFacts.
Import Text.
Context (ext : external).

(** X16. extract_post_details never raises: it returns metadata exactly when
    the path is a regular file with a text whose modification time has a
    local datetime, and None otherwise (nothing there, a directory, a file
    that is not UTF-8, a time that datetime.fromtimestamp refuses); all it
    does to the world is the one attempt to open the path for reading. *)
Theorem extract_post_details_never_raises p w :
  exists r,
    extract_post_details ext p w = Returned r (Fs.record_open p Reading w)
    /\ (is_Some r
        <-> exists c t date, reads_as w p c t /\ fromtimestamp ext t = inr date).
Proof.
  rewrite extract_post_details_spec. eexists. split; [done|]. unfold post_at.
  destruct (files w !! p) as [[raw t|t|t]|] eqn:E.
  - destruct (fromtimestamp ext t) as [e|date] eqn:Ed; split.
    + by intros [? ?].
    + intros (c & t' & date & (raw' & Hr & _) & Hd).
      rewrite E in Hr. injection Hr as _ <-. congruence.
    + intros _. exists (universal_newlines raw), t, date. split; [|done].
      by exists raw.
    + by eauto.
  - split; [by intros [? ?]|]. intros (c & t' & date & (raw' & Hr & _) & _).
    congruence.
  - split; [by intros [? ?]|]. intros (c & t' & date & (raw' & Hr & _) & _).
    congruence.
  - split; [by intros [? ?]|]. intros (c & t' & date & (raw' & Hr & _) & _).
    congruence.
Qed.

(** X17. Whatever the page holds, the metadata extracted from it has a
    description of at most 150 characters, a title without a line break, a
    link that is the base name of the page under [blog/] (also when the
    page lies in another directory), and the date of its modification
    time. *)
Theorem extracted_metadata_bounds p w d w' t c
    (Hfile : reads_as w p c t)
    (Hrun : extract_post_details ext p w = Returned (Some d) w') :
  length (description d) <= 150
  /\ single_line (title d)
  /\ path d = txt "blog/" ++ txt (Path.basename p)
  /\ fromtimestamp ext t = inr (date_obj d)
  /\ date_str d = strftime ext (date_obj d).
Proof.
  rewrite extract_post_details_spec in Hrun. destruct Hfile as (raw & Hraw & <-).
  unfold post_at in Hrun. rewrite Hraw in Hrun.
  destruct (fromtimestamp ext t) as [e|date] eqn:Ed; [done|].
  injection Hrun as <- _. simpl.
  split; [apply describe_length|]. split; [|done].
  destruct (Re.title_search (universal_newlines raw)) as [g|] eqn:E.
  - by apply title_search_single_line in E.
  - by repeat constructor.
Qed.

(** X18. The fallbacks: a page that yields metadata and has no content
    container in its text gets the description "Click to read more", one
    without a title tag the title "Untitled". *)
Theorem extracted_metadata_fallbacks p w c t date
    (Hfile : reads_as w p c t)
    (Hdate : fromtimestamp ext t = inr date) :
  exists d,
    extract_post_details ext p w = Returned (Some d) (Fs.record_open p Reading w)
    /\ (count_sub Re.desc_div c = 0 -> description d = txt "Click to read more")
    /\ (count_sub Re.title_open c = 0 -> title d = txt "Untitled").
Proof.
  rewrite (extract_post_details_file ext p w c t date Hfile Hdate).
  eexists. split; [done|]. simpl.
  split.
  - intros H%count_sub_zero; [|done]. unfold describe, Re.desc_search.
    by rewrite H.
  - intros H%count_sub_zero; [|done].
    by rewrite title_search_absent by by apply find_sub_None.
Qed.

Lemma starts_with_second a b needle x y s :
  Ascii.eqb b y = false -> starts_with (a :: b :: needle) (x :: y :: s) = false.
Proof. intros H. simpl. rewrite H. by rewrite andb_false_r. Qed.

Lemma title_close_not_before t rest :
  contains_char "|"%char t = false ->
  forall j, j < length t ->
            starts_with Re.title_close (drop j (t ++ Re.title_close ++ rest)) = false.
Proof.
  induction t as [|c t IH]; intros Hbar j Hj; [simpl in Hj; lia|].
  rewrite contains_char_cons in Hbar. apply orb_false_iff in Hbar as [_ Hbar].
  destruct j as [|j]; [|apply IH; [done|simpl in Hj; lia]].
  rewrite drop_0. destruct t as [|c' t'].
  - by apply starts_with_second.
  - rewrite contains_char_cons in Hbar. apply orb_false_iff in Hbar as [Hc' _].
    by apply starts_with_second.
Qed.

Lemma starts_with_fits needle s x :
  length needle <= length s -> starts_with needle (s ++ x) = starts_with needle s.
Proof.
  revert s. induction needle as [|a needle IH]; intros [|b s] H; simpl in *;
    [done|done|lia|].
  rewrite IH; [done|lia].
Qed.

(** X19. The title is read back: from a page that yields metadata and whose
    title element holds the title create_blog_post gives a post, followed
    by the site suffix, extract_post_details recovers that title, provided
    the title has no vertical bar and no title tag stands earlier in the
    page. *)
Theorem post_title_read_back p w before md_content rest t date
    (Hpage : reads_as w p (before ++ Re.title_open ++ post_title md_content
                           ++ Re.title_close ++ rest) t)
    (Hdate : fromtimestamp ext t = inr date)
    (Hopen : count_sub Re.title_open (before ++ Re.title_open) = 1)
    (Hbar : contains_char "|"%char (post_title md_content) = false) :
  exists d,
    extract_post_details ext p w = Returned (Some d) (Fs.record_open p Reading w)
    /\ title d = post_title md_content.
Proof.
  rewrite (extract_post_details_file ext p w _ t date Hpage Hdate).
  eexists. split; [done|].
  unfold details_of. cbn [title].
  rewrite (title_search_first before _ (post_title md_content)); [done| |].
  - intros j Hj.
    rewrite <- (app_nil_r Re.title_open) in Hopen.
    apply count_sub_one_first in Hopen; [|done].
    apply find_sub_Some in Hopen as (_ & Hno & _).
    specialize (Hno j Hj). rewrite app_nil_r in Hno.
    rewrite app_assoc, drop_app_le by (rewrite length_app; lia).
    rewrite starts_with_fits; [done|].
    rewrite length_drop, length_app. lia.
  - apply lazy_line_until_found.
    + apply post_title_single_line.
    + by apply title_close_not_before.
Qed.

End ExtractFacts.

(** ** generate_blog_html: which pages, and ties *)

Section BlogListFacts.
Context (ext : external).

(** X20. The blog list has one entry for each name of the listing that ends
    in [.html] and is a regular file with a text and a modification time
    that has a local datetime, and no other entry: names with another
    ending, directories, files that are not UTF-8 and files whose time
    datetime.fromtimestamp refuses are passed over.  Generating the list
    changes no file. *)
Theorem generate_blog_html_lists_each_page blog_dir w names
    (Hlist : Fs.listdir blog_dir w = Returned names w) :
  exists w' posts,
    generate_blog_html ext blog_dir w = Returned (flat_map blog_entry posts) w'
    /\ Permutation posts (omap (page_post ext (files w) blog_dir) names)
    /\ (forall d,
          d ∈ posts
          <-> exists name c t date,
                name ∈ names /\ Path.endswith ".html" name = true
                /\ reads_as w (Path.join blog_dir name) c t
                /\ fromtimestamp ext t = inr date
                /\ d = details_of ext (Path.join blog_dir name) c date)
    /\ files w' = files w.
Proof.
  destruct (collect_posts_spec ext blog_dir names [] w) as (w' & Hcollect & Hfiles).
  exists w', (sort_desc (omap (page_post ext (files w) blog_dir) names)).
  split; [|split; [apply sort_desc_perm|split; [|done]]].
  - unfold generate_blog_html, bind. by rewrite Hlist, Hcollect.
  - intros d. rewrite sort_desc_perm, list_elem_of_omap. split.
    + intros (name & Hin & Hpost). exists name.
      unfold page_post, post_at in Hpost.
      destruct (Path.endswith ".html" name) eqn:Hhtml; [|done].
      destruct (files w !! Path.join blog_dir name) as [[raw t| |]|] eqn:E;
        try done.
      destruct (fromtimestamp ext t) as [e|date] eqn:Ed; [done|].
      injection Hpost as <-.
      exists (Text.universal_newlines raw), t, date.
      repeat split; try done. by exists raw.
    + intros (name & c & t & date & Hin & Hhtml & Hfile & Hdate & ->).
      exists name. split; [done|]. by apply (page_post_file ext _ _ _ _ t).
Qed.

End BlogListFacts.

Section SortStability.



End SortStability.

(** ** main *)

Section DriverFacts.
Context (ext : external).

(** X22. Only names ending in [.md] are converted: the conversion loop does
    on a listing what it does on the [.md] names of it. *)
Theorem convert_all_only_md names :
  convert_all ext names
  = convert_all ext (filter (fun name => Path.endswith ".md" name = true) names).
Proof.
  induction names as [|name names IH]; [done|].
  rewrite filter_cons. destruct (decide (Path.endswith ".md" name = true)) as [H|H].
  - simpl. rewrite H. by rewrite IH.
  - apply not_true_is_false in H. simpl. rewrite H.
    unfold bind at 1. unfold ret at 1. exact IH.
Qed.

(** X23. A regular file named like the output directory stops the run at
    once: with the source directory present, makedirs raises FileExistsError,
    main does not catch it, and nothing has been read or written. *)
Theorem main_output_dir_is_a_file w ts c t
    (Hsource : files w !! source_dir = Some (Dir ts))
    (Hblog : files w !! output_dir = Some (File c t)) :
  main ext w = Raised FileExistsError w.
Proof.
  unfold main, bind at 1, main_step1, bind at 1, Fs.isdir. rewrite Hsource.
  unfold bind at 1, Fs.makedirs. by rewrite Hblog.
Qed.

(** X24. With neither a source directory, nor a records file, nor an output
    directory, main returns having changed nothing: all it did was try to
    open the records file; the index file is not even opened. *)
Theorem main_on_an_empty_site w
    (Hsource : files w !! source_dir = None)
    (Hprojects : files w !! projects_file = None)
    (Hblog : files w !! output_dir = None) :
  main ext w = Returned tt (Fs.record_open projects_file Reading w).
Proof.
  unfold main, bind at 1, main_step1, bind at 1, Fs.isdir. rewrite Hsource.
  unfold ret at 1, bind at 1, main_step2, bind at 1.
  unfold generate_projects_html, load_json, bind at 1, Fs.open_read.
  rewrite Hprojects. simpl.
  unfold main_step3, bind, Fs.isdir. simpl. by rewrite Hblog.
Qed.

End DriverFacts.

(** ** The further properties on the small site *)

Lemma heading_becomes_title_witness :
  post_title ([] ++ "#"%char :: " "%char :: ("H"%char :: txt "ello World")
              ++ [newline; newline] ++ txt "Some text.")
  = Text.strip ("H"%char :: txt "ello World").
Proof.
  apply (heading_becomes_title [] " "%char "H"%char (txt "ello World")
           ([newline; newline] ++ txt "Some text.")).
  - reflexivity.
  - by left.
  - reflexivity.
  - reflexivity.
  - unfold single_line. repeat constructor.
  - right. eexists. reflexivity.
Defined.

Lemma no_heading_fallback_title_witness :
  post_title (txt "Just text, no heading.") = txt "Untitled Post".
Proof. apply no_heading_fallback_title. vm_compute. reflexivity. Defined.

Lemma create_blog_post_writes_page_witness :
  exists w',
    create_blog_post Sample.ext "blogs_md/hello.md" "template.html" "blog" Site.ready
    = Returned (Some (output_path_of "blogs_md/hello.md" "blog")) w'
    /\ files w'
       = <[output_path_of "blogs_md/hello.md" "blog" :=
             File (page_with true (txt "<html><head><title>")
                     (txt " | hxr3tic</title></head><body>" ++ Re.desc_div)
                     (txt "</div></body></html>")
                     (post_title Site.hello) (markdown Sample.ext Site.hello))
                  (clock Site.ready)]> (files Site.ready).
Proof.
  apply (create_blog_post_writes_page
           Sample.ext "blogs_md/hello.md" "template.html" "blog" Site.ready
           Site.hello 2%Z true (txt "<html><head><title>")
           (txt " | hxr3tic</title></head><body>" ++ Re.desc_div)
           (txt "</div></body></html>") 3%Z "blog" 4%Z).
  - vm_compute. reflexivity.
  - vm_compute. reflexivity.
  - vm_compute. reflexivity.
  - eexists. split; vm_compute; reflexivity.
  - eexists. split; vm_compute; reflexivity.
  - vm_compute. reflexivity.
  - vm_compute. reflexivity.
Defined.

Lemma create_blog_post_without_output_dir_witness :
  exists w',
    create_blog_post Sample.ext "blogs_md/hello.md" "template.html" "blog"
      Site.no_output_dir
    = Raised FileNotFoundError w'
    /\ files w' = files Site.no_output_dir.
Proof.
  apply (create_blog_post_without_output_dir
           Sample.ext "blogs_md/hello.md" "template.html" "blog" Site.no_output_dir
           Site.hello 2%Z Site.template 3%Z "blog").
  - vm_compute. reflexivity.
  - vm_compute. reflexivity.
  - vm_compute. reflexivity.
  - eexists. split; vm_compute; reflexivity.
  - eexists. split; vm_compute; reflexivity.
Defined.

Lemma create_blog_post_again_witness :
  create_blog_post Sample.ext "blogs_md/hello.md" "other.html" "blog" Site.converted
  = Returned (Some "blog/hello.html") Site.converted.
Proof.
  apply (create_blog_post_again
           Sample.ext "blogs_md/hello.md" "template.html" "blog" Site.ready).
  vm_compute. reflexivity.
Defined.

Lemma create_blog_post_missing_input_witness :
  exists trace,
    let w' := World (files Sample.no_template) (clock Sample.no_template)
                    (opened Sample.no_template ++ trace) in
    create_blog_post Sample.ext "blogs_md/a.md" "template.html" "blog" Sample.no_template
    = Returned None w'
    /\ Forall (fun e => e.2 = Reading) trace
    /\ forall filename rest,
         Path.endswith ".md" filename = true ->
         "blogs_md/a.md" = Path.join source_dir filename ->
         "template.html" = template_file ->
         "blog" = output_dir ->
         convert_all Sample.ext (filename :: rest) Sample.no_template
         = convert_all Sample.ext rest w'.
Proof.
  apply (create_blog_post_missing_input
           Sample.ext "blogs_md/a.md" "template.html" "blog" Sample.no_template).
  - vm_compute. reflexivity.
  - right. split; [|split; vm_compute; reflexivity].
    exists (txt "# A"), 2%Z. eexists. split; vm_compute; reflexivity.
Defined.

Lemma output_path_replaces_extension_witness :
  output_path_of (Path.of_text (txt "blogs_md" ++ Path.slash :: txt "v1.2" ++ txt ".md"))
                 (Path.of_text (txt "blog"))
  = Path.of_text (txt "blog" ++ Path.slash :: txt "v1.2" ++ txt ".html").
Proof.
  apply (output_path_replaces_extension
           (txt "blogs_md") (txt "v1.2") (txt "blog") (txt "blo") "g"%char);
    reflexivity.
Defined.

Lemma update_index_html_missing_file_witness :
  update_index_html Sample.ext (txt "<p>new</p>") (txt "PROJECTS_PLACEHOLDER")
    "index.html" Sample.empty_blog
  = Returned tt (Fs.record_open "index.html" Reading Sample.empty_blog).
Proof.
  apply update_index_html_missing_file; vm_compute; reflexivity.
Defined.

Lemma update_index_html_rejected_fragment_witness :
  update_index_html Sample.ext (txt "C:" ++ backslash :: "d"%char :: txt "ocs")
    (txt "PROJECTS_PLACEHOLDER") "index.html" Sample.with_region
  = Raised TemplateError (Fs.record_open "index.html" Reading Sample.with_region).
Proof.
  apply (update_index_html_rejected_fragment
           Sample.ext (txt "C:") "d"%char (txt "ocs") (txt "PROJECTS_PLACEHOLDER")
           "index.html" Sample.with_region
           (txt "<main><!-- PROJECTS_PLACEHOLDER_START -->old<!-- PROJECTS_PLACEHOLDER_END --></main>")
           2%Z).
  - vm_compute. reflexivity.
  - eexists. split; vm_compute; reflexivity.
  - vm_compute. reflexivity.
  - vm_compute. reflexivity.
  - vm_compute. reflexivity.
  - vm_compute. reflexivity.
Defined.

Lemma update_index_html_overwrites_witness :
  exists w1 w2 t1 t2,
    update_index_html Sample.ext (txt "<p>one</p>") (txt "PROJECTS_PLACEHOLDER")
      "index.html" Sample.with_region = Returned tt w1
    /\ update_index_html Sample.ext (txt "<p>two</p>") (txt "PROJECTS_PLACEHOLDER")
         "index.html" w1 = Returned tt w2
    /\ files w2 !! "index.html"
       = Some (File (txt "<main>" ++ projects_start ++ [newline] ++ txt "<p>two</p>"
                     ++ Markup.nl 24 ++ projects_end ++ txt "</main>") t2)
    /\ files (world_of (update_index_html Sample.ext (txt "<p>two</p>")
                          (txt "PROJECTS_PLACEHOLDER") "index.html"
                          Sample.with_region))
       !! "index.html"
       = Some (File (txt "<main>" ++ projects_start ++ [newline] ++ txt "<p>two</p>"
                     ++ Markup.nl 24 ++ projects_end ++ txt "</main>") t1).
Proof.
  apply (update_index_html_overwrites
           Sample.ext (txt "<p>one</p>") (txt "<p>two</p>")
           (txt "PROJECTS_PLACEHOLDER") "index.html" Sample.with_region
           (txt "<main>") (txt "old") (txt "</main>") 2%Z).
  - vm_compute. reflexivity.
  - vm_compute. reflexivity.
  - vm_compute. reflexivity.
  - vm_compute. reflexivity.
  - vm_compute. reflexivity.
  - vm_compute. reflexivity.
  - eexists. split; vm_compute; reflexivity.
  - vm_compute. reflexivity.
  - vm_compute. reflexivity.
Defined.

Lemma generate_projects_html_in_file_order_witness :
  generate_projects_html (Site.ext_json (PList Site.two_projects)) projects_file
    Sample.with_region
  = Returned (concat [Sample.card_of Sample.project_with_demo; Sample.bare_card])
             (Fs.record_open projects_file Reading Sample.with_region).
Proof.
  apply (generate_projects_html_in_file_order
           (Site.ext_json (PList Site.two_projects)) projects_file
           Sample.with_region (txt "[{}]") 3%Z Site.two_projects).
  - eexists. split; vm_compute; reflexivity.
  - reflexivity.
  - constructor; [vm_compute; reflexivity|].
    constructor; [vm_compute; reflexivity|]. constructor.
Defined.

Lemma generate_projects_html_non_object_witness :
  generate_projects_html (Site.ext_json (PList Site.mixed)) projects_file
    Sample.with_region
  = Raised AttributeError (Fs.record_open projects_file Reading Sample.with_region).
Proof.
  apply (generate_projects_html_non_object
           (Site.ext_json (PList Site.mixed)) projects_file Sample.with_region
           (txt "[{}]") 3%Z [PDict []] [Sample.bare_card] (PInt 3) [PDict []]).
  - eexists. split; vm_compute; reflexivity.
  - reflexivity.
  - constructor; [vm_compute; reflexivity|]. constructor.
  - reflexivity.
Defined.

Lemma generate_projects_html_not_iterable_witness :
  generate_projects_html (Site.ext_json (PInt 42)) projects_file Sample.with_region
  = Raised TypeError (Fs.record_open projects_file Reading Sample.with_region).
Proof.
  apply (generate_projects_html_not_iterable
           (Site.ext_json (PInt 42)) projects_file Sample.with_region
           (txt "[{}]") 3%Z (PInt 42)).
  - eexists. split; vm_compute; reflexivity.
  - reflexivity.
  - exact I.
Defined.

Lemma cards_joints_are_clean_witness :
  Text.count_sub live_demo
    (concat [Sample.card_of Sample.project_with_demo; Sample.bare_card])
  = sum_list (map (Text.count_sub live_demo)
                [Sample.card_of Sample.project_with_demo; Sample.bare_card]).
Proof.
  apply (cards_joints_are_clean Sample.ext live_demo Site.two_projects).
  - discriminate.
  - reflexivity.
  - constructor; [vm_compute; reflexivity|].
    constructor; [vm_compute; reflexivity|]. constructor.
Defined.

Lemma extracted_metadata_bounds_witness :
  let d := details_of Sample.ext "blog/p.html" (Sample.page Sample.space_at_150)
             5000000%Z in
  length (description d) <= 150
  /\ single_line (title d)
  /\ path d = txt "blog/" ++ txt (Path.basename "blog/p.html")
  /\ fromtimestamp Sample.ext 5%Z = inr (date_obj d)
  /\ date_str d = strftime Sample.ext (date_obj d).
Proof.
  apply (extracted_metadata_bounds
           Sample.ext "blog/p.html" (Sample.blog_with Sample.space_at_150) _
           (Fs.record_open "blog/p.html" Reading (Sample.blog_with Sample.space_at_150))
           5%Z (Sample.page Sample.space_at_150)).
  - eexists. split; vm_compute; reflexivity.
  - vm_compute. reflexivity.
Defined.

Lemma extracted_metadata_fallbacks_witness :
  exists d,
    extract_post_details Sample.ext "blog/x.html" Site.bare_page
    = Returned (Some d) (Fs.record_open "blog/x.html" Reading Site.bare_page)
    /\ (Text.count_sub Re.desc_div (txt "<p>hi</p>") = 0 ->
        description d = txt "Click to read more")
    /\ (Text.count_sub Re.title_open (txt "<p>hi</p>") = 0 ->
        title d = txt "Untitled").
Proof.
  apply (extracted_metadata_fallbacks
           Sample.ext "blog/x.html" Site.bare_page (txt "<p>hi</p>") 7%Z 7000000%Z).
  - eexists. split; vm_compute; reflexivity.
  - vm_compute. reflexivity.
Defined.

Lemma post_title_read_back_witness :
  exists d,
    extract_post_details Sample.ext "blog/hello.html" Site.converted
    = Returned (Some d) (Fs.record_open "blog/hello.html" Reading Site.converted)
    /\ title d = post_title Site.hello.
Proof.
  apply (post_title_read_back
           Sample.ext "blog/hello.html" Site.converted (txt "<html><head>")
           Site.hello
           (txt "</head><body>" ++ Re.desc_div ++ markdown Sample.ext Site.hello
            ++ txt "</div></body></html>")
           100%Z 100000000%Z).
  - eexists. split; vm_compute; reflexivity.
  - vm_compute. reflexivity.
  - vm_compute. reflexivity.
  - vm_compute. reflexivity.
Defined.

Lemma generate_blog_html_lists_each_page_witness :
  exists w' posts,
    generate_blog_html Sample.ext "blog" Sample.autumn_blog
    = Returned (flat_map blog_entry posts) w'
    /\ Permutation posts
         (omap (page_post Sample.ext (files Sample.autumn_blog) "blog")
               ["early.html"; "late.html"])
    /\ (forall d,
          d ∈ posts
          <-> exists name c t date,
                name ∈ ["early.html"; "late.html"]
                /\ Path.endswith ".html" name = true
                /\ reads_as Sample.autumn_blog (Path.join "blog" name) c t
                /\ fromtimestamp Sample.ext t = inr date
                /\ d = details_of Sample.ext (Path.join "blog" name) c date)
    /\ files w' = files Sample.autumn_blog.
Proof.
  apply (generate_blog_html_lists_each_page Sample.ext "blog" Sample.autumn_blog).
  vm_compute. reflexivity.
Defined.

Lemma main_output_dir_is_a_file_witness :
  main Sample.ext Site.blog_is_a_file = Raised FileExistsError Site.blog_is_a_file.
Proof.
  apply (main_output_dir_is_a_file Sample.ext Site.blog_is_a_file 1%Z (txt "x") 2%Z);
    vm_compute; reflexivity.
Defined.

Lemma main_on_an_empty_site_witness :
  main Sample.ext Sample.only_index
  = Returned tt (Fs.record_open projects_file Reading Sample.only_index).
Proof.
  apply main_on_an_empty_site; vm_compute; reflexivity.
Defined.
